(** * Personal expense tracker: the ledger core of [tracker.py]

    A shallow embedding of class [ExpenseLogic] (the "backend" of
    [tracker.py]) and the properties of its public operations, followed
    by the callbacks of the window (class [ExpenseTrackerApp]), as far as
    they decide what happens to the object and what is shown, and the
    colour helpers of the style block.

    Conventions of the embedding.
    - A Python [str] is a Rocq [string] holding its UTF-8 bytes.
      Concatenation, equality, prefix tests and ordering by code point are
      the same on both sides.  The built-ins that look at single characters
      ([str.strip], [str.title], [float], [datetime.strptime]) are embedded
      for ASCII text: a byte above 127 counts as no space, letter or digit
      and is kept as it is.  Python does more with the characters beyond
      ASCII ([float] and [strptime] read the digits of other scripts,
      [strip] drops the no-break space, [title] changes accented letters),
      so a property that depends on which text these built-ins accept, or
      on the text they give back, is stated for ASCII text
      ([PyStr.isascii]).
    - A Python [float] is an IEEE 754 binary64 value, written as a
      [spec_float] with precision 53 and [emax = 1024].
    - A Python [int] is a [Z].
    - A [dict] with string keys is a [gmap string _]; a [list] is a [list].
    - The data file is part of the state ([World]): every mutating method
      ends in [save_data]. *)

From Stdlib Require Import ZArith NArith String Ascii List Bool Lia.
From Stdlib Require Import DecimalString DecimalN SpecFloat.
From Stdlib Require HexadecimalString.
From stdpp Require Import base option list gmap strings sorting.

Local Open Scope Z_scope.

(** ** Characters *)

Module PyChar.

Definition code (c : ascii) : Z := Z.of_N (N_of_ascii c).

Definition of_code (n : Z) : ascii := ascii_of_N (Z.to_N n).

Definition in_range (lo hi : Z) (c : ascii) : bool :=
  (lo <=? code c) && (code c <=? hi).

Definition is_digit : ascii -> bool := in_range 48 57.
Definition is_upper : ascii -> bool := in_range 65 90.
Definition is_lower : ascii -> bool := in_range 97 122.
Definition is_cased (c : ascii) : bool := is_upper c || is_lower c.

(** [Py_UNICODE_ISSPACE] below 128: TAB..CR, FS..US and the blank. *)
Definition is_unicode_space (c : ascii) : bool :=
  in_range 9 13 c || in_range 28 32 c.

(** [Py_ISSPACE], the C-locale set used by [float]: TAB..CR and the blank. *)
Definition is_c_space (c : ascii) : bool :=
  in_range 9 13 c || (code c =? 32).

Definition to_lower (c : ascii) : ascii :=
  if is_upper c then of_code (code c + 32) else c.
Definition to_upper (c : ascii) : ascii :=
  if is_lower c then of_code (code c - 32) else c.

Definition digit_val (c : ascii) : Z := code c - 48.
Definition digit_char (d : Z) : ascii := of_code (48 + d).

End PyChar.

(** ** Strings *)

Module PyStr.
Import PyChar.

Fixpoint lstrip (sp : ascii -> bool) (s : string) : string :=
  match s with
  | String c r => if sp c then lstrip sp r else s
  | EmptyString => EmptyString
  end.

(** Dropping the trailing run: a character goes when it is a space and
    everything after it went too. *)
Fixpoint rstrip (sp : ascii -> bool) (s : string) : string :=
  match s with
  | String c r =>
      match rstrip sp r with
      | EmptyString => if sp c then EmptyString else String c EmptyString
      | r' => String c r'
      end
  | EmptyString => EmptyString
  end.

(** [s.strip()] *)
Definition strip (s : string) : string :=
  rstrip is_unicode_space (lstrip is_unicode_space s).

(** What [title] makes of a character: lower case after a cased
    character, title case otherwise. *)
Definition recase (previous_is_cased : bool) (c : ascii) : ascii :=
  if previous_is_cased then to_lower c else to_upper c.

Fixpoint title_from (previous_is_cased : bool) (s : string) : string :=
  match s with
  | String c r => String (recase previous_is_cased c) (title_from (is_cased c) r)
  | EmptyString => EmptyString
  end.

(** [s.title()] *)
Definition title (s : string) : string := title_from false s.

Fixpoint lower (s : string) : string :=
  match s with
  | String c r => String (to_lower c) (lower r)
  | EmptyString => EmptyString
  end.

(** [s.startswith(p)] *)
Fixpoint startswith (s p : string) : bool :=
  match p, s with
  | EmptyString, _ => true
  | String a p', String b s' => if Ascii.eqb a b then startswith s' p' else false
  | String _ _, EmptyString => false
  end.

Fixpoint contains_char (c : ascii) (s : string) : bool :=
  match s with
  | String a r => Ascii.eqb a c || contains_char c r
  | EmptyString => false
  end.

(** [s.isascii()]: every character is below 128. *)
Fixpoint isascii (s : string) : bool :=
  match s with
  | String c r => (code c <? 128) && isascii r
  | EmptyString => true
  end.

(** Decimal numeral of a natural number, no padding. *)
Definition of_nonneg (n : Z) : string :=
  NilZero.string_of_uint (N.to_uint (Z.to_N n)).

Fixpoint zeros (k : nat) : string :=
  match k with
  | O => EmptyString
  | S k' => String "0" (zeros k')
  end.

(** Decimal numeral padded with zeros on the left to [width] characters. *)
Definition zero_padded (width : nat) (n : Z) : string :=
  let d := of_nonneg n in
  String.append (zeros (width - String.length d)) d.

End PyStr.

(** ** Floats *)

Module PyFloat.
Import PyChar.

Definition float : Type := spec_float.

Definition prec : Z := 53.
Definition emax : Z := 1024.

Definition zero : float := S754_zero false.
Definition nan : float := S754_nan.
Definition inf (negative : bool) : float := S754_infinity negative.

Definition add : float -> float -> float := SFadd prec emax.
Definition sub : float -> float -> float := SFsub prec emax.
Definition abs : float -> float := SFabs.
Definition ltb : float -> float -> bool := SFltb.
Definition leb : float -> float -> bool := SFleb.
Definition eqb : float -> float -> bool := SFeqb.

Definition is_finite (x : float) : bool :=
  match x with
  | S754_zero _ | S754_finite _ _ _ => true
  | S754_infinity _ | S754_nan => false
  end.

Definition is_nan (x : float) : bool :=
  match x with S754_nan => true | _ => false end.

Definition signbit (x : float) : bool :=
  match x with
  | S754_zero s | S754_infinity s | S754_finite s _ _ => s
  | S754_nan => false
  end.

(** The binary64 value nearest to [(-1)^s * m * 10^k] (ties to even), as
    the correctly rounded [strtod] of CPython computes it. *)
Definition of_decimal (s : bool) (m k : Z) : float :=
  match m with
  | Zpos p =>
      match k with
      | Zneg q =>
          let '(mz, ez, lz) :=
            SFdiv_core_binary prec emax (Zpos p) 0 (10 ^ Zpos q) 0 in
          binary_round_aux prec emax s mz ez lz
      | _ =>
          binary_normalize prec emax (if s then - (Zpos p * 10 ^ k) else Zpos p * 10 ^ k) 0 s
      end
  | _ => S754_zero s
  end.

(** *** [float(str)] *)

(** A run of decimal digits: the number it denotes on top of [acc], the
    length of the run, and what follows it. *)
Fixpoint read_digits (acc : Z) (len : Z) (s : string) : Z * Z * string :=
  match s with
  | String c r =>
      if is_digit c then read_digits (10 * acc + digit_val c) (len + 1) r
      else (acc, len, s)
  | EmptyString => (acc, len, s)
  end.

Definition read_sign (s : string) : bool * string :=
  match s with
  | String "-" r => (true, r)
  | String "+" r => (false, r)
  | _ => (false, s)
  end.

(** [_Py_dg_strtod] on a whole string: digits, an optional point and more
    digits (one digit at least in all), an optional exponent with one
    digit at least; nothing may follow. *)
Definition parse_decimal (s : bool) (body : string) : option float :=
  let '(m1, n1, r1) := read_digits 0 0 body in
  let '(m2, n2, r2) :=
    match r1 with
    | String "." r => read_digits m1 0 r
    | _ => (m1, 0, r1)
    end in
  if n1 + n2 =? 0 then None
  else
    match r2 with
    | EmptyString => Some (of_decimal s m2 (- n2))
    | String c r3 =>
        if Ascii.eqb (to_lower c) "e" then
          let '(esign, r4) := read_sign r3 in
          let '(ev, en, r5) := read_digits 0 0 r4 in
          if en =? 0 then None
          else
            match r5 with
            | EmptyString =>
                Some (of_decimal s m2 ((if esign then - ev else ev) - n2))
            | String _ _ => None
            end
        else None
    end.

(** [_Py_parse_inf_or_nan] on a whole string. *)
Definition parse_inf_or_nan (s : bool) (body : string) : option float :=
  let b := PyStr.lower body in
  if String.eqb b "inf" || String.eqb b "infinity" then Some (inf s)
  else if String.eqb b "nan" then Some nan
  else None.

(** [_Py_string_to_number_with_underscores]: an underscore is allowed
    only between two digits; the underscores are then dropped. *)
Fixpoint drop_underscores (prev : ascii) (s : string) : option string :=
  match s with
  | String c r =>
      if Ascii.eqb c "_" then
        if is_digit prev then drop_underscores c r else None
      else if Ascii.eqb prev "_" && negb (is_digit c) then None
      else option_map (String c) (drop_underscores c r)
  | EmptyString => if Ascii.eqb prev "_" then None else Some EmptyString
  end.

(** [float(s)] for a string [s]: [None] stands for [ValueError]. *)
Definition of_string (s : string) : option float :=
  match (if PyStr.contains_char "_" s then drop_underscores "000" s else Some s) with
  | None => None
  | Some t =>
      let t := PyStr.rstrip is_c_space (PyStr.lstrip is_c_space t) in
      let '(sg, body) := read_sign t in
      match parse_decimal sg body with
      | Some x => Some x
      | None => parse_inf_or_nan sg body
      end
  end.

(** *** [format(x, ".2f")] *)

(** The integer nearest to [m * 2^e * 100], ties to even. *)
Definition hundredths (m : positive) (e : Z) : Z :=
  match e with
  | Zneg p =>
      let d := 2 ^ Zpos p in
      let n := Zpos m * 100 in
      let q := n / d in
      match 2 * (n mod d) ?= d with
      | Lt => q
      | Gt => q + 1
      | Eq => if Z.even q then q else q + 1
      end
  | _ => Zpos m * 100 * 2 ^ e
  end.

Definition fixed2 (negative : bool) (h : Z) : string :=
  String.append (if negative then "-" else "")
    (String.append (PyStr.of_nonneg (h / 100))
       (String "." (PyStr.zero_padded 2 (h mod 100)))).

Definition format_2f (x : float) : string :=
  match x with
  | S754_nan => "nan"
  | S754_infinity s => if s then "-inf" else "inf"
  | S754_zero s => fixed2 s 0
  | S754_finite s m e => fixed2 s (hundredths m e)
  end.

(** [total = 0.0] followed by [total += x] for each item in turn. *)
Definition running_total (xs : list float) : float := fold_left add xs zero.

(** [sum(xs)]: the items added from left to right onto the start value
    0, here the float 0.0 (the integer 0 that Python returns for no item
    prints and compares the same).  CPython 3.12 and later carry a
    compensation term along, which can change the last bits of the
    result; the properties below do not depend on how [sum] rounds. *)
Definition sum (xs : list float) : float := running_total xs.

End PyFloat.

(** ** Dates *)

Module PyDate.
Import PyChar.

(** A [datetime] value, as far as the ledger looks at it. *)
Record datetime := { year : Z; month : Z; day : Z }.

Definition is_leap (y : Z) : bool :=
  (y mod 4 =? 0) && (negb (y mod 100 =? 0) || (y mod 400 =? 0)).

Definition days_in_month (y m : Z) : Z :=
  if m =? 2 then (if is_leap y then 29 else 28)
  else if (m =? 4) || (m =? 6) || (m =? 9) || (m =? 11) then 30
  else 31.

(** The constructor check of [datetime.date]. *)
Definition valid (y m d : Z) : bool :=
  (1 <=? y) && (y <=? 9999) && (1 <=? m) && (m <=? 12)
  && (1 <=? d) && (d <=? days_in_month y m).

(** *** The regular expression [_strptime] builds for ['%Y-%m-%d']

    [(\d\d\d\d)-(1[0-2]|0[1-9]|[1-9])-(3[0-1]|[1-2]\d|0[1-9]|[1-9]| [1-9])].
    Each group gives the list of its matches at the head of the
    string, in the order the alternatives are tried, each with what is
    left of the string. *)

Definition one (p : ascii -> bool) (s : string) : list (ascii * string) :=
  match s with
  | String c r => if p c then [(c, r)] else []
  | EmptyString => []
  end.

Definition two (p q : ascii -> bool) (s : string) : list (Z * string) :=
  '(a, r) ← one p s; '(b, r') ← one q r;
  [(10 * digit_val a + digit_val b, r')].

Definition group_Y (s : string) : list (Z * string) :=
  '(a, r) ← two is_digit is_digit s; '(b, r') ← two is_digit is_digit r;
  [(100 * a + b, r')].

Definition single (p : ascii -> bool) (s : string) : list (Z * string) :=
  '(a, r) ← one p s; [(digit_val a, r)].

Definition is_char (c : ascii) : ascii -> bool := fun x => Ascii.eqb x c.

Definition group_m (s : string) : list (Z * string) :=
  two (is_char "1") (in_range 48 50) s
  ++ two (is_char "0") (in_range 49 57) s
  ++ single (in_range 49 57) s.

Definition group_d (s : string) : list (Z * string) :=
  two (is_char "3") (in_range 48 49) s
  ++ two (in_range 49 50) is_digit s
  ++ two (is_char "0") (in_range 49 57) s
  ++ single (in_range 49 57) s
  ++ ('(_, r) ← one (is_char " ") s; single (in_range 49 57) r).

Definition dash (s : string) : list string :=
  '(_, r) ← one (is_char "-") s; [r].

(** [format_regex.match(data_string)]: the first way to match, with the
    text that was not consumed. *)
Definition regex_match (s : string) : option (Z * Z * Z * string) :=
  head ('(y, r1) ← group_Y s; r2 ← dash r1;
        '(m, r3) ← group_m r2; r4 ← dash r3;
        '(d, r5) ← group_d r4; [(y, m, d, r5)]).

(** [datetime.strptime(s, '%Y-%m-%d')]; [None] stands for [ValueError]
    (no match, unconverted data remains, or not a calendar date). *)
Definition strptime (s : string) : option datetime :=
  match regex_match s with
  | Some (y, m, d, EmptyString) =>
      if valid y m d then Some {| year := y; month := m; day := d |} else None
  | _ => None
  end.

(** [dt.strftime('%Y-%m-%d')].  The year is written as the C library
    writes [%Y]: with glibc that is the plain decimal numeral, so a year
    below 1000 comes without leading zeros (['999-12-31'] for the last
    day of the year 999); month and day have two digits.  From the year
    1000 on this is the zero-padded form YYYY-MM-DD on every platform. *)
Definition strftime_Ymd (dt : datetime) : string :=
  String.append (PyStr.of_nonneg (year dt))
    (String "-" (String.append (PyStr.zero_padded 2 (month dt))
       (String "-" (PyStr.zero_padded 2 (day dt))))).

(** [dt.strftime('%Y-%m')] *)
Definition strftime_Ym (dt : datetime) : string :=
  String.append (PyStr.of_nonneg (year dt))
    (String "-" (PyStr.zero_padded 2 (month dt))).

Definition month_names : list string :=
  ["January"; "February"; "March"; "April"; "May"; "June"; "July";
   "August"; "September"; "October"; "November"; "December"].

(** [dt.strftime('%B %Y')] *)
Definition strftime_BY (dt : datetime) : string :=
  String.append (nth (Z.to_nat (month dt - 1)) month_names "")
    (String " " (PyStr.of_nonneg (year dt))).

End PyDate.

(** ** The ledger state *)

Abbreviation float := PyFloat.float.

(** One entry of [self.transactions] (a dict with these six keys). *)
Record Transaction := {
  t_id : Z;
  t_type : string;
  t_amount : float;
  t_category : string;
  t_description : string;
  t_date : string
}.

(** The attributes of an [ExpenseLogic] object that change and are saved;
    [self.currencies] is set once and never written again (see
    [currencies]). *)
Record ExpenseLogic := {
  transactions : list Transaction;
  categories : gmap string (list string);
  budgets : gmap string float;
  currency_symbol : string
}.

(** What [json.load] returns for the data file: an object in which each
    of the four keys may be missing and, when present, has the shape
    [save_data] gives it.  A file holding other JSON is outside the
    embedding. *)
Record Document := {
  doc_transactions : option (list Transaction);
  doc_categories : option (gmap string (list string));
  doc_budgets : option (gmap string float);
  doc_currency_symbol : option string
}.

(** [DATA_FILE] on disk, by what [load_data] meets there.
    - [Missing]: [os.path.exists] is false.
    - [Corrupted]: the file is there and reading it raises one of the two
      exceptions that [load_data] catches: [IOError] from [open] or [read]
      (no permission, a directory), or [json.JSONDecodeError] (the text is
      not JSON; an empty or truncated file is of this kind).
    - [Json d]: [json.load] returns the object [d].
    A file whose bytes are no text in the encoding of the locale
    ([UnicodeDecodeError]) and a file that holds JSON other than an object
    ([AttributeError] at [data.get]) raise exceptions that [load_data] does
    not catch: [ExpenseLogic()] then fails and the file stays as it is.
    Such files are outside the embedding. *)
Inductive File :=
| Missing
| Corrupted
| Json (d : Document).

(** The object together with its data file; [writable] tells whether
    [open(DATA_FILE, 'w')] succeeds, and the save then goes through.  When
    it is false [open] raises [IOError] and the file is not touched.  A
    write that fails after [open] has emptied the file (a full disk)
    leaves a truncated file; that case is outside the embedding. *)
Record World := {
  self : ExpenseLogic;
  disk : File;
  writable : bool
}.

Inductive exception :=
| KeyError (key : string).

Inductive outcome (A : Type) :=
| Return (a : A)
| Raise (e : exception).
Arguments Return {A} a.
Arguments Raise {A} e.

Definition with_self (w : World) (l : ExpenseLogic) : World :=
  {| self := l; disk := disk w; writable := writable w |}.

Definition default_categories : gmap string (list string) :=
  list_to_map
    [("expense", ["Groceries"; "Rent"; "Transport"; "Dining"; "Utilities"; "Other"]);
     ("income", ["Salary"; "Bonus"; "Gifts"; "Other"])].

(** [self.currencies], the fixed table of display names and symbols, with
    the text exactly as the source file has it. *)
Definition currencies : list (string * string) :=
  [("USD ($)", "$");
   ("EUR (â‚¬)", "â‚¬");
   ("GBP (Â£)", "Â£");
   ("INR (â‚¹)", "â‚¹");
   ("JPY (Â¥)", "Â¥")].

(** ** Persistence *)

(** The dict [save_data] hands to [json.dump]. *)
Definition dump (l : ExpenseLogic) : Document :=
  {| doc_transactions := Some (transactions l);
     doc_categories := Some (categories l);
     doc_budgets := Some (budgets l);
     doc_currency_symbol := Some (currency_symbol l) |}.

(** [save_data]: when [open(DATA_FILE, 'w')] raises [IOError] the error
    is printed and swallowed, and the file is left as it was. *)
Definition save_data (w : World) : World :=
  if writable w
  then {| self := self w; disk := Json (dump (self w)); writable := writable w |}
  else w.

(** [load_data]: the [except (json.JSONDecodeError, IOError)] branch
    is the case [Corrupted], the [else] branch the case [Missing]. *)
Definition load_data (w : World) : World :=
  match disk w with
  | Json data =>
      with_self w
        {| transactions := default [] (doc_transactions data);
           categories := default (categories (self w)) (doc_categories data);
           budgets := default ∅ (doc_budgets data);
           currency_symbol := default "$" (doc_currency_symbol data) |}
  | Corrupted => save_data w
  | Missing => save_data w
  end.

(** [ExpenseLogic()] run against a given file. *)
Definition init (file : File) (can_write : bool) : World :=
  load_data
    {| self := {| transactions := [];
                  categories := default_categories;
                  budgets := ∅;
                  currency_symbol := "$" |};
       disk := file;
       writable := can_write |}.

(** ** Currency *)

Definition get_currency_symbol (w : World) : string := currency_symbol (self w).

Definition get_currencies (w : World) : list (string * string) := currencies.

Definition set_currency (new_symbol : string) (w : World) : World :=
  save_data
    (with_self w
       {| transactions := transactions (self w);
          categories := categories (self w);
          budgets := budgets (self w);
          currency_symbol := new_symbol |}).

Definition format_currency (amount : float) (w : World) : string :=
  String.append (currency_symbol (self w)) (PyFloat.format_2f amount).

(** ** Transactions *)

Definition date_gt (a b : Transaction) : bool :=
  match String.compare (t_date a) (t_date b) with Gt => true | _ => false end.

(** [x] goes in front of the first entry whose date is not later than
    its own. *)
Fixpoint insert_desc (x : Transaction) (l : list Transaction) : list Transaction :=
  match l with
  | y :: r => if date_gt y x then y :: insert_desc x r else x :: l
  | [] => [x]
  end.

(** [l.sort(key=lambda x: x['date'], reverse=True)]: a stable sort, so
    entries of the same date keep their order. *)
Fixpoint sort_by_date_desc (l : list Transaction) : list Transaction :=
  match l with
  | x :: r => insert_desc x (sort_by_date_desc r)
  | [] => []
  end.

Definition invalid_msg : string := "Invalid amount or date format (YYYY-MM-DD).".

(** The dict built for a new entry; its id is [len(self.transactions) + 1]. *)
Definition new_transaction (w : World) (trans_type : string) (amount : float)
    (category description date : string) : Transaction :=
  {| t_id := Z.of_nat (length (transactions (self w))) + 1;
     t_type := trans_type;
     t_amount := amount;
     t_category := category;
     t_description := description;
     t_date := date |}.

(** [add_transaction]: the two conversions raise [ValueError], which the
    first handler turns into the failure pair; nothing else in the body
    raises on strings, so the second handler is never entered. *)
Definition add_transaction (trans_type amount category description date_str : string)
    (w : World) : World * (bool * string) :=
  match PyFloat.of_string amount with
  | None => (w, (false, invalid_msg))
  | Some parsed =>
      let amount := PyFloat.abs parsed in
      match PyDate.strptime date_str with
      | None => (w, (false, invalid_msg))
      | Some dt =>
          let date := PyDate.strftime_Ymd dt in
          let transaction :=
            new_transaction w trans_type amount category description date in
          (save_data
             (with_self w
                {| transactions :=
                     sort_by_date_desc (transactions (self w) ++ [transaction]);
                   categories := categories (self w);
                   budgets := budgets (self w);
                   currency_symbol := currency_symbol (self w) |}),
           (true, "Transaction added successfully."))
      end
  end.

(** ** Categories *)

Definition get_categories (trans_type : string) (w : World) : list string :=
  default [] (categories (self w) !! trans_type).

Definition string_in (x : string) (l : list string) : bool :=
  existsb (String.eqb x) l.

(** [name.strip().title()] *)
Definition normalize (name : string) : string := PyStr.title (PyStr.strip name).

(** [add_category]: [and] evaluates its right operand, and with it
    [self.categories[trans_type]], only when the name is not empty. *)
Definition add_category (new_category trans_type : string) (w : World)
    : World * outcome (bool * string) :=
  let new_category := normalize new_category in
  if negb (String.eqb new_category "") then
    match categories (self w) !! trans_type with
    | None => (w, Raise (KeyError trans_type))
    | Some existing =>
        if negb (string_in new_category existing) then
          (save_data
             (with_self w
                {| transactions := transactions (self w);
                   categories :=
                     <[trans_type := (existing ++ [new_category])]> (categories (self w));
                   budgets := budgets (self w);
                   currency_symbol := currency_symbol (self w) |}),
           Return (true, String.append "Category '"
                           (String.append new_category "' added.")))
        else (w, Return (false, "Category already exists."))
    end
  else (w, Return (false, "Category name cannot be empty.")).

(** ** Budgets *)

Definition get_budgets (w : World) : gmap string float := budgets (self w).

Definition set_budget (category amount : string) (w : World) : World * (bool * string) :=
  match PyFloat.of_string amount with
  | None => (w, (false, "Invalid amount."))
  | Some amount =>
      if PyFloat.ltb amount PyFloat.zero then
        (w, (false, "Budget amount cannot be negative."))
      else
        let w' :=
          save_data
            (with_self w
               {| transactions := transactions (self w);
                  categories := categories (self w);
                  budgets := <[category := amount]> (budgets (self w));
                  currency_symbol := currency_symbol (self w) |}) in
        (w', (true, String.append "Budget for "
                      (String.append category
                         (String.append " set to "
                            (String.append (format_currency amount w') ".")))))
  end.

(** ** Monthly report *)

Record Report := {
  month_name : string;
  total_income : float;
  total_expense : float;
  net_savings : float;
  spending_by_category : gmap string float
}.

Definition has_type (ty : string) (t : Transaction) : bool := String.eqb (t_type t) ty.

(** One turn of the loop that fills the [defaultdict(float)]. *)
Definition spend (d : gmap string float) (t : Transaction) : gmap string float :=
  if has_type "expense" t
  then <[t_category t := PyFloat.add (default PyFloat.zero (d !! t_category t)) (t_amount t)]> d
  else d.

(** [get_monthly_report_data], with [datetime.now()] given as [now]. *)
Definition get_monthly_report_data (now : PyDate.datetime) (w : World) : Report :=
  let current_month_str := PyDate.strftime_Ym now in
  let month_transactions :=
    List.filter (fun t => PyStr.startswith (t_date t) current_month_str)
                (transactions (self w)) in
  let total_income :=
    PyFloat.sum (List.map t_amount (List.filter (has_type "income") month_transactions)) in
  let total_expense :=
    PyFloat.sum (List.map t_amount (List.filter (has_type "expense") month_transactions)) in
  {| month_name := PyDate.strftime_BY now;
     total_income := total_income;
     total_expense := total_expense;
     net_savings := PyFloat.sub total_income total_expense;
     spending_by_category := fold_left spend month_transactions ∅ |}.

(** * The window: class [ExpenseTrackerApp]

    The callbacks of the buttons and menus, with what they read from the
    widgets given as arguments, and what the frames show, as far as the
    object decides it.  An exception that leaves a callback is reported
    by Tk and the program goes on with the object as it was then. *)

(** What a callback ends in. *)
Inductive ended :=
| Returned
| Uncaught (e : exception)
| UncaughtNameError (name : string).

(** A label's text and colour. *)
Record Label := {
  text : string;
  text_color : string
}.

(** The colour of a status label: ["#00D100" if success else "#FF4040"]. *)
Definition success_color (success : bool) : string :=
  if success then "#00D100" else "#FF4040".

(** [update_categories_dropdown]: the values of the category menu and the
    value that [category_var] is set to. *)
Definition update_categories_dropdown (trans_type_var : string) (w : World)
    : list string * string :=
  let trans_type := PyStr.lower trans_type_var in
  let categories := get_categories trans_type w in
  (categories,
   match categories with
   | first :: _ => first
   | [] => "No categories found"
   end).

(** [submit_transaction]: the object afterwards and the status label. *)
Definition submit_transaction
    (trans_type_var amount_entry category_var desc_entry date_entry : string)
    (w : World) : World * Label :=
  let trans_type := PyStr.lower trans_type_var in
  let '(w', (success, message)) :=
    add_transaction trans_type amount_entry category_var desc_entry date_entry w in
  (w', {| text := message; text_color := success_color success |}).

(** [add_new_category] *)
Definition add_new_category (new_cat_entry new_cat_type : string) (w : World)
    : World * (ended * option Label) :=
  match add_category new_cat_entry new_cat_type w with
  | (w', Return (success, message)) =>
      (w', (Returned, Some {| text := message; text_color := success_color success |}))
  | (w', Raise e) => (w', (Uncaught e, None))
  end.

(** [set_new_budget]: its first statement reads a variable [category]
    that is assigned nowhere, neither in the method nor in the module,
    so the statement raises [NameError] and nothing after it runs. *)
Definition set_new_budget (budget_amount_entry : string) (w : World)
    : World * (ended * option Label) :=
  (w, (UncaughtNameError "category", None)).

(** [d[key]] for the table of currencies. *)
Fixpoint getitem (d : list (string * string)) (key : string) : option string :=
  match d with
  | (k, v) :: r => if String.eqb k key then Some v else getitem r key
  | [] => None
  end.

(** [update_currency] *)
Definition update_currency (choice_name : string) (w : World) : World * ended :=
  match getitem (get_currencies w) choice_name with
  | Some new_symbol => (set_currency new_symbol w, Returned)
  | None => (w, Uncaught (KeyError choice_name))
  end.

(** The value that [show_settings_frame] gives [currency_var]: the first
    name in the table whose symbol is the current one, and the first name
    of the table when there is none ([None] stands for the [IndexError]
    of an empty table). *)
Definition current_currency_name (w : World) : option string :=
  let currency_names := List.map fst (get_currencies w) in
  let current_symbol := get_currency_symbol w in
  match List.filter (λ entry, String.eqb (snd entry) current_symbol) (get_currencies w) with
  | (name, _) :: _ => Some name
  | [] => head currency_names
  end.

(** [create_pie_chart]: the labels and sizes handed to [ax.pie], if it
    is called.  The branch is entered when the mapping is empty, so the
    order of the keys plays no part. *)
Definition create_pie_chart (spending_data : gmap string float)
    : option (list string * list float) :=
  if decide (size spending_data = 0%nat)
  then Some ((map_to_list spending_data).*1, (map_to_list spending_data).*2)
  else None.

(** [show_dashboard_frame]: the title, the three amounts, the colour of
    the net savings and the chart. *)
Record Dashboard := {
  dashboard_title : string;
  income_label : string;
  expense_label : string;
  net_label : Label;
  pie : option (list string * list float)
}.

Definition show_dashboard_frame (now : PyDate.datetime) (w : World) : Dashboard :=
  let report_data := get_monthly_report_data now w in
  {| dashboard_title := String.append "Dashboard for " (month_name report_data);
     income_label := format_currency (total_income report_data) w;
     expense_label := format_currency (total_expense report_data) w;
     net_label :=
       {| text := format_currency (net_savings report_data) w;
          text_color :=
            if PyFloat.leb PyFloat.zero (net_savings report_data)
            then "#00D100" else "#FF4040" |};
     pie := create_pie_chart (spending_by_category report_data) |}.

(** * The colour helpers of the style block

    [_clamp_hex_color], [_rgb_to_hex], [_shade] and [palletize], the pure
    functions among the helpers that the file defines after the main
    loop, with the built-ins they use. *)

Module PyInt.
Import PyChar.

(** The value of a character as a digit in base 16. *)
Definition hex_val (c : ascii) : option Z :=
  if is_digit c then Some (code c - 48)
  else if in_range 97 102 c then Some (code c - 87)
  else if in_range 65 70 c then Some (code c - 55)
  else None.

(** The digits of [int(s, 16)]: hexadecimal digits, with single
    underscores between them; the value on top of [acc] and what
    follows.  [prev] is the character before. *)
Fixpoint scan_digits (prev : ascii) (acc : Z) (s : string) : option (Z * string) :=
  match s with
  | String c r =>
      if Ascii.eqb c "_" then
        if Ascii.eqb prev "_" then None else scan_digits c acc r
      else
        match hex_val c with
        | Some v => scan_digits c (16 * acc + v) r
        | None => if Ascii.eqb prev "_" then None else Some (acc, s)
        end
  | EmptyString => if Ascii.eqb prev "_" then None else Some (acc, s)
  end.

(** [int(s, 16)] for a string [s] of ASCII characters: blanks, a sign,
    the prefix [0x] or [0X] (one underscore may follow it), the digits,
    blanks.  [None] stands for [ValueError]. *)
Definition of_string_16 (s : string) : option Z :=
  let s := PyStr.lstrip is_c_space s in
  let '(negative, s) :=
    match s with
    | String "+" r => (false, r)
    | String "-" r => (true, r)
    | _ => (false, s)
    end in
  let s :=
    match s with
    | String "0" (String x r) =>
        if Ascii.eqb x "x" || Ascii.eqb x "X" then
          match r with
          | String "_" r' => r'
          | _ => r
          end
        else s
    | _ => s
    end in
  match s with
  | String c _ =>
      match hex_val c with
      | Some _ =>
          match scan_digits "000" 0 s with
          | Some (v, rest) =>
              match PyStr.lstrip is_c_space rest with
              | EmptyString => Some (if negative then - v else v)
              | String _ _ => None
              end
          | None => None
          end
      | None => None
      end
  | EmptyString => None
  end.

(** The letters of a numeral in upper case, as the format ['X'] has
    them. *)
Fixpoint upper (s : string) : string :=
  match s with
  | String c r => String (to_upper c) (upper r)
  | EmptyString => EmptyString
  end.

(** [format(n, '02X')] for [n >= 0]: upper-case hexadecimal, two
    characters at least. *)
Definition format_02X (n : Z) : string :=
  let d := upper (HexadecimalString.NilZero.string_of_uint (N.to_hex_uint (Z.to_N n))) in
  String.append (PyStr.zeros (2 - String.length d)) d.

(** [float(n)] as the arithmetic between an [int] and a [float] takes
    it: the nearest binary64 value; [None] stands for [OverflowError]. *)
Definition to_float (n : Z) : option float :=
  let x := binary_normalize PyFloat.prec PyFloat.emax n 0 false in
  if PyFloat.is_finite x then Some x else None.

(** [n / y] for an [int] [n] and a [float] [y]; [None] stands for
    [OverflowError] and [ZeroDivisionError]. *)
Definition truediv (n : Z) (y : float) : option float :=
  match to_float n with
  | Some x =>
      match y with
      | S754_zero _ => None
      | _ => Some (SFdiv PyFloat.prec PyFloat.emax x y)
      end
  | None => None
  end.

(** [n * y] for an [int] [n] and a [float] [y]. *)
Definition mul (n : Z) (y : float) : option float :=
  match to_float n with
  | Some x => Some (SFmul PyFloat.prec PyFloat.emax x y)
  | None => None
  end.

(** [int(x)] for a [float] [x]: the fraction is dropped; [None] stands
    for the [OverflowError] of an infinity and the [ValueError] of a
    NaN. *)
Definition of_float (x : float) : option Z :=
  match x with
  | S754_zero _ => Some 0
  | S754_finite s m e =>
      let magnitude :=
        match e with
        | Zneg p => Zpos m / 2 ^ Zpos p
        | _ => Zpos m * 2 ^ e
        end in
      Some (if s then - magnitude else magnitude)
  | S754_infinity _ | S754_nan => None
  end.

End PyInt.

(** [100.0] *)
Definition hundred : float :=
  binary_normalize PyFloat.prec PyFloat.emax 100 0 false.

(** [_clamp_hex_color], for a string of ASCII characters ([len] counts
    characters, here bytes): the [try] turns the [ValueError] of [int]
    into the black triple. *)
Definition _clamp_hex_color (hex_color : string) : Z * Z * Z :=
  let c := PyStr.lstrip (Ascii.eqb "#") hex_color in
  let parts :=
    if (String.length c =? 6)%nat then
      Some (String.substring 0 2 c, String.substring 2 2 c, String.substring 4 2 c)
    else if (String.length c =? 3)%nat then
      Some (String.append (String.substring 0 1 c) (String.substring 0 1 c),
            String.append (String.substring 1 1 c) (String.substring 1 1 c),
            String.append (String.substring 2 1 c) (String.substring 2 1 c))
    else None in
  match parts with
  | Some (r, g, b) =>
      match PyInt.of_string_16 r, PyInt.of_string_16 g, PyInt.of_string_16 b with
      | Some r, Some g, Some b => (r, g, b)
      | _, _, _ => (0, 0, 0)
      end
  | None => (0, 0, 0)
  end.

(** [max(0, min(255, v))] *)
Definition channel (v : Z) : Z := Z.max 0 (Z.min 255 v).

(** [_rgb_to_hex], for a tuple of [int]s. *)
Definition _rgb_to_hex (rgb_tuple : list Z) : string :=
  String.append "#"
    (fold_right String.append "" (List.map (λ v, PyInt.format_02X (channel v)) rgb_tuple)).

(** [max(0, min(255, int(v * factor)))] *)
Definition shaded (v : Z) (factor : float) : option Z :=
  match PyInt.mul v factor with
  | Some x => option_map channel (PyInt.of_float x)
  | None => None
  end.

(** [_shade], for an [int] [percent]: any exception gives the colour
    back as it came. *)
Definition _shade (hex_color : string) (percent : Z) : string :=
  let '(r, g, b) := _clamp_hex_color hex_color in
  match PyInt.truediv (100 + percent) hundred with
  | Some factor =>
      match shaded r factor, shaded g factor, shaded b factor with
      | Some nr, Some ng, Some nb => _rgb_to_hex [nr; ng; nb]
      | _, _, _ => hex_color
      end
  | None => hex_color
  end.

(** [CHART_PALETTES], with the colours that [CRAZY_PALETTE] gives the
    names. *)
Definition CHART_PALETTES : list (string * list string) :=
  [("vibrant", ["#FF3CAC"; "#00C2FF"; "#2AE58D"; "#9B5CFF"; "#FF7A18"]);
   ("cool", ["#4D9EFF"; "#1976FF"; "#135BD6"; "#0E44A8"]);
   ("sunset", ["#FF5E7E"; "#FF7A18"; "#FF3CAC"]);
   ("mono", ["#202225"; "#272A2D"; "#2F3235"])].

(** [CHART_PALETTES.get(name, CHART_PALETTES["vibrant"])] *)
Definition palette (name : string) : list string :=
  default ["#FF3CAC"; "#00C2FF"; "#2AE58D"; "#9B5CFF"; "#FF7A18"]
    (snd <$> List.find (λ entry, String.eqb (fst entry) name) CHART_PALETTES).

(** The [while] loop of [palletize], run for [fuel] turns at most:
    [None] when the turns do not suffice or [base] is empty (the
    [ZeroDivisionError] of [i % len(base)]). *)
Fixpoint palletize_loop (fuel : nat) (base out : list string) (i length : Z)
    : option (list string) :=
  if Z.of_nat (List.length out) <? length then
    match fuel with
    | O => None
    | S fuel' =>
        match base with
        | [] => None
        | _ :: _ =>
            match base !! Z.to_nat (i mod Z.of_nat (List.length base)) with
            | Some colour => palletize_loop fuel' base (out ++ [colour]) (i + 1) length
            | None => None
            end
        end
    end
  else Some out.

(** [palletize] *)
Definition palletize (name : string) (length : Z) : option (list string) :=
  palletize_loop (Z.to_nat length) (palette name) [] 0 length.

(** * Vocabulary of the properties *)

(** [date_desc a b]: [a] may stand before [b], its date is not earlier. *)
Definition date_desc (a b : Transaction) : Prop := String.le (t_date b) (t_date a).

(** The entries of date [d]. *)
Definition on_date (d : string) (t : Transaction) : bool := String.eqb (t_date t) d.

(** What can be reached from a first run (no data file, or one whose
    reading raises [IOError] or [json.JSONDecodeError]) by the public methods, by starting the program again on the
    file it left, and by the file being removed or damaged or its
    permissions changed from outside. *)
Inductive reachable : World → Prop :=
| reach_first_run can_write : reachable (init Missing can_write)
| reach_bad_file can_write : reachable (init Corrupted can_write)
| reach_restart w can_write : reachable w → reachable (init (disk w) can_write)
| reach_env w file can_write :
    reachable w → file = Missing ∨ file = Corrupted ∨ file = disk w →
    reachable {| self := self w; disk := file; writable := can_write |}
| reach_load_data w : reachable w → reachable (load_data w)
| reach_save_data w : reachable w → reachable (save_data w)
| reach_set_currency new_symbol w : reachable w → reachable (set_currency new_symbol w)
| reach_add_transaction trans_type amount category description date_str w :
    reachable w →
    reachable (fst (add_transaction trans_type amount category description date_str w))
| reach_add_category new_category trans_type w :
    reachable w → reachable (fst (add_category new_category trans_type w))
| reach_set_budget category amount w :
    reachable w → reachable (fst (set_budget category amount w)).

(** What holds of the categories, the budgets and the ledger in every
    reachable state, in the object and in the file. *)
Definition categories_ok (cats : gmap string (list string)) : Prop :=
  dom cats = ({["expense"; "income"]} : gset string)
  ∧ ∀ ty l, cats !! ty = Some l → Forall (λ c, normalize c = c) l.

Definition budgets_ok (b : gmap string float) : Prop :=
  ∀ c v, b !! c = Some v → PyFloat.ltb v PyFloat.zero = false.

Definition ledger_ok (l : list Transaction) : Prop := StronglySorted date_desc l.

Definition logic_ok (l : ExpenseLogic) : Prop :=
  ledger_ok (transactions l) ∧ categories_ok (categories l) ∧ budgets_ok (budgets l).

Definition file_ok (f : File) : Prop :=
  match f with
  | Json d =>
      (∀ t, doc_transactions d = Some t → ledger_ok t)
      ∧ (∀ c, doc_categories d = Some c → categories_ok c)
      ∧ (∀ b, doc_budgets d = Some b → budgets_ok b)
  | _ => True
  end.

Definition world_ok (w : World) : Prop := logic_ok (self w) ∧ file_ok (disk w).

(** The report in the words of its description: which entries count,
    and the amounts that are added up. *)

(** [t] is dated in the month of [now]. *)
Definition in_month (now : PyDate.datetime) (t : Transaction) : bool :=
  PyStr.startswith (t_date t) (PyDate.strftime_Ym now).

(** Amounts of the entries of type [ty] dated in the month of [now]. *)
Definition month_amounts (now : PyDate.datetime) (ty : string)
    (l : list Transaction) : list float :=
  List.map t_amount (List.filter (λ t, in_month now t && has_type ty t) l).

(** Amounts of the expenses of category [c] dated in the month of [now]. *)
Definition month_expenses_in (now : PyDate.datetime) (c : string)
    (l : list Transaction) : list float :=
  List.map t_amount
    (List.filter (λ t, in_month now t && (has_type "expense" t && String.eqb (t_category t) c)) l).

(** Amounts of the expenses of category [c]. *)
Definition expenses_in (c : string) (l : list Transaction) : list float :=
  List.map t_amount
    (List.filter (λ t, has_type "expense" t && String.eqb (t_category t) c) l).

(** The absolute value of a finite float as a fraction of two integers. *)
Definition magnitude (x : float) : Z * Z :=
  match x with
  | S754_finite _ m (Zneg p) => (Zpos m, 2 ^ Zpos p)
  | S754_finite _ m e => (Zpos m * 2 ^ e, 1)
  | _ => (0, 1)
  end.

(** [h] hundredths is what [n/d] rounds to: nearest, and even on a tie. *)
Definition rounds_to_hundredths (n d h : Z) : Prop :=
  0 <= h
  ∧ 2 * Z.abs (100 * n - h * d) <= d
  ∧ (2 * Z.abs (100 * n - h * d) = d → Z.even h = true).

(** The two digits of a number below 100. *)
Definition two_digits (k : Z) : string :=
  String (PyChar.digit_char (k / 10)) (String (PyChar.digit_char (k mod 10)) "").

(** The four digits of a year. *)
Definition four_digits (y : Z) : string :=
  String (PyChar.digit_char (y / 1000)) (String (PyChar.digit_char (y / 100 mod 10))
    (String (PyChar.digit_char (y / 10 mod 10)) (String (PyChar.digit_char (y mod 10)) ""))).

(** The ways [strptime] lets a month be written: two digits, or one when
    it is below 10. *)
Definition month_spellings (m : Z) : list string :=
  if m <? 10 then [PyStr.zero_padded 2 m; PyStr.of_nonneg m] else [PyStr.of_nonneg m].

(** The same for a day; a day below 10 may also follow a blank. *)
Definition day_spellings (d : Z) : list string :=
  if d <? 10
  then [PyStr.zero_padded 2 d; PyStr.of_nonneg d; String " " (PyStr.of_nonneg d)]
  else [PyStr.of_nonneg d].

(** The strings that spell the date [dt]: year, month and day with "-"
    in between. *)
Definition date_spellings (dt : PyDate.datetime) : list string :=
  ms ← month_spellings (PyDate.month dt); ds ← day_spellings (PyDate.day dt);
  [String.append (PyStr.zero_padded 4 (PyDate.year dt))
     (String "-" (String.append ms (String "-" ds)))].

(** [s] spells a real calendar date in one of the ways that [strptime]
    takes for ['%Y-%m-%d']: a year of four digits, a month of two digits
    or, below 10, of one, and a day of two digits or, below 10, of one
    digit or of a blank and one digit. *)
Definition spells_a_date (s : string) : Prop :=
  ∃ dt, PyDate.valid (PyDate.year dt) (PyDate.month dt) (PyDate.day dt) = true
        ∧ s ∈ date_spellings dt.

Fixpoint all_digits (s : string) : bool :=
  match s with
  | String c r => PyChar.is_digit c && all_digits r
  | EmptyString => true
  end.

(** A numeral with exactly two decimals: an optional minus sign, one
    digit or more, a point, two digits. *)
Fixpoint digits_then_point_two (seen : bool) (s : string) : bool :=
  match s with
  | String "." (String a (String b EmptyString)) =>
      seen && PyChar.is_digit a && PyChar.is_digit b
  | String c r => PyChar.is_digit c && digits_then_point_two true r
  | EmptyString => false
  end.

Definition two_decimal_numeral (s : string) : bool :=
  match s with
  | String "-" r => digits_then_point_two false r
  | _ => digits_then_point_two false s
  end.

(** ** Vocabulary of the further properties *)

(** The attributes as [__init__] sets them before it calls [load_data]. *)
Definition initial_attributes : ExpenseLogic :=
  {| transactions := [];
     categories := default_categories;
     budgets := ∅;
     currency_symbol := "$" |}.

(** The file is absent, or of the kind [Corrupted], or what a state with
    [P] saved. *)
Definition file_holds (P : ExpenseLogic → Prop) (f : File) : Prop :=
  match f with
  | Json d => ∃ l, d = dump l ∧ P l
  | _ => True
  end.

(** [s] is a real calendar date as [strftime] writes it for
    ['%Y-%m-%d']. *)
Definition canonical_date (s : string) : Prop :=
  ∃ dt, PyDate.valid (PyDate.year dt) (PyDate.month dt) (PyDate.day dt) = true
        ∧ s = PyDate.strftime_Ymd dt.

(** Each default list is still there, at the front, and no list has a
    name twice. *)
Definition defaults_kept (l : ExpenseLogic) : Prop :=
  ∀ ty d, default_categories !! ty = Some d →
    ∃ added, categories l !! ty = Some (d ++ added) ∧ NoDup (d ++ added).

(** A date as a number that orders the calendar. *)
Definition day_number (dt : PyDate.datetime) : Z :=
  (PyDate.year dt * 100 + PyDate.month dt) * 100 + PyDate.day dt.

(** [d1] is not later in the calendar than [d2]. *)
Definition calendar_le (d1 d2 : PyDate.datetime) : Prop :=
  PyDate.year d1 < PyDate.year d2
  ∨ (PyDate.year d1 = PyDate.year d2
     ∧ (PyDate.month d1 < PyDate.month d2
        ∨ (PyDate.month d1 = PyDate.month d2 ∧ PyDate.day d1 <= PyDate.day d2))).

(** The text that [format(x, '.2f')] gives starts with no minus sign. *)
Definition shown_without_minus (x : float) : Prop :=
  PyStr.startswith (PyFloat.format_2f x) "-" = false.

(** What the window can bring about after [ExpenseTrackerApp()] has made
    its object from the file: its four callbacks that change the object,
    and changes to the file from outside. *)
Inductive window_run (start : World) : World → Prop :=
| run_start : window_run start start
| run_submit_transaction ty a c d ds w :
    window_run start w → window_run start (fst (submit_transaction ty a c d ds w))
| run_add_new_category n ty w :
    window_run start w → window_run start (fst (add_new_category n ty w))
| run_set_new_budget a w :
    window_run start w → window_run start (fst (set_new_budget a w))
| run_update_currency name w :
    window_run start w → window_run start (fst (update_currency name w))
| run_environment w file can_write :
    window_run start w →
    window_run start {| self := self w; disk := file; writable := can_write |}.

(** An expense dated in the month of [now]. *)
Definition month_expense (now : PyDate.datetime) (t : Transaction) : bool :=
  in_month now t && has_type "expense" t.

(** A colour as a sharp and six upper-case hexadecimal digits. *)
Definition is_upper_hex (c : ascii) : bool :=
  PyChar.is_digit c || PyChar.in_range 65 70 c.

Definition well_formed_colour (s : string) : Prop :=
  ∃ a b c d e f,
    s = String "#" (String a (String b (String c (String d (String e (String f ""))))))
    ∧ Forall (λ x, is_upper_hex x = true) [a; b; c; d; e; f].

(** ** States used in the examples *)

(** A first run: no data file yet, in a directory that can be written. *)
Definition fresh : World := init Missing true.

Definition may_2024 : PyDate.datetime :=
  {| PyDate.year := 2024; PyDate.month := 5; PyDate.day := 20 |}.

(** An income and an expense in May 2024 and an expense in April 2024. *)
Definition example_ledger : World :=
  fst (add_transaction "expense" "50" "Dining" "" "2024-04-30"
    (fst (add_transaction "expense" "300" "Rent" "" "2024-05-03"
      (fst (add_transaction "income" "1000" "Salary" "" "2024-05-01" fresh))))).

(** The same with one more expense, dated on the last day of the year
    999. *)
Definition early_ledger : World :=
  fst (add_transaction "expense" "1" "Rent" "" "0999-12-31" example_ledger).

(** * Properties *)

(** ** The sort *)

Section Sorting.

#[local] Instance date_desc_trans : Transitive date_desc.
Proof. intros a b c Hab Hbc. unfold date_desc in *. by etrans. Qed.

Lemma date_gt_desc y x : date_gt y x = true → date_desc y x.
Proof.
  unfold date_gt, date_desc, String.le, String.leb.
  rewrite (String.compare_antisym (t_date x) (t_date y)).
  by destruct (String.compare (t_date y) (t_date x)).
Qed.

Lemma not_date_gt_desc y x : date_gt y x = false → date_desc x y.
Proof.
  unfold date_gt, date_desc, String.le, String.leb.
  by destruct (String.compare (t_date y) (t_date x)).
Qed.

Lemma insert_desc_perm x l : insert_desc x l ≡ₚ x :: l.
Proof.
  induction l as [|y r IH]; simpl; [done|].
  destruct (date_gt y x); [|done].
  rewrite IH. apply Permutation_swap.
Qed.

Lemma sort_by_date_desc_perm l : sort_by_date_desc l ≡ₚ l.
Proof.
  induction l as [|x r IH]; simpl; [done|].
  by rewrite insert_desc_perm, IH.
Qed.

Lemma insert_desc_HdRel a x l :
  date_desc a x → HdRel date_desc a l → HdRel date_desc a (insert_desc x l).
Proof.
  intros Hax Hl. destruct l as [|y r]; simpl; [by constructor|].
  destruct (date_gt y x); constructor; [|done].
  by inversion Hl.
Qed.

Lemma insert_desc_sorted x l :
  Sorted date_desc l → Sorted date_desc (insert_desc x l).
Proof.
  induction 1 as [|y r Hr IH Hy]; simpl.
  - by repeat constructor.
  - destruct (date_gt y x) eqn:Hgt.
    + constructor; [done|].
      apply insert_desc_HdRel; [by apply date_gt_desc|done].
    + constructor; [by constructor|].
      constructor. by apply not_date_gt_desc.
Qed.

Lemma sort_by_date_desc_sorted l : Sorted date_desc (sort_by_date_desc l).
Proof.
  induction l as [|x r IH]; simpl; [constructor|].
  by apply insert_desc_sorted.
Qed.

Lemma sort_by_date_desc_strongly_sorted l :
  StronglySorted date_desc (sort_by_date_desc l).
Proof. apply Sorted_StronglySorted; [apply _|apply sort_by_date_desc_sorted]. Qed.

(** The sort is stable: the entries of any one date come out in the
    order they went in. *)

Lemma compare_same d : String.compare d d = Eq.
Proof.
  pose proof (String.compare_antisym d d) as H.
  by destruct (String.compare d d).
Qed.

Lemma insert_desc_on_date d x l :
  List.filter (on_date d) (insert_desc x l) = List.filter (on_date d) (x :: l).
Proof.
  induction l as [|y r IH]; [done|].
  simpl insert_desc. destruct (date_gt y x) eqn:Hgt; [|done].
  simpl in *. rewrite IH.
  destruct (on_date d x) eqn:Hx, (on_date d y) eqn:Hy; try done.
  unfold on_date in *. apply String.eqb_eq in Hx, Hy.
  unfold date_gt in Hgt. by rewrite Hx, Hy, compare_same in Hgt.
Qed.

Lemma sort_by_date_desc_stable d l :
  List.filter (on_date d) (sort_by_date_desc l) = List.filter (on_date d) l.
Proof.
  induction l as [|x r IH]; [done|].
  simpl sort_by_date_desc. rewrite insert_desc_on_date. simpl. by rewrite IH.
Qed.

End Sorting.

(** ** Numerals and dates *)

Section Dates.
Import PyChar PyDate.

Lemma zero_padded_two k : 0 <= k < 100 → PyStr.zero_padded 2 k = two_digits k.
Proof.
  intros Hk. assert (Hin : k ∈ seqZ 0 100) by (apply elem_of_seqZ; lia).
  assert (Hall : Forall (λ j, PyStr.zero_padded 2 j = two_digits j) (seqZ 0 100)).
  { eapply (bool_decide_unpack _). by vm_compute. }
  rewrite Forall_forall in Hall. by apply Hall.
Qed.

Lemma zero_padded_four y : 0 <= y <= 9999 → PyStr.zero_padded 4 y = four_digits y.
Proof.
  intros Hy. assert (Hin : y ∈ seqZ 0 10000) by (apply elem_of_seqZ; lia).
  assert (Hall : Forall (λ j, PyStr.zero_padded 4 j = four_digits j) (seqZ 0 10000)).
  { eapply (bool_decide_unpack _). by vm_compute. }
  rewrite Forall_forall in Hall. by apply Hall.
Qed.

Lemma in_range_code lo hi c : in_range lo hi c = true ↔ lo <= code c <= hi.
Proof. unfold in_range. rewrite andb_true_iff, !Z.leb_le. tauto. Qed.

Lemma code_bounds c : 0 <= code c < 256.
Proof.
  unfold code. pose proof (N_ascii_bounded c). lia.
Qed.

Lemma of_code_code c : of_code (code c) = c.
Proof. unfold of_code, code. by rewrite N2Z.id, ascii_N_embedding. Qed.

Lemma code_of_code n : 0 <= n < 256 → code (of_code n) = n.
Proof.
  intros Hn. unfold of_code, code. rewrite N_ascii_embedding; lia.
Qed.

Lemma is_char_eq c x : is_char c x = true ↔ x = c.
Proof. unfold is_char. apply Ascii.eqb_eq. Qed.

Lemma digit_char_val a : is_digit a = true → digit_char (digit_val a) = a.
Proof.
  intros _. unfold digit_char, digit_val.
  replace (48 + (code a - 48)) with (code a) by lia. apply of_code_code.
Qed.

Lemma digit_val_range lo hi a :
  in_range lo hi a = true → lo - 48 <= digit_val a <= hi - 48.
Proof. rewrite in_range_code. unfold digit_val. lia. Qed.

Lemma digit_val_char k : 0 <= k <= 9 → digit_val (digit_char k) = k.
Proof. intros Hk. unfold digit_val, digit_char. rewrite code_of_code; lia. Qed.

Lemma is_digit_char k : 0 <= k <= 9 → is_digit (digit_char k) = true.
Proof.
  intros Hk. apply in_range_code. unfold digit_char. rewrite code_of_code; lia.
Qed.

Lemma two_digits_of a b :
  is_digit a = true → is_digit b = true →
  two_digits (10 * digit_val a + digit_val b) = String a (String b "").
Proof.
  intros Ha Hb. unfold two_digits.
  pose proof (digit_val_range _ _ _ Ha). pose proof (digit_val_range _ _ _ Hb).
  replace ((10 * digit_val a + digit_val b) / 10) with (digit_val a)
    by (Z.div_mod_to_equations; lia).
  replace ((10 * digit_val a + digit_val b) mod 10) with (digit_val b)
    by (Z.div_mod_to_equations; lia).
  by rewrite !digit_char_val.
Qed.

Lemma of_nonneg_two v : 10 <= v < 100 → PyStr.of_nonneg v = two_digits v.
Proof.
  intros Hv. assert (Hin : v ∈ seqZ 10 90) by (apply elem_of_seqZ; lia).
  assert (Hall : Forall (λ j, PyStr.of_nonneg j = two_digits j) (seqZ 10 90)).
  { eapply (bool_decide_unpack _). by vm_compute. }
  rewrite Forall_forall in Hall. by apply Hall.
Qed.

Lemma of_nonneg_one k : 0 <= k <= 9 → PyStr.of_nonneg k = String (digit_char k) "".
Proof.
  intros Hk. assert (Hin : k ∈ seqZ 0 10) by (apply elem_of_seqZ; lia).
  assert (Hall : Forall (λ j, PyStr.of_nonneg j = String (digit_char j) "") (seqZ 0 10)).
  { eapply (bool_decide_unpack _). by vm_compute. }
  rewrite Forall_forall in Hall. by apply Hall.
Qed.

Lemma in_one p c r s : (c, r) ∈ one p s → s = String c r ∧ p c = true.
Proof.
  destruct s as [|a t]; simpl; [by intros ?%elem_of_nil|].
  destruct (p a) eqn:Hp; [|by intros ?%elem_of_nil].
  by intros [= -> ->]%list_elem_of_singleton.
Qed.

Lemma in_two p q v r s :
  (v, r) ∈ two p q s →
  ∃ a b, s = String a (String b r) ∧ p a = true ∧ q b = true
         ∧ v = 10 * digit_val a + digit_val b.
Proof.
  unfold two. intros H.
  apply list_elem_of_bind in H as ([a t] & H & [-> Ha]%in_one).
  apply list_elem_of_bind in H as ([b t'] & H & [-> Hb]%in_one).
  apply list_elem_of_singleton in H as [= -> ->]. by exists a, b.
Qed.

Lemma in_single p v r s :
  (v, r) ∈ single p s → ∃ a, s = String a r ∧ p a = true ∧ v = digit_val a.
Proof.
  unfold single. intros H.
  apply list_elem_of_bind in H as ([a t] & H & [-> Ha]%in_one).
  apply list_elem_of_singleton in H as [= -> ->]. by exists a.
Qed.

Lemma in_dash r s : r ∈ dash s → s = String "-" r.
Proof.
  unfold dash. intros H.
  apply list_elem_of_bind in H as ([a t] & H & [-> Ha]%in_one).
  apply list_elem_of_singleton in H as ->. by apply is_char_eq in Ha as ->.
Qed.

Lemma append_empty_r s : String.append s "" = s.
Proof.
  induction s as [|c r IH]; [done|].
  change (String c (String.append r "") = String c r). by rewrite IH.
Qed.

Lemma in_range_digit lo hi a :
  48 <= lo → hi <= 57 → in_range lo hi a = true → is_digit a = true.
Proof. intros Hlo Hhi. unfold is_digit. rewrite !in_range_code. lia. Qed.

Lemma in_group_Y y r s :
  (y, r) ∈ group_Y s →
  0 <= y <= 9999 ∧ s = String.append (four_digits y) r.
Proof.
  unfold group_Y. intros H.
  apply list_elem_of_bind in H as ([v1 t1] & H & (a & b & -> & Ha & Hb & ->)%in_two).
  apply list_elem_of_bind in H as ([v2 t2] & H & (c & d & -> & Hc & Hd & ->)%in_two).
  apply list_elem_of_singleton in H as [= -> ->].
  pose proof (digit_val_range _ _ _ Ha). pose proof (digit_val_range _ _ _ Hb).
  pose proof (digit_val_range _ _ _ Hc). pose proof (digit_val_range _ _ _ Hd).
  split; [lia|]. unfold four_digits.
  set (y := 100 * (10 * digit_val a + digit_val b) + (10 * digit_val c + digit_val d)).
  replace (y / 1000) with (digit_val a) by (subst y; Z.div_mod_to_equations; lia).
  replace (y / 100 mod 10) with (digit_val b) by (subst y; Z.div_mod_to_equations; lia).
  replace (y / 10 mod 10) with (digit_val c) by (subst y; Z.div_mod_to_equations; lia).
  replace (y mod 10) with (digit_val d) by (subst y; Z.div_mod_to_equations; lia).
  by rewrite !digit_char_val.
Qed.

Lemma in_group_m m r s :
  (m, r) ∈ group_m s →
  1 <= m <= 12 ∧ ∃ ms, ms ∈ month_spellings m ∧ s = String.append ms r.
Proof.
  unfold group_m, month_spellings. rewrite !elem_of_app.
  intros [(a & b & -> & Ha & Hb & ->)%in_two
         |[(a & b & -> & Ha & Hb & ->)%in_two|(a & -> & Ha & ->)%in_single]].
  - apply is_char_eq in Ha as ->. pose proof (digit_val_range _ _ _ Hb).
    change (digit_val "1") with 1 in *. split; [lia|].
    destruct (Z.ltb_spec (10 * 1 + digit_val b) 10); [lia|].
    exists (String "1" (String b "")). split; [|done].
    apply list_elem_of_singleton. rewrite of_nonneg_two by lia.
    change 1 with (digit_val "1"). symmetry. apply two_digits_of; [done|].
    by eapply in_range_digit; [..|exact Hb].
  - apply is_char_eq in Ha as ->. pose proof (digit_val_range _ _ _ Hb).
    change (digit_val "0") with 0 in *. split; [lia|].
    destruct (Z.ltb_spec (10 * 0 + digit_val b) 10); [|lia].
    exists (String "0" (String b "")). split; [|done].
    apply elem_of_cons. left. rewrite zero_padded_two by lia.
    change 0 with (digit_val "0") at 1. symmetry. apply two_digits_of; [done|].
    by eapply in_range_digit; [..|exact Hb].
  - pose proof (digit_val_range _ _ _ Ha). split; [lia|].
    destruct (Z.ltb_spec (digit_val a) 10); [|lia].
    exists (String a ""). split; [|done].
    apply elem_of_cons. right. apply elem_of_cons. left.
    rewrite of_nonneg_one by lia. rewrite digit_char_val; [done|].
    by eapply in_range_digit; [..|exact Ha].
Qed.

Lemma in_group_d d r s :
  (d, r) ∈ group_d s →
  1 <= d <= 31 ∧ ∃ ds, ds ∈ day_spellings d ∧ s = String.append ds r.
Proof.
  unfold group_d, day_spellings. rewrite !elem_of_app.
  intros [(a & b & -> & Ha & Hb & ->)%in_two
         |[(a & b & -> & Ha & Hb & ->)%in_two
          |[(a & b & -> & Ha & Hb & ->)%in_two
           |[(a & -> & Ha & ->)%in_single|H]]]].
  - apply is_char_eq in Ha as ->. pose proof (digit_val_range _ _ _ Hb).
    change (digit_val "3") with 3 in *. split; [lia|].
    destruct (Z.ltb_spec (10 * 3 + digit_val b) 10); [lia|].
    exists (String "3" (String b "")). split; [|done].
    apply list_elem_of_singleton. rewrite of_nonneg_two by lia.
    change 3 with (digit_val "3"). symmetry. apply two_digits_of; [done|].
    by eapply in_range_digit; [..|exact Hb].
  - pose proof (digit_val_range _ _ _ Ha). pose proof (digit_val_range _ _ _ Hb).
    split; [lia|].
    destruct (Z.ltb_spec (10 * digit_val a + digit_val b) 10); [lia|].
    exists (String a (String b "")). split; [|done].
    apply list_elem_of_singleton. rewrite of_nonneg_two by lia.
    symmetry. apply two_digits_of; [|done].
    by eapply in_range_digit; [..|exact Ha].
  - apply is_char_eq in Ha as ->. pose proof (digit_val_range _ _ _ Hb).
    change (digit_val "0") with 0 in *. split; [lia|].
    destruct (Z.ltb_spec (10 * 0 + digit_val b) 10); [|lia].
    exists (String "0" (String b "")). split; [|done].
    apply elem_of_cons. left. rewrite zero_padded_two by lia.
    change 0 with (digit_val "0") at 1. symmetry. apply two_digits_of; [done|].
    by eapply in_range_digit; [..|exact Hb].
  - pose proof (digit_val_range _ _ _ Ha). split; [lia|].
    destruct (Z.ltb_spec (digit_val a) 10); [|lia].
    exists (String a ""). split; [|done].
    apply elem_of_cons. right. apply elem_of_cons. left.
    rewrite of_nonneg_one by lia. rewrite digit_char_val; [done|].
    by eapply in_range_digit; [..|exact Ha].
  - apply list_elem_of_bind in H as ([c t] & H & [-> Hc]%in_one).
    apply is_char_eq in Hc as ->.
    apply in_single in H as (a & -> & Ha & ->).
    pose proof (digit_val_range _ _ _ Ha). split; [lia|].
    destruct (Z.ltb_spec (digit_val a) 10); [|lia].
    exists (String " " (String a "")). split; [|done].
    do 2 (apply elem_of_cons; right). apply elem_of_cons. left.
    rewrite of_nonneg_one by lia. rewrite digit_char_val; [done|].
    by eapply in_range_digit; [..|exact Ha].
Qed.

Lemma regex_match_spelled s y m d r :
  regex_match s = Some (y, m, d, r) →
  0 <= y <= 9999 ∧ 1 <= m <= 12 ∧ 1 <= d <= 31
  ∧ ∃ ms ds, ms ∈ month_spellings m ∧ ds ∈ day_spellings d
      ∧ s = String.append (four_digits y)
              (String "-" (String.append ms (String "-" (String.append ds r)))).
Proof.
  unfold regex_match. intros H. apply head_Some_elem_of in H.
  apply list_elem_of_bind in H as ([y' r1] & H & [Hy ->]%in_group_Y).
  apply list_elem_of_bind in H as (r2 & H & ->%in_dash).
  apply list_elem_of_bind in H as ([m' r3] & H & [Hm (ms & Hms & ->)]%in_group_m).
  apply list_elem_of_bind in H as (r4 & H & ->%in_dash).
  apply list_elem_of_bind in H as ([d' r5] & H & [Hd (ds & Hds & ->)]%in_group_d).
  apply list_elem_of_singleton in H as [= -> -> -> ->].
  do 3 (split; [done|]). by exists ms, ds.
Qed.

Lemma four_digits_value y :
  0 <= y <= 9999 →
  100 * (10 * (y / 1000) + y / 100 mod 10) + (10 * (y / 10 mod 10) + y mod 10) = y.
Proof.
  intros Hy. assert (Hin : y ∈ seqZ 0 10000) by (apply elem_of_seqZ; lia).
  assert (Hall : Forall (λ j, 100 * (10 * (j / 1000) + j / 100 mod 10)
                              + (10 * (j / 10 mod 10) + j mod 10) = j) (seqZ 0 10000)).
  { eapply (bool_decide_unpack _). by vm_compute. }
  rewrite Forall_forall in Hall. by apply Hall.
Qed.

Lemma two_cons p q a b r :
  p a = true → q b = true →
  two p q (String a (String b r)) = [(10 * digit_val a + digit_val b, r)].
Proof. intros Hp Hq. unfold two, one. rewrite Hp. simpl. by rewrite Hq. Qed.

Lemma group_Y_four y r :
  0 <= y <= 9999 → group_Y (String.append (four_digits y) r) = [(y, r)].
Proof.
  intros Hy.
  assert (H1 : 0 <= y / 1000 <= 9) by (Z.div_mod_to_equations; lia).
  assert (H2 : 0 <= y / 100 mod 10 <= 9) by (Z.div_mod_to_equations; lia).
  assert (H3 : 0 <= y / 10 mod 10 <= 9) by (Z.div_mod_to_equations; lia).
  assert (H4 : 0 <= y mod 10 <= 9) by (Z.div_mod_to_equations; lia).
  change (String.append (four_digits y) r) with
    (String (digit_char (y / 1000)) (String (digit_char (y / 100 mod 10))
       (String (digit_char (y / 10 mod 10)) (String (digit_char (y mod 10)) r)))).
  unfold group_Y.
  rewrite two_cons by by apply is_digit_char.
  rewrite bind_singleton.
  rewrite two_cons by by apply is_digit_char.
  rewrite bind_singleton, !digit_val_char by done.
  by rewrite four_digits_value.
Qed.

Ltac each_member H :=
  vm_compute in H;
  repeat (apply elem_of_cons in H as [->|H]);
  try (by apply elem_of_nil in H).

Lemma regex_match_of_spelling y m d ms ds :
  0 <= y <= 9999 → 1 <= m <= 12 → 1 <= d <= 31 →
  ms ∈ month_spellings m → ds ∈ day_spellings d →
  regex_match
    (String.append (four_digits y)
       (String "-" (String.append ms (String "-" ds)))) = Some (y, m, d, "").
Proof.
  intros Hy Hm Hd Hms Hds. unfold regex_match. rewrite group_Y_four by done.
  rewrite bind_singleton.
  assert (Em : m ∈ seqZ 1 12) by (apply elem_of_seqZ; lia).
  assert (Ed : d ∈ seqZ 1 31) by (apply elem_of_seqZ; lia).
  clear Hm Hd Hy.
  each_member Em; each_member Hms; each_member Ed; each_member Hds.
  all: by vm_compute.
Qed.

Lemma valid_bounds y m d :
  valid y m d = true → 1 <= y <= 9999 ∧ 1 <= m <= 12 ∧ 1 <= d <= 31.
Proof.
  unfold valid. rewrite !andb_true_iff, !Z.leb_le.
  intros (((((? & ?) & ?) & ?) & ?) & Hd).
  assert (days_in_month y m <= 31); [|lia].
  unfold days_in_month. repeat case_match; lia.
Qed.

(** What [strptime] accepts for ['%Y-%m-%d']: the spellings of the real
    calendar dates, and it returns the date that is spelled. *)
Lemma strptime_accepts s dt :
  strptime s = Some dt ↔
  valid (year dt) (month dt) (day dt) = true ∧ s ∈ date_spellings dt.
Proof.
  unfold strptime, date_spellings. split.
  - destruct (regex_match s) as [[[[y m] d] r]|] eqn:Hr; [|done].
    destruct r; [|done]. destruct (valid y m d) eqn:Hv; [|done].
    intros [= <-]. simpl. split; [done|].
    apply regex_match_spelled in Hr as (Hy & _ & _ & ms & ds & Hms & Hds & ->).
    apply list_elem_of_bind. exists ms. split; [|done].
    apply list_elem_of_bind. exists ds. split; [|done].
    apply list_elem_of_singleton.
    by rewrite zero_padded_four, append_empty_r.
  - intros [Hv Hs]. destruct (valid_bounds _ _ _ Hv) as (Hy & Hm & Hd).
    apply list_elem_of_bind in Hs as (ms & Hs & Hms).
    apply list_elem_of_bind in Hs as (ds & Hs & Hds).
    apply list_elem_of_singleton in Hs as ->.
    rewrite zero_padded_four by lia.
    assert (Hy0 : 0 <= year dt <= 9999) by lia.
    rewrite (regex_match_of_spelling _ _ _ _ _ Hy0 Hm Hd Hms Hds), Hv.
    by destruct dt.
Qed.

(** So [strptime] raises exactly on the strings that spell no real
    calendar date. *)
Lemma strptime_rejects s :
  strptime s = None ↔
  ∀ dt, valid (year dt) (month dt) (day dt) = true → s ∉ date_spellings dt.
Proof.
  split.
  - intros Hnone dt Hv Hin.
    assert (strptime s = Some dt) as Hsome by by apply strptime_accepts.
    by rewrite Hnone in Hsome.
  - intros Hno. destruct (strptime s) as [dt|] eqn:Hs; [|done].
    apply strptime_accepts in Hs as [Hv Hin]. by destruct (Hno dt Hv).
Qed.

Lemma of_nonneg_four y : 1000 <= y <= 9999 → PyStr.of_nonneg y = four_digits y.
Proof.
  intros Hy. assert (Hin : y ∈ seqZ 1000 9000) by (apply elem_of_seqZ; lia).
  assert (Hall : Forall (λ j, PyStr.of_nonneg j = four_digits j) (seqZ 1000 9000)).
  { eapply (bool_decide_unpack _). by vm_compute. }
  rewrite Forall_forall in Hall. by apply Hall.
Qed.

(** From the year 1000 on [strftime] writes the date in the zero-padded
    form YYYY-MM-DD. *)
Lemma strftime_Ymd_padded dt :
  1000 <= year dt <= 9999 →
  strftime_Ymd dt =
    String.append (four_digits (year dt))
      (String "-" (String.append (PyStr.zero_padded 2 (month dt))
         (String "-" (PyStr.zero_padded 2 (day dt))))).
Proof. intros Hy. unfold strftime_Ymd. by rewrite of_nonneg_four. Qed.

(** A real calendar date of the year 1000 or later, written by
    [strftime], is read back as itself. *)
Lemma strptime_strftime dt :
  valid (year dt) (month dt) (day dt) = true → 1000 <= year dt →
  strptime (strftime_Ymd dt) = Some dt.
Proof.
  intros Hv H1000. apply strptime_accepts. split; [done|].
  destruct (valid_bounds _ _ _ Hv) as (Hy & Hm & Hd).
  rewrite strftime_Ymd_padded by lia. rewrite <- zero_padded_four by lia.
  unfold date_spellings.
  apply list_elem_of_bind. exists (PyStr.zero_padded 2 (month dt)). split.
  - apply list_elem_of_bind. exists (PyStr.zero_padded 2 (day dt)).
    split; [by apply list_elem_of_singleton|].
    unfold day_spellings.
    destruct (Z.ltb_spec (day dt) 10); [by apply list_elem_of_here|].
    rewrite zero_padded_two, of_nonneg_two by lia. by apply list_elem_of_here.
  - unfold month_spellings.
    destruct (Z.ltb_spec (month dt) 10); [by apply list_elem_of_here|].
    rewrite zero_padded_two, of_nonneg_two by lia. by apply list_elem_of_here.
Qed.

Lemma digit_char_inj j k : 0 <= j <= 9 → 0 <= k <= 9 → digit_char j = digit_char k → j = k.
Proof.
  intros Hj Hk Heq. apply (f_equal digit_val) in Heq.
  by rewrite !digit_val_char in Heq.
Qed.

Lemma startswith_cons a s b p :
  PyStr.startswith (String a s) (String b p) = true ↔ b = a ∧ PyStr.startswith s p = true.
Proof.
  simpl. destruct (Ascii.eqb_spec b a) as [->|Hne].
  - split; [done|]. by intros [_ ?].
  - split; [done|]. by intros [? _].
Qed.

Lemma append_cons c s r : String.append (String c s) r = String c (String.append s r).
Proof. reflexivity. Qed.

Lemma append_nil_l r : String.append "" r = r.
Proof. reflexivity. Qed.

Lemma all_digits_uint d : all_digits (NilEmpty.string_of_uint d) = true.
Proof. induction d; simpl; by rewrite ?IHd. Qed.

Lemma of_nonneg_digits n :
  ∃ c r, PyStr.of_nonneg n = String c r ∧ is_digit c = true ∧ all_digits r = true.
Proof.
  unfold PyStr.of_nonneg, NilZero.string_of_uint.
  pose proof (all_digits_uint (N.to_uint (Z.to_N n))) as H.
  destruct (N.to_uint (Z.to_N n)); simpl in *;
    try (apply andb_true_iff in H as [? ?]); eauto.
Qed.

Lemma of_nonneg_all_digits n : all_digits (PyStr.of_nonneg n) = true.
Proof.
  destruct (of_nonneg_digits n) as (c & r & -> & Hc & Hr). simpl. by rewrite Hc, Hr.
Qed.

(** Different numbers have different numerals. *)
Lemma of_nonneg_inj j k : 0 <= j → 0 <= k → PyStr.of_nonneg j = PyStr.of_nonneg k → j = k.
Proof.
  intros Hj Hk Heq. unfold PyStr.of_nonneg in Heq.
  assert (Hnil : ∀ n, N.to_uint n ≠ Decimal.Nil).
  { intros [|p]; [done|]. apply DecimalPos.Unsigned.to_uint_nonnil. }
  apply (f_equal NilZero.uint_of_string) in Heq.
  rewrite !NilZero.usu in Heq by apply Hnil.
  injection Heq as Heq. apply DecimalN.Unsigned.to_uint_inj in Heq. lia.
Qed.

Lemma not_digit_dash : is_digit "-" = false.
Proof. reflexivity. Qed.

(** Two texts that begin with a numeral and a dash: one begins with the
    other only if the numerals are the same. *)
Lemma startswith_numeral_dash a b r p :
  all_digits a = true → all_digits b = true →
  PyStr.startswith (String.append a (String "-" r)) (String.append b (String "-" p)) = true
  ↔ a = b ∧ PyStr.startswith r p = true.
Proof.
  revert b. induction a as [|c a IH]; intros [|c' b] Ha Hb.
  - rewrite !append_nil_l, startswith_cons. naive_solver.
  - rewrite append_nil_l, append_cons, startswith_cons.
    cbn [all_digits] in Hb. apply andb_true_iff in Hb as [Hc _].
    split; [|by intros [? _]]. intros [-> _]. by rewrite not_digit_dash in Hc.
  - rewrite append_nil_l, append_cons, startswith_cons.
    cbn [all_digits] in Ha. apply andb_true_iff in Ha as [Hc _].
    split; [|by intros [? _]]. intros [<- _]. by rewrite not_digit_dash in Hc.
  - rewrite !append_cons, startswith_cons.
    cbn [all_digits] in Ha, Hb.
    apply andb_true_iff in Ha as [_ Ha]. apply andb_true_iff in Hb as [_ Hb].
    rewrite (IH b Ha Hb). split.
    + by intros [-> [-> ?]].
    + by intros [[= -> ->] ?].
Qed.

(** For an entry whose date was stored by [add_transaction], being dated
    in the month of [now] by the prefix test is having the year and the
    month of [now]. *)
Lemma in_month_same_year_and_month (t : Transaction) (dt now : datetime) :
  t_date t = strftime_Ymd dt →
  valid (year dt) (month dt) (day dt) = true →
  0 <= year now <= 9999 → 1 <= month now <= 12 →
  in_month now t = true ↔ year dt = year now ∧ month dt = month now.
Proof.
  intros Ht Hv Hy' Hm'. destruct (valid_bounds _ _ _ Hv) as (Hy & Hm & Hd).
  unfold in_month, strftime_Ym. rewrite Ht. unfold strftime_Ymd.
  rewrite startswith_numeral_dash by apply of_nonneg_all_digits.
  rewrite !zero_padded_two by lia.
  set (y := year dt) in *. set (y' := year now) in *.
  set (mo := month dt) in *. set (mo' := month now) in *.
  unfold two_digits at 1 3.
  rewrite !append_cons, !append_nil_l.
  rewrite !startswith_cons. simpl PyStr.startswith.
  split.
  - intros (Ey & E5 & E6 & _). apply of_nonneg_inj in Ey; [|lia..].
    apply digit_char_inj in E5, E6; Z.div_mod_to_equations; lia.
  - intros [-> ->]. done.
Qed.

End Dates.

(** ** Adding transactions *)

Lemma self_save_data w : self (save_data w) = self w.
Proof. unfold save_data. by destruct (writable w). Qed.

Lemma add_transaction_valid trans_type amount category description date_str w parsed dt :
  PyFloat.of_string amount = Some parsed →
  PyDate.strptime date_str = Some dt →
  add_transaction trans_type amount category description date_str w =
    (save_data
       (with_self w
          {| transactions :=
               sort_by_date_desc
                 (transactions (self w) ++
                  [new_transaction w trans_type (PyFloat.abs parsed) category
                     description (PyDate.strftime_Ymd dt)]);
             categories := categories (self w);
             budgets := budgets (self w);
             currency_symbol := currency_symbol (self w) |}),
     (true, "Transaction added successfully.")).
Proof. intros Ha Hd. unfold add_transaction. by rewrite Ha, Hd. Qed.

Lemma add_transaction_success_inv trans_type amount category description date_str w :
  fst (snd (add_transaction trans_type amount category description date_str w)) = true →
  ∃ parsed dt,
    PyFloat.of_string amount = Some parsed ∧ PyDate.strptime date_str = Some dt.
Proof.
  unfold add_transaction.
  destruct (PyFloat.of_string amount) as [parsed|]; [|done].
  destruct (PyDate.strptime date_str) as [dt|]; [|done].
  intros _. by exists parsed, dt.
Qed.

Lemma signbit_abs x : PyFloat.signbit (PyFloat.abs x) = false.
Proof. by destruct x. Qed.

(** C2.  On input that parses (the amount as a float, the date as a
    calendar date) [add_transaction] succeeds, and the ledger then holds,
    besides the entries it had, one new record whose amount is the
    absolute value of the parsed amount (its sign bit is clear) and whose
    id is the number of entries before the call plus one. *)
Theorem add_transaction_stores_abs_amount_and_next_id
    (trans_type amount category description date_str : string) (w : World)
    (parsed : float) (dt : PyDate.datetime) :
  PyFloat.of_string amount = Some parsed →
  PyDate.strptime date_str = Some dt →
  let result := add_transaction trans_type amount category description date_str w in
  let stored := transactions (self (fst result)) in
  let t := {| t_id := Z.of_nat (length (transactions (self w))) + 1;
              t_type := trans_type;
              t_amount := PyFloat.abs parsed;
              t_category := category;
              t_description := description;
              t_date := PyDate.strftime_Ymd dt |} in
  snd result = (true, "Transaction added successfully.")
  ∧ t ∈ stored
  ∧ stored ≡ₚ transactions (self w) ++ [t]
  ∧ PyFloat.signbit (t_amount t) = false.
Proof.
  intros Ha Hd. cbv zeta.
  rewrite (add_transaction_valid _ _ _ _ _ _ _ _ Ha Hd). simpl.
  rewrite self_save_data. simpl.
  assert (Hperm := sort_by_date_desc_perm
    (transactions (self w) ++
     [new_transaction w trans_type (PyFloat.abs parsed) category description
        (PyDate.strftime_Ymd dt)])).
  unfold new_transaction in *.
  split; [done|]. split; [|split; [done|apply signbit_abs]].
  rewrite Hperm. apply elem_of_app. right. by apply list_elem_of_singleton.
Qed.

(** C3.  After a successful [add_transaction] the whole stored sequence
    is sorted by date, latest first: every entry's date is at least the
    date of every entry after it. *)
Theorem add_transaction_sorted_by_date_desc
    (trans_type amount category description date_str : string) (w : World) :
  fst (snd (add_transaction trans_type amount category description date_str w)) = true →
  StronglySorted date_desc
    (transactions (self (fst (add_transaction trans_type amount category description date_str w)))).
Proof.
  intros Hok.
  destruct (add_transaction_success_inv _ _ _ _ _ _ Hok) as (parsed & dt & Ha & Hd).
  rewrite (add_transaction_valid _ _ _ _ _ _ _ _ Ha Hd). simpl.
  rewrite self_save_data. simpl.
  apply sort_by_date_desc_strongly_sorted.
Qed.

(** C4, as amended.  For an amount and a date of ASCII characters,
    [add_transaction] returns the one failure pair
    [(False, "Invalid amount or date format (YYYY-MM-DD).")] and leaves
    the object and its file as they were exactly when [float] rejects the
    amount string or the date string spells no real calendar date as a
    year of four digits, "-", a month of two digits or (below 10) of one,
    "-", and a day of two digits or (below 10) of one digit or of a blank
    and one digit.  A bad amount and a bad date are not told apart. *)
Theorem add_transaction_rejects_bad_amount_or_date
    (trans_type amount category description date_str : string) (w : World) :
  PyStr.isascii amount = true →
  PyStr.isascii date_str = true →
  add_transaction trans_type amount category description date_str w =
    (w, (false, invalid_msg))
  ↔ PyFloat.of_string amount = None ∨ ¬ spells_a_date date_str.
Proof.
  intros _ _. unfold add_transaction, spells_a_date. split.
  - destruct (PyFloat.of_string amount) as [parsed|]; [|by left].
    destruct (PyDate.strptime date_str) as [dt|] eqn:Hd; [done|].
    intros _. right. intros (dt & Hv & Hin).
    by apply (proj1 (strptime_rejects date_str) Hd dt).
  - intros [Ha|Hd].
    + by rewrite Ha.
    + destruct (PyDate.strptime date_str) as [dt|] eqn:Hs.
      * destruct Hd. exists dt. by apply strptime_accepts.
      * by destruct (PyFloat.of_string amount).
Qed.

(** ** Characters and names *)

Section Names.
Import PyChar PyStr.

Ltac by_cases_on c := destruct c as [[] [] [] [] [] [] [] []]; vm_compute; done.

Lemma is_cased_to_lower c : is_cased (to_lower c) = is_cased c.
Proof. by_cases_on c. Qed.
Lemma is_cased_to_upper c : is_cased (to_upper c) = is_cased c.
Proof. by_cases_on c. Qed.
Lemma to_lower_idemp c : to_lower (to_lower c) = to_lower c.
Proof. by_cases_on c. Qed.
Lemma to_upper_idemp c : to_upper (to_upper c) = to_upper c.
Proof. by_cases_on c. Qed.
Lemma is_space_to_lower c : is_unicode_space (to_lower c) = is_unicode_space c.
Proof. by_cases_on c. Qed.
Lemma is_space_to_upper c : is_unicode_space (to_upper c) = is_unicode_space c.
Proof. by_cases_on c. Qed.
Lemma space_not_cased c : is_unicode_space c = true → is_cased c = false.
Proof. by_cases_on c. Qed.
Lemma space_to_lower c : is_unicode_space c = true → to_lower c = c.
Proof. by_cases_on c. Qed.
Lemma space_to_upper c : is_unicode_space c = true → to_upper c = c.
Proof. by_cases_on c. Qed.

Lemma is_cased_recase b c : is_cased (recase b c) = is_cased c.
Proof. destruct b; [apply is_cased_to_lower|apply is_cased_to_upper]. Qed.
Lemma is_space_recase b c : is_unicode_space (recase b c) = is_unicode_space c.
Proof. destruct b; [apply is_space_to_lower|apply is_space_to_upper]. Qed.
Lemma recase_idemp b c : recase b (recase b c) = recase b c.
Proof. destruct b; [apply to_lower_idemp|apply to_upper_idemp]. Qed.

Lemma title_from_idemp b s : title_from b (title_from b s) = title_from b s.
Proof.
  revert b. induction s as [|c r IH]; intros b; simpl; [done|].
  by rewrite recase_idemp, is_cased_recase, IH.
Qed.

Lemma title_from_empty b s : title_from b s = "" ↔ s = "".
Proof. by destruct s. Qed.

Lemma lstrip_title s :
  lstrip is_unicode_space (title_from false s) =
  title_from false (lstrip is_unicode_space s).
Proof.
  induction s as [|c r IH]; simpl; [done|].
  change (to_upper c) with (recase false c). rewrite is_space_recase.
  destruct (is_unicode_space c) eqn:Hc; [|done].
  by rewrite (space_not_cased _ Hc).
Qed.

Lemma rstrip_title b s :
  rstrip is_unicode_space (title_from b s) =
  title_from b (rstrip is_unicode_space s).
Proof.
  revert b. induction s as [|c r IH]; intros b; simpl; [done|].
  rewrite IH, is_space_recase.
  destruct (rstrip is_unicode_space r) as [|c' r'] eqn:Hr; simpl.
  - by destruct (is_unicode_space c).
  - done.
Qed.

Lemma strip_title s : strip (title s) = title (strip s).
Proof. unfold strip, title. by rewrite lstrip_title, rstrip_title. Qed.

Lemma rstrip_idemp sp s : rstrip sp (rstrip sp s) = rstrip sp s.
Proof.
  induction s as [|c r IH]; simpl; [done|].
  destruct (rstrip sp r) as [|c' r'] eqn:Hr.
  - destruct (sp c) eqn:Hc; simpl; [done|]. by rewrite Hc.
  - simpl in *. by rewrite IH.
Qed.

Lemma lstrip_head sp s :
  match lstrip sp s with String c _ => sp c = false | EmptyString => True end.
Proof.
  induction s as [|c r IH]; simpl; [done|].
  by destruct (sp c) eqn:Hc.
Qed.

Lemma lstrip_rstrip sp s :
  match s with String c _ => sp c = false | EmptyString => True end →
  lstrip sp (rstrip sp s) = rstrip sp s.
Proof.
  destruct s as [|c r]; simpl; [done|]. intros Hc.
  destruct (rstrip sp r); rewrite ?Hc; simpl; by rewrite Hc.
Qed.

Lemma strip_idemp s : strip (strip s) = strip s.
Proof.
  unfold strip.
  rewrite (lstrip_rstrip _ _ (lstrip_head is_unicode_space s)).
  apply rstrip_idemp.
Qed.

Lemma normalize_idemp s : normalize (normalize s) = normalize s.
Proof.
  unfold normalize. rewrite strip_title, strip_idemp.
  apply title_from_idemp.
Qed.

Lemma string_in_spec x l : string_in x l = true ↔ x ∈ l.
Proof.
  unfold string_in. rewrite existsb_exists. split.
  - intros (y & Hy & Heq). apply String.eqb_eq in Heq as ->.
    by apply list_elem_of_In.
  - intros Hx. exists x. split; [by apply list_elem_of_In|apply String.eqb_refl].
Qed.

End Names.

(** ** Reachable states *)

Section Invariant.

Lemma default_categories_ok : categories_ok default_categories.
Proof.
  split.
  - unfold default_categories. simpl.
    by rewrite !dom_insert_L, dom_empty_L, (right_id_L ∅ (∪)).
  - intros ty l. unfold default_categories. simpl.
    intros H. apply lookup_insert_Some in H as [[_ <-]|[_ H]].
    { repeat (constructor; [by vm_compute|]). constructor. }
    apply lookup_insert_Some in H as [[_ <-]|[_ H]]; [|done].
    repeat (constructor; [by vm_compute|]). constructor.
Qed.

Lemma budgets_ok_empty : budgets_ok ∅.
Proof. intros c v H. by rewrite lookup_empty in H. Qed.

Lemma save_data_ok w : world_ok w → world_ok (save_data w).
Proof.
  intros [Hl Hf]. unfold save_data. destruct (writable w); [|done].
  split; [done|]. destruct Hl as (Ht & Hc & Hb). simpl.
  split; [|split]; by intros ? [= <-].
Qed.

Lemma load_data_ok w : world_ok w → world_ok (load_data w).
Proof.
  intros Hw. unfold load_data.
  destruct (disk w) as [| |d] eqn:Hd; [by apply save_data_ok..|].
  destruct Hw as [(Ht & Hc & Hb) Hf]. rewrite Hd in Hf.
  destruct Hf as (Hft & Hfc & Hfb).
  split; [|by simpl; rewrite Hd]. split; [|split]; simpl.
  - destruct (doc_transactions d); [by apply Hft|constructor].
  - destruct (doc_categories d) as [c|]; simpl; [by apply (Hfc c)|apply Hc].
  - destruct (doc_budgets d) as [b|]; simpl; [by apply Hfb|apply budgets_ok_empty].
Qed.

Lemma init_ok file can_write : file_ok file → world_ok (init file can_write).
Proof.
  intros Hf. apply load_data_ok. split; [|done].
  split; [|split]; simpl;
    [constructor|apply default_categories_ok|apply budgets_ok_empty].
Qed.

Lemma categories_ok_append cats ty existing name :
  categories_ok cats → cats !! ty = Some existing →
  categories_ok (<[ty := existing ++ [normalize name]]> cats).
Proof.
  intros [Hdom Hnames] Hty. split.
  - rewrite dom_insert_L, subseteq_union_1_L; [done|].
    apply singleton_subseteq_l, elem_of_dom. eauto.
  - intros ty' l H. apply lookup_insert_Some in H as [[_ <-]|[_ H]]; [|by eapply Hnames].
    apply Forall_app. split; [by eapply Hnames|].
    repeat constructor. apply normalize_idemp.
Qed.

Lemma budgets_ok_insert b c v :
  budgets_ok b → PyFloat.ltb v PyFloat.zero = false → budgets_ok (<[c := v]> b).
Proof.
  intros Hb Hv c' v' H. apply lookup_insert_Some in H as [[_ <-]|[_ H]]; [done|].
  by eapply Hb.
Qed.

Lemma add_transaction_ok trans_type amount category description date_str w :
  world_ok w →
  world_ok (fst (add_transaction trans_type amount category description date_str w)).
Proof.
  intros Hw. unfold add_transaction.
  destruct (PyFloat.of_string amount); [|done].
  destruct (PyDate.strptime date_str); [|done].
  simpl. apply save_data_ok. destruct Hw as [(Ht & Hc & Hb) Hf].
  split; [|done]. split; [|done]. apply sort_by_date_desc_strongly_sorted.
Qed.

Lemma add_category_ok new_category trans_type w :
  world_ok w → world_ok (fst (add_category new_category trans_type w)).
Proof.
  intros Hw. unfold add_category.
  destruct (negb (String.eqb (normalize new_category) "")); [|done].
  destruct (categories (self w) !! trans_type) as [existing|] eqn:Hty; [|done].
  destruct (negb (string_in (normalize new_category) existing)); [|done].
  simpl. apply save_data_ok. destruct Hw as [(Ht & Hc & Hb) Hf].
  split; [|done]. split; [done|]. split; [|done].
  by apply categories_ok_append.
Qed.

Lemma set_budget_ok category amount w :
  world_ok w → world_ok (fst (set_budget category amount w)).
Proof.
  intros Hw. unfold set_budget.
  destruct (PyFloat.of_string amount) as [a|]; [|done].
  destruct (PyFloat.ltb a PyFloat.zero) eqn:Hneg; [done|].
  simpl. apply save_data_ok. destruct Hw as [(Ht & Hc & Hb) Hf].
  split; [|done]. split; [done|]. split; [done|].
  by apply budgets_ok_insert.
Qed.

Lemma reachable_ok w : reachable w → world_ok w.
Proof.
  induction 1 as [b|b|w b Hw IH|w f b Hw IH Hf|w Hw IH|w Hw IH|s w Hw IH
                  |ty a c d ds w Hw IH|n ty w Hw IH|c a w Hw IH].
  - by apply init_ok.
  - by apply init_ok.
  - apply init_ok, IH.
  - destruct IH as [Hl Hd]. split; [done|]. simpl.
    by destruct Hf as [->|[->| ->]].
  - by apply load_data_ok.
  - by apply save_data_ok.
  - apply save_data_ok. by destruct IH as [(Ht & Hc & Hb) Hf].
  - by apply add_transaction_ok.
  - by apply add_category_ok.
  - by apply set_budget_ok.
Qed.

Lemma reachable_unknown_type w ty :
  reachable w → ty ≠ "expense" → ty ≠ "income" → categories (self w) !! ty = None.
Proof.
  intros Hw He Hi. apply reachable_ok in Hw as [(_ & [Hdom _] & _) _].
  apply not_elem_of_dom. rewrite Hdom, elem_of_union, !elem_of_singleton.
  by intros [?|?].
Qed.

Lemma reachable_names_normalized w ty existing :
  reachable w → categories (self w) !! ty = Some existing →
  Forall (λ c, normalize c = c) existing.
Proof.
  intros Hw Hty. apply reachable_ok in Hw as [(_ & [_ Hn] & _) _]. by eapply Hn.
Qed.

(** No budget that the program stored is below zero. *)
Lemma reachable_budgets_not_negative w c v :
  reachable w → get_budgets w !! c = Some v → PyFloat.ltb v PyFloat.zero = false.
Proof.
  intros Hw Hc. apply reachable_ok in Hw as [(_ & _ & Hb) _]. by eapply Hb.
Qed.

(** The ledger is sorted in every state the program reaches. *)
Lemma reachable_sorted w : reachable w → StronglySorted date_desc (transactions (self w)).
Proof. intros Hw. by apply reachable_ok in Hw as [(Ht & _) _]. Qed.

End Invariant.

(** ** Persistence *)

Lemma logic_eta l :
  {| transactions := transactions l; categories := categories l;
     budgets := budgets l; currency_symbol := currency_symbol l |} = l.
Proof. by destruct l. Qed.

Lemma load_data_dumped (w : World) (l : ExpenseLogic) :
  disk w = Json (dump l) → load_data w = with_self w l.
Proof. unfold load_data. intros ->. simpl. by rewrite logic_eta. Qed.

(** C5.  When the file can be written, [save_data] followed by
    [load_data], in the same object or in one started anew, gives back the
    same transactions, categories, budgets and currency symbol; and a
    second [load_data] right after a first changes nothing, whatever the
    file holds. *)
Theorem save_load_round_trip (w : World) :
  (writable w = true → self (load_data (save_data w)) = self w)
  ∧ load_data (load_data w) = load_data w
  ∧ (writable w = true →
     ∀ can_write, self (init (disk (save_data w)) can_write) = self w).
Proof.
  split; [|split].
  - intros Hw. unfold save_data. rewrite Hw.
    by rewrite (load_data_dumped _ (self w)).
  - destruct w as [l f b]. destruct f as [| |d]; unfold load_data at 2; simpl.
    + unfold save_data; simpl. destruct b; [|done].
      by rewrite (load_data_dumped _ l).
    + unfold save_data; simpl. destruct b; [|done].
      by rewrite (load_data_dumped _ l).
    + unfold load_data, with_self; simpl. do 2 f_equal.
      by destruct (doc_categories d).
  - intros Hw can_write. unfold save_data. rewrite Hw. unfold init.
    by rewrite (load_data_dumped _ (self w)).
Qed.

(** ** Categories *)

Lemma elem_of_normalized (n : string) (existing : list string) :
  Forall (λ c, normalize c = c) existing →
  (∃ c, c ∈ existing ∧ normalize c = n) ↔ n ∈ existing.
Proof.
  intros Hall. split.
  - intros (c & Hc & <-).
    rewrite Forall_forall in Hall. by rewrite (Hall c Hc).
  - intros Hn. exists n. split; [done|].
    rewrite Forall_forall in Hall. by apply Hall.
Qed.

Lemma add_category_known (new_category trans_type : string) (w : World)
    (existing : list string) :
  categories (self w) !! trans_type = Some existing →
  add_category new_category trans_type w =
    if String.eqb (normalize new_category) "" then
      (w, Return (false, "Category name cannot be empty."))
    else if string_in (normalize new_category) existing then
      (w, Return (false, "Category already exists."))
    else
      (save_data
         (with_self w
            {| transactions := transactions (self w);
               categories :=
                 <[trans_type := (existing ++ [normalize new_category])]>
                   (categories (self w));
               budgets := budgets (self w);
               currency_symbol := currency_symbol (self w) |}),
       Return (true, String.append "Category '"
                       (String.append (normalize new_category) "' added."))).
Proof.
  intros Hty. unfold add_category. rewrite Hty.
  destruct (String.eqb (normalize new_category) ""); [done|]. simpl.
  by destruct (string_in (normalize new_category) existing).
Qed.

(** C6.  [add_category] trims and title-cases the given name (here a
    name of ASCII characters).  When nothing is left it answers
    "Category name cannot be empty."; when the normalized name is in the
    list of that type it answers "Category already exists."; in both
    cases nothing changes.  Otherwise it answers that the category was
    added, the list of that type is the old one with the normalized name
    at its end, and the lists of the other types are as before.  The
    test compares the normalized new name with the stored names as they
    stand: for a list of normalized names (the defaults are, and so is
    every name of ASCII characters that this method stored) that is the
    comparison of the names once both are normalized. *)
Theorem add_category_normalizes_and_appends
    (new_category trans_type : string) (w : World) (existing : list string) :
  PyStr.isascii new_category = true →
  categories (self w) !! trans_type = Some existing →
  let n := normalize new_category in
  let result := add_category new_category trans_type w in
  (n = "" → result = (w, Return (false, "Category name cannot be empty.")))
  ∧ (n ≠ "" → n ∈ existing →
     result = (w, Return (false, "Category already exists.")))
  ∧ (n ≠ "" → n ∉ existing →
     snd result = Return (true, String.append "Category '" (String.append n "' added."))
     ∧ get_categories trans_type (fst result) = existing ++ [n]
     ∧ (∀ ty, ty ≠ trans_type → get_categories ty (fst result) = get_categories ty w))
  ∧ (Forall (λ c, normalize c = c) existing →
     (n ∈ existing ↔ ∃ c, c ∈ existing ∧ normalize c = n)).
Proof.
  intros _ Hty n result. subst result.
  rewrite (add_category_known _ _ _ _ Hty). fold n.
  split; [|split; [|split]].
  - intros ->. done.
  - intros Hne Hdup. apply String.eqb_neq in Hne. rewrite Hne.
    apply string_in_spec in Hdup. by rewrite Hdup.
  - intros Hne Hnew. apply String.eqb_neq in Hne. rewrite Hne.
    destruct (string_in n existing) eqn:Hs; [by apply string_in_spec in Hs|].
    simpl. split; [done|]. unfold get_categories. rewrite self_save_data. simpl.
    split.
    + by rewrite lookup_insert_eq.
    + intros ty Hty'. by rewrite lookup_insert_ne.
  - intros Hnorm. symmetry. by apply elem_of_normalized.
Qed.

(** C10, as amended.  In a reachable state, for a type other than
    "expense" and "income", [get_categories] returns the empty list;
    [add_category] raises [KeyError] when the name is not empty once
    trimmed and title-cased, and returns the failure "Category name cannot
    be empty." when it is.  Nothing changes in either case. *)
Theorem unknown_type_get_empty_add_raises_unless_blank
    (new_category trans_type : string) (w : World) :
  reachable w →
  trans_type ≠ "expense" → trans_type ≠ "income" →
  get_categories trans_type w = []
  ∧ (normalize new_category ≠ "" →
     add_category new_category trans_type w = (w, Raise (KeyError trans_type)))
  ∧ (normalize new_category = "" →
     add_category new_category trans_type w =
       (w, Return (false, "Category name cannot be empty."))).
Proof.
  intros Hw He Hi.
  pose proof (reachable_unknown_type _ _ Hw He Hi) as Hnone.
  unfold get_categories, add_category. rewrite Hnone.
  split; [done|]. split.
  - intros Hne. apply String.eqb_neq in Hne. by rewrite Hne.
  - intros ->. done.
Qed.

(** ** Budgets *)

(** C7.  [set_budget] returns the failure "Invalid amount." when [float]
    rejects the amount string and the failure "Budget amount cannot be
    negative." when the parsed amount is below zero, and changes nothing
    then.  Otherwise it succeeds, [get_budgets] then has the parsed amount
    under the category, and the other entries are as before. *)
Theorem set_budget_validates_and_upserts (category amount : string) (w : World) :
  let result := set_budget category amount w in
  (PyFloat.of_string amount = None → result = (w, (false, "Invalid amount.")))
  ∧ (∀ a, PyFloat.of_string amount = Some a → PyFloat.ltb a PyFloat.zero = true →
       result = (w, (false, "Budget amount cannot be negative.")))
  ∧ (∀ a, PyFloat.of_string amount = Some a → PyFloat.ltb a PyFloat.zero = false →
       fst (snd result) = true
       ∧ get_budgets (fst result) !! category = Some a
       ∧ (∀ c, c ≠ category → get_budgets (fst result) !! c = get_budgets w !! c)).
Proof.
  cbv zeta. unfold set_budget. split; [|split].
  - by intros ->.
  - intros a -> ->. done.
  - intros a -> ->. simpl. unfold get_budgets. rewrite self_save_data. simpl.
    split; [done|]. split.
    + by rewrite lookup_insert_eq.
    + intros c Hc. by rewrite lookup_insert_ne.
Qed.

(** C8 at the failing input.  On a first run, [set_budget("Rent", "nan")]
    succeeds and stores a NaN, for which [0 <= v] is false; the state it
    leaves is a reachable one. *)
Theorem set_budget_stores_nan :
  let result := set_budget "Rent" "nan" fresh in
  reachable (fst result)
  ∧ snd result = (true, "Budget for Rent set to $nan.")
  ∧ get_budgets (fst result) !! "Rent" = Some PyFloat.nan
  ∧ PyFloat.leb PyFloat.zero PyFloat.nan = false.
Proof.
  cbv zeta. split; [apply reach_set_budget, reach_first_run|].
  split; [|split]; by vm_compute.
Qed.

(** ** Monthly report *)

Section Report.

Lemma filter_filter {A} (f g : A → bool) (l : list A) :
  List.filter f (List.filter g l) = List.filter (λ x, g x && f x) l.
Proof.
  induction l as [|x r IH]; simpl; [done|].
  destruct (g x); simpl; [|done]. destruct (f x); by rewrite IH.
Qed.

Lemma fold_spend_lookup (l : list Transaction) (d : gmap string float) (c : string) :
  fold_left spend l d !! c =
    match expenses_in c l with
    | [] => d !! c
    | xs => Some (fold_left PyFloat.add xs (default PyFloat.zero (d !! c)))
    end.
Proof.
  revert d. induction l as [|t r IH]; intros d; [done|].
  simpl fold_left. rewrite IH. unfold expenses_in, spend. simpl.
  destruct (has_type "expense" t); simpl; [|done].
  destruct (String.eqb (t_category t) c) eqn:Hc; simpl.
  - apply String.eqb_eq in Hc as ->. rewrite lookup_insert_eq. simpl.
    by destruct (List.map t_amount _).
  - apply String.eqb_neq in Hc. by rewrite lookup_insert_ne.
Qed.

End Report.

(** C1.  The report for [now] is computed from the entries whose date
    string starts with the year-month string of [now]: the total income is
    the sum of the amounts of those of type "income", the total expense the
    sum of those of type "expense", the net savings their difference, and
    the spending mapping gives, for a category with an expense among them,
    the amounts of its expenses added up in ledger order, and has no entry
    for any other category. *)
Theorem monthly_report_aggregates (now : PyDate.datetime) (w : World) :
  let report := get_monthly_report_data now w in
  let ledger := transactions (self w) in
  total_income report = PyFloat.sum (month_amounts now "income" ledger)
  ∧ total_expense report = PyFloat.sum (month_amounts now "expense" ledger)
  ∧ net_savings report = PyFloat.sub (total_income report) (total_expense report)
  ∧ ∀ c, spending_by_category report !! c =
         match month_expenses_in now c ledger with
         | [] => None
         | amounts => Some (PyFloat.running_total amounts)
         end.
Proof.
  cbv zeta. unfold get_monthly_report_data, month_amounts, month_expenses_in. simpl.
  rewrite !filter_filter. do 3 (split; [done|]).
  intros c. rewrite fold_spend_lookup. unfold expenses_in.
  by rewrite filter_filter, lookup_empty.
Qed.

(** ** Currency format *)

Section Format.
Import PyChar.

Lemma hundredths_rounds m e :
  let '(n, d) := magnitude (S754_finite false m e) in
  rounds_to_hundredths n d (PyFloat.hundredths m e).
Proof.
  unfold magnitude, PyFloat.hundredths, rounds_to_hundredths.
  destruct e as [|p|p].
  - rewrite Z.pow_0_r. split; [lia|]. split; [lia|]. lia.
  - assert (0 < 2 ^ Z.pos p) by (apply Z.pow_pos_nonneg; lia).
    split; [lia|]. split; [lia|]. lia.
  - set (d := 2 ^ Z.pos p). set (n := Z.pos m * 100).
    assert (Hd : 0 < d) by (apply Z.pow_pos_nonneg; lia).
    pose proof (Z.div_mod n d ltac:(lia)) as Hdiv.
    pose proof (Z.mod_pos_bound n d Hd) as Hr.
    assert (Hq : 0 <= n / d) by (apply Z.div_pos; lia).
    replace (100 * Z.pos m) with n by lia.
    set (q := n / d) in *. set (r := n mod d) in *.
    destruct (Z.compare_spec (2 * r) d) as [Heq|Hlt|Hgt].
    + destruct (Z.even q) eqn:Hev.
      * split; [lia|]. split; [nia|]. done.
      * split; [lia|]. split; [nia|]. intros _.
        rewrite Z.even_add, Hev. done.
    + split; [lia|]. split; [nia|]. nia.
    + split; [lia|]. split; [nia|]. nia.
Qed.

Lemma hundredths_nonneg m e : 0 <= PyFloat.hundredths m e.
Proof.
  pose proof (hundredths_rounds m e) as H. unfold magnitude in H.
  destruct e; apply H.
Qed.

Lemma point_two_step seen c r :
  is_digit c = true →
  digits_then_point_two seen (String c r) = digits_then_point_two true r.
Proof.
  intros Hc. destruct c as [[] [] [] [] [] [] [] []]; try discriminate Hc; reflexivity.
Qed.

Lemma point_two_digits seen ds a b :
  all_digits ds = true → is_digit a = true → is_digit b = true →
  (seen = true ∨ ds ≠ "") →
  digits_then_point_two seen
    (String.append ds (String "." (String a (String b "")))) = true.
Proof.
  intros Hds Ha Hb. revert seen. induction ds as [|c r IH]; intros seen Hseen.
  - destruct Hseen as [->|?]; [|done]. simpl. by rewrite Ha, Hb.
  - simpl in Hds. apply andb_true_iff in Hds as [Hc Hr].
    rewrite append_cons, point_two_step by done. apply IH; auto.
Qed.

Lemma fixed2_two_decimals s h :
  0 <= h → two_decimal_numeral (PyFloat.fixed2 s h) = true.
Proof.
  intros Hh. unfold PyFloat.fixed2.
  rewrite zero_padded_two by (apply Z.mod_pos_bound; lia).
  assert (H1 : 0 <= h mod 100 / 10 <= 9) by (Z.div_mod_to_equations; lia).
  assert (H2 : 0 <= (h mod 100) mod 10 <= 9) by (Z.div_mod_to_equations; lia).
  destruct (of_nonneg_digits (h / 100)) as (c & r & Hq & Hc & Hr).
  assert (Hbody : digits_then_point_two false
            (String.append (PyStr.of_nonneg (h / 100))
               (String "." (two_digits (h mod 100)))) = true).
  { apply point_two_digits; [by rewrite Hq; simpl; rewrite Hc|by apply is_digit_char..|].
    right. by rewrite Hq. }
  destruct s; [done|]. rewrite append_nil_l.
  rewrite Hq, append_cons in *. unfold two_decimal_numeral.
  destruct c as [[] [] [] [] [] [] [] []]; try discriminate Hc; exact Hbody.
Qed.

End Format.

(** C9, as amended.  For a finite amount, [format_currency] returns the
    symbol followed by a numeral with exactly two decimals: a minus sign
    when the amount's sign bit is set, then the amount rounded to
    hundredths (to nearest, ties to even) written as a decimal numeral, a
    point and two digits. *)
Theorem format_currency_two_decimals (amount : float) (w : World) :
  PyFloat.is_finite amount = true →
  ∃ body h,
    format_currency amount w = String.append (get_currency_symbol w) body
    ∧ two_decimal_numeral body = true
    ∧ (let '(n, d) := magnitude amount in rounds_to_hundredths n d h)
    ∧ body = String.append (if PyFloat.signbit amount then "-" else "")
               (String.append (PyStr.of_nonneg (h / 100))
                  (String "." (two_digits (h mod 100)))).
Proof.
  intros Hfin. exists (PyFloat.format_2f amount).
  destruct amount as [s|s| |s m e]; try done.
  - exists 0. split; [done|]. split; [by apply fixed2_two_decimals|].
    split; [by vm_compute|done].
  - exists (PyFloat.hundredths m e).
    pose proof (hundredths_rounds m e) as Hround.
    split; [done|]. split; [apply fixed2_two_decimals, hundredths_nonneg|].
    split; [exact Hround|].
    simpl. unfold PyFloat.fixed2. rewrite zero_padded_two; [done|].
    apply Z.mod_pos_bound. lia.
Qed.

Example format_currency_euro :
  ∃ x, PyFloat.of_string "1234.5" = Some x
       ∧ format_currency x (set_currency "€" fresh) = "€1234.50".
Proof. eexists. split; by vm_compute. Qed.

Example format_currency_negative :
  ∃ x, PyFloat.of_string "-12.34" = Some x ∧ format_currency x fresh = "$-12.34".
Proof. eexists. split; by vm_compute. Qed.

Lemma format_currency_two_decimals_witness :
  PyFloat.is_finite (S754_finite false 5429388417957888 (-42)) = true
  ∧ ∃ body h,
      format_currency (S754_finite false 5429388417957888 (-42))
        (set_currency "€" fresh) =
        String.append (get_currency_symbol (set_currency "€" fresh)) body
      ∧ two_decimal_numeral body = true
      ∧ rounds_to_hundredths 5429388417957888 (2 ^ 42) h
      ∧ body = String.append ""
                 (String.append (PyStr.of_nonneg (h / 100))
                    (String "." (two_digits (h mod 100)))).
Proof.
  split; [reflexivity|].
  apply (format_currency_two_decimals (S754_finite false 5429388417957888 (-42))
           (set_currency "€" fresh)).
  reflexivity.
Defined.

(** C9 as stated fails at an infinite amount, which [float("inf")] gives:
    what follows the symbol is "inf", not a numeral with two decimals. *)
Lemma format_currency_infinity_has_no_decimals :
  PyFloat.of_string "inf" = Some (PyFloat.inf false)
  ∧ format_currency (PyFloat.inf false) fresh = String.append (get_currency_symbol fresh) "inf"
  ∧ two_decimal_numeral "inf" = false.
Proof. split; [|split]; by vm_compute. Qed.

(** ** The properties at concrete inputs *)

Lemma add_transaction_stores_abs_amount_and_next_id_witness :
  PyFloat.of_string "-300" = Some (S754_finite true 5277655813324800 (-44))
  ∧ PyDate.strptime "2024-5-03" =
      Some {| PyDate.year := 2024; PyDate.month := 5; PyDate.day := 3 |}
  ∧ snd (add_transaction "expense" "-300" "Rent" "" "2024-5-03" fresh) =
      (true, "Transaction added successfully.")
  ∧ {| t_id := 1; t_type := "expense";
       t_amount := S754_finite false 5277655813324800 (-44);
       t_category := "Rent"; t_description := ""; t_date := "2024-05-03" |}
    ∈ transactions (self (fst (add_transaction "expense" "-300" "Rent" "" "2024-5-03" fresh))).
Proof.
  assert (Ha : PyFloat.of_string "-300" =
               Some (S754_finite true 5277655813324800 (-44))) by reflexivity.
  assert (Hd : PyDate.strptime "2024-5-03" =
               Some {| PyDate.year := 2024; PyDate.month := 5; PyDate.day := 3 |})
    by reflexivity.
  destruct (add_transaction_stores_abs_amount_and_next_id
              "expense" "-300" "Rent" "" "2024-5-03" fresh _ _ Ha Hd)
    as (Hr & Hin & _).
  split; [exact Ha|]. split; [exact Hd|]. split; [exact Hr|exact Hin].
Defined.

Lemma add_transaction_sorted_by_date_desc_witness :
  fst (snd (add_transaction "expense" "12.5" "Dining" "lunch" "2024-05-02" example_ledger)) = true
  ∧ StronglySorted date_desc
      (transactions
         (self (fst (add_transaction "expense" "12.5" "Dining" "lunch" "2024-05-02"
                       example_ledger)))).
Proof.
  split; [reflexivity|].
  apply (add_transaction_sorted_by_date_desc
           "expense" "12.5" "Dining" "lunch" "2024-05-02" example_ledger).
  reflexivity.
Defined.

Example add_transaction_keeps_order :
  List.map t_date
    (transactions
       (self (fst (add_transaction "expense" "12.5" "Dining" "lunch" "2024-05-02"
                     example_ledger)))) =
  ["2024-05-03"; "2024-05-02"; "2024-05-01"; "2024-04-30"].
Proof. by vm_compute. Qed.

Lemma add_transaction_rejects_bad_amount_or_date_witness :
  PyStr.isascii "abc" = true
  ∧ PyStr.isascii "2024-13-40" = true
  ∧ PyFloat.of_string "abc" = None
  ∧ ¬ spells_a_date "2024-13-40"
  ∧ ¬ spells_a_date "01-01-2024"
  ∧ ¬ spells_a_date "2023-02-29"
  ∧ add_transaction "expense" "abc" "Rent" "" "2024-01-01" example_ledger =
      (example_ledger, (false, invalid_msg))
  ∧ add_transaction "expense" "10" "Rent" "" "2024-13-40" example_ledger =
      (example_ledger, (false, invalid_msg))
  ∧ add_transaction "expense" "10" "Rent" "" "01-01-2024" example_ledger =
      (example_ledger, (false, invalid_msg))
  ∧ add_transaction "expense" "10" "Rent" "" "2023-02-29" example_ledger =
      (example_ledger, (false, invalid_msg)).
Proof.
  assert (Hnone : ∀ s, PyDate.strptime s = None → ¬ spells_a_date s).
  { intros s Hs (dt & Hv & Hin). by apply (proj1 (strptime_rejects s) Hs dt). }
  assert (H1 : ¬ spells_a_date "2024-13-40") by (apply Hnone; reflexivity).
  assert (H2 : ¬ spells_a_date "01-01-2024") by (apply Hnone; reflexivity).
  assert (H3 : ¬ spells_a_date "2023-02-29") by (apply Hnone; reflexivity).
  split; [reflexivity|]. split; [reflexivity|]. split; [reflexivity|].
  split; [exact H1|]. split; [exact H2|]. split; [exact H3|].
  split; [|split; [|split]].
  - apply (add_transaction_rejects_bad_amount_or_date
             "expense" "abc" "Rent" "" "2024-01-01" example_ledger);
      [reflexivity|reflexivity|]. left. reflexivity.
  - apply (add_transaction_rejects_bad_amount_or_date
             "expense" "10" "Rent" "" "2024-13-40" example_ledger);
      [reflexivity|reflexivity|]. right. exact H1.
  - apply (add_transaction_rejects_bad_amount_or_date
             "expense" "10" "Rent" "" "01-01-2024" example_ledger);
      [reflexivity|reflexivity|]. right. exact H2.
  - apply (add_transaction_rejects_bad_amount_or_date
             "expense" "10" "Rent" "" "2023-02-29" example_ledger);
      [reflexivity|reflexivity|]. right. exact H3.
Defined.

(** C4 as stated fails twice: a bad amount and a bad date give the very
    same result, and dates that are not in the form YYYY-MM-DD are
    accepted: one with a one-digit month and day, and one whose day is a
    blank and a digit; both are stored as 2024-01-05. *)
Lemma add_transaction_one_failure_and_lenient_dates :
  snd (add_transaction "expense" "abc" "Rent" "" "2024-01-01" fresh) =
  snd (add_transaction "expense" "10" "Rent" "" "2024-13-40" fresh)
  ∧ snd (add_transaction "expense" "10" "Rent" "" "2024-1-5" fresh) =
      (true, "Transaction added successfully.")
  ∧ List.map t_date
      (transactions (self (fst (add_transaction "expense" "10" "Rent" "" "2024-1-5" fresh)))) =
      ["2024-01-05"]
  ∧ snd (add_transaction "expense" "10" "Rent" "" "2024-01- 5" fresh) =
      (true, "Transaction added successfully.")
  ∧ List.map t_date
      (transactions (self (fst (add_transaction "expense" "10" "Rent" "" "2024-01- 5" fresh)))) =
      ["2024-01-05"].
Proof. repeat split; by vm_compute. Qed.

Lemma save_load_round_trip_witness :
  writable example_ledger = true
  ∧ self (load_data (save_data example_ledger)) = self example_ledger
  ∧ self (init (disk (save_data example_ledger)) false) = self example_ledger.
Proof.
  split; [reflexivity|].
  destruct (save_load_round_trip example_ledger) as (Hsame & _ & Hnew).
  split; [apply Hsame; reflexivity|apply Hnew; reflexivity].
Defined.

Lemma add_category_normalizes_and_appends_witness :
  PyStr.isascii " groceries" = true
  ∧ categories (self fresh) !! "expense" =
      Some ["Groceries"; "Rent"; "Transport"; "Dining"; "Utilities"; "Other"]
  ∧ add_category "" "expense" fresh =
      (fresh, Return (false, "Category name cannot be empty."))
  ∧ add_category " groceries" "expense" fresh =
      (fresh, Return (false, "Category already exists."))
  ∧ get_categories "expense" (fst (add_category "pet food " "expense" fresh)) =
      ["Groceries"; "Rent"; "Transport"; "Dining"; "Utilities"; "Other"; "Pet Food"].
Proof.
  assert (Hc : categories (self fresh) !! "expense" =
               Some ["Groceries"; "Rent"; "Transport"; "Dining"; "Utilities"; "Other"])
    by reflexivity.
  split; [reflexivity|]. split; [exact Hc|]. split; [|split].
  - destruct (add_category_normalizes_and_appends "" "expense" fresh _ eq_refl Hc)
      as (Hempty & _). apply Hempty. reflexivity.
  - destruct (add_category_normalizes_and_appends " groceries" "expense" fresh _ eq_refl Hc)
      as (_ & Hdup & _). apply Hdup.
    + discriminate.
    + apply list_elem_of_here.
  - destruct (add_category_normalizes_and_appends "pet food " "expense" fresh _ eq_refl Hc)
      as (_ & _ & Hnew & _). apply Hnew.
    + discriminate.
    + intros Hin.
      repeat (apply elem_of_cons in Hin as [Heq|Hin];
              [vm_compute in Heq; discriminate Heq|]).
      by apply elem_of_nil in Hin.
Defined.

Lemma set_budget_validates_and_upserts_witness :
  set_budget "Rent" "five" fresh = (fresh, (false, "Invalid amount."))
  ∧ set_budget "Rent" "-5" fresh = (fresh, (false, "Budget amount cannot be negative."))
  ∧ get_budgets (fst (set_budget "Rent" "500" fresh)) !! "Rent" =
      Some (S754_finite false 8796093022208000 (-44)).
Proof.
  split; [|split].
  - apply (set_budget_validates_and_upserts "Rent" "five" fresh). reflexivity.
  - destruct (set_budget_validates_and_upserts "Rent" "-5" fresh) as (_ & Hneg & _).
    apply (Hneg (S754_finite true 5629499534213120 (-50))); reflexivity.
  - destruct (set_budget_validates_and_upserts "Rent" "500" fresh) as (_ & _ & Hset).
    apply (Hset (S754_finite false 8796093022208000 (-44))); reflexivity.
Defined.

Example set_budget_500_message :
  snd (set_budget "Rent" "500" fresh) = (true, "Budget for Rent set to $500.00.").
Proof. by vm_compute. Qed.

Lemma unknown_type_get_empty_add_raises_unless_blank_witness :
  reachable example_ledger
  ∧ get_categories "savings" example_ledger = []
  ∧ add_category "Bonds" "savings" example_ledger =
      (example_ledger, Raise (KeyError "savings"))
  ∧ add_category "  " "savings" example_ledger =
      (example_ledger, Return (false, "Category name cannot be empty.")).
Proof.
  assert (Hr : reachable example_ledger).
  { unfold example_ledger. do 3 apply reach_add_transaction. apply reach_first_run. }
  split; [exact Hr|].
  assert (He : "savings" ≠ "expense") by discriminate.
  assert (Hi : "savings" ≠ "income") by discriminate.
  split; [|split].
  - apply (unknown_type_get_empty_add_raises_unless_blank "" "savings" _ Hr He Hi).
  - destruct (unknown_type_get_empty_add_raises_unless_blank
                "Bonds" "savings" _ Hr He Hi) as (_ & Hraise & _).
    apply Hraise. discriminate.
  - destruct (unknown_type_get_empty_add_raises_unless_blank
                "  " "savings" _ Hr He Hi) as (_ & _ & Hblank).
    apply Hblank. reflexivity.
Defined.

(** C10 as stated fails for a blank name: with an unknown type
    [add_category] then returns the failure pair and raises nothing. *)
Lemma add_category_unknown_type_blank_name_returns :
  get_categories "savings" fresh = []
  ∧ snd (add_category "" "savings" fresh) =
      Return (false, "Category name cannot be empty.")
  ∧ snd (add_category "   " "savings" fresh) ≠ Raise (KeyError "savings").
Proof. split; [|split]; by vm_compute. Qed.

(** The report of the example ledger for May 2024: the April expense is
    left out. *)
Example monthly_report_example :
  let report := get_monthly_report_data may_2024 example_ledger in
  month_name report = "May 2024"
  ∧ Some (total_income report) = PyFloat.of_string "1000"
  ∧ Some (total_expense report) = PyFloat.of_string "300"
  ∧ Some (net_savings report) = PyFloat.of_string "700"
  ∧ (∃ x, PyFloat.of_string "300" = Some x
          ∧ map_to_list (spending_by_category report) = [("Rent", x)]).
Proof.
  cbv zeta. do 4 (split; [by vm_compute|]). eexists. split; by vm_compute.
Qed.

(** * Further properties

    Properties of the methods beyond the ones above, of the callbacks of
    the window and of the colour helpers. *)

Section Order.

Lemma date_desc_not_gt x y : date_desc x y → date_gt y x = false.
Proof.
  unfold date_gt, date_desc, String.le, String.leb.
  by destruct (String.compare (t_date y) (t_date x)).
Qed.

Lemma insert_desc_front x l : Forall (date_desc x) l → insert_desc x l = x :: l.
Proof.
  destruct 1 as [|y r Hy _]; [done|]. simpl. by rewrite (date_desc_not_gt x y).
Qed.

(** Re-sorting a sorted ledger changes nothing. *)
Lemma sort_by_date_desc_sorted_id l :
  StronglySorted date_desc l → sort_by_date_desc l = l.
Proof.
  induction 1 as [|x r Hr IH Hx]; [done|]. simpl. rewrite IH.
  by apply insert_desc_front.
Qed.

(** Where the entry appended to a sorted ledger ends up. *)
Lemma sort_by_date_desc_snoc l t :
  StronglySorted date_desc l →
  ∃ before after,
    l = before ++ after
    ∧ sort_by_date_desc (l ++ [t]) = before ++ t :: after
    ∧ Forall (λ y, date_desc y t) before
    ∧ Forall (λ y, date_gt t y = true) after.
Proof.
  induction 1 as [|x r Hr IH Hx].
  { exists [], []. by repeat split. }
  destruct IH as (before & after & -> & Hs & Hb & Ha).
  simpl. rewrite Hs. destruct before as [|b bs].
  - simpl. destruct (date_gt t x) eqn:Hgt.
    + exists [], (x :: after). rewrite insert_desc_front by done.
      split; [done|]. split; [done|]. split; [constructor|by constructor].
    + exists [x], after. split; [done|]. split; [done|].
      split; [|done]. repeat constructor. by apply not_date_gt_desc.
  - apply Forall_cons in Hx as [Hxb Hx]. apply Forall_cons in Hb as [Hbt Hb].
    simpl. rewrite (date_desc_not_gt x b) by done.
    exists (x :: b :: bs), after. split; [done|]. split; [done|].
    split; [|done]. constructor; [|by constructor].
    by apply (date_desc_trans x b t).
Qed.

End Order.

(** ** Where a new entry goes, and what it does to the report *)

Lemma date_gt_strict x y :
  date_gt x y = true → date_desc x y ∧ t_date y ≠ t_date x.
Proof.
  intros Hgt. split; [by apply date_gt_desc|].
  intros Heq. unfold date_gt in Hgt. by rewrite Heq, compare_same in Hgt.
Qed.

Lemma transactions_added trans_type amount category description date_str w parsed dt :
  PyFloat.of_string amount = Some parsed →
  PyDate.strptime date_str = Some dt →
  transactions (self (fst (add_transaction trans_type amount category description
                                           date_str w))) =
    sort_by_date_desc
      (transactions (self w) ++
       [new_transaction w trans_type (PyFloat.abs parsed) category description
          (PyDate.strftime_Ymd dt)]).
Proof.
  intros Ha Hd. rewrite (add_transaction_valid _ _ _ _ _ _ _ _ Ha Hd). simpl.
  by rewrite self_save_data.
Qed.

(** X1.  In a state the program reaches, a successful [add_transaction]
    leaves the stored entries in the order they had and puts the new one,
    with the date string that [strftime] writes for the parsed date,
    behind every entry whose stored date string is the same or greater
    and in front of every entry whose stored date string is smaller.
    This is the order of the strings, character by character: for dates
    of the year 1000 or later it is the order of the calendar; a
    date of a year below 1000 is stored without leading zeros and goes
    by its string (see [ledger_order_below_year_1000]). *)
Theorem add_transaction_goes_behind_same_date
    trans_type amount category description date_str w parsed dt :
  reachable w →
  PyFloat.of_string amount = Some parsed →
  PyDate.strptime date_str = Some dt →
  let entry := new_transaction w trans_type (PyFloat.abs parsed) category
                 description (PyDate.strftime_Ymd dt) in
  ∃ before after,
    transactions (self w) = before ++ after
    ∧ transactions (self (fst (add_transaction trans_type amount category
                                 description date_str w))) =
        before ++ entry :: after
    ∧ Forall (λ t, String.le (t_date entry) (t_date t)) before
    ∧ Forall (λ t, String.le (t_date t) (t_date entry) ∧ t_date t ≠ t_date entry) after.
Proof.
  intros Hw Ha Hd entry. rewrite (transactions_added _ _ _ _ _ _ _ _ Ha Hd).
  destruct (sort_by_date_desc_snoc (transactions (self w)) entry)
    as (before & after & Hl & Hs & Hb & Hafter); [by apply reachable_sorted|].
  exists before, after. split; [done|]. split; [done|]. split; [done|].
  eapply Forall_impl; [exact Hafter|]. intros t Ht. by apply date_gt_strict.
Qed.

Lemma filter_without {A} (p : A → bool) before x after :
  p x = false →
  List.filter p (before ++ x :: after) = List.filter p (before ++ after).
Proof. intros Hx. rewrite !List.filter_app. simpl. by rewrite Hx. Qed.

Lemma fold_spend_without before t after d :
  has_type "expense" t = false →
  fold_left spend (before ++ t :: after) d = fold_left spend (before ++ after) d.
Proof.
  intros Ht. rewrite !fold_left_app. simpl. unfold spend at 2. by rewrite Ht.
Qed.

Lemma has_type_new w ty a c d date ty' :
  ty ≠ ty' → has_type ty' (new_transaction w ty a c d date) = false.
Proof. intros Hne. unfold has_type. simpl. by apply String.eqb_neq. Qed.

(** X2.  In a state the program reaches, adding an entry that is dated
    outside the month of [now] leaves the whole monthly report as it was;
    an entry of a type other than "income" leaves the total income, and
    one of a type other than "expense" the total expense and the spending
    by category; an entry of any other type (the method checks none)
    changes nothing in the report. *)
Theorem add_transaction_report_unchanged
    trans_type amount category description date_str w parsed dt now :
  reachable w →
  PyFloat.of_string amount = Some parsed →
  PyDate.strptime date_str = Some dt →
  0 <= PyDate.year now <= 9999 → 1 <= PyDate.month now <= 12 →
  let before := get_monthly_report_data now w in
  let after :=
    get_monthly_report_data now
      (fst (add_transaction trans_type amount category description date_str w)) in
  (¬ (PyDate.year dt = PyDate.year now ∧ PyDate.month dt = PyDate.month now) →
   after = before)
  ∧ (trans_type ≠ "income" → total_income after = total_income before)
  ∧ (trans_type ≠ "expense" →
     total_expense after = total_expense before
     ∧ spending_by_category after = spending_by_category before)
  ∧ (trans_type ≠ "income" → trans_type ≠ "expense" → after = before).
Proof.
  intros Hw Ha Hd Hy Hm. cbv zeta.
  pose proof (strptime_accepts date_str dt) as [Hacc _].
  destruct (Hacc Hd) as [Hv _]. clear Hacc.
  unfold get_monthly_report_data.
  rewrite (transactions_added _ _ _ _ _ _ _ _ Ha Hd).
  set (entry := new_transaction w trans_type (PyFloat.abs parsed) category
                  description (PyDate.strftime_Ymd dt)).
  destruct (sort_by_date_desc_snoc (transactions (self w)) entry)
    as (l1 & l2 & -> & -> & _ & _); [by apply reachable_sorted|].
  fold (in_month now).
  assert (Hincome : trans_type ≠ "income" →
    List.filter (has_type "income") (List.filter (in_month now) (l1 ++ entry :: l2)) =
    List.filter (has_type "income") (List.filter (in_month now) (l1 ++ l2))).
  { intros Hty. rewrite !filter_filter. apply filter_without.
    unfold entry. rewrite has_type_new by done. apply andb_false_r. }
  assert (Hexpense : trans_type ≠ "expense" →
    List.filter (has_type "expense") (List.filter (in_month now) (l1 ++ entry :: l2)) =
    List.filter (has_type "expense") (List.filter (in_month now) (l1 ++ l2))).
  { intros Hty. rewrite !filter_filter. apply filter_without.
    unfold entry. rewrite has_type_new by done. apply andb_false_r. }
  assert (Hspend : trans_type ≠ "expense" →
    fold_left spend (List.filter (in_month now) (l1 ++ entry :: l2)) ∅ =
    fold_left spend (List.filter (in_month now) (l1 ++ l2)) ∅).
  { intros Hty. rewrite !List.filter_app. simpl.
    destruct (in_month now entry); [|done].
    apply fold_spend_without. unfold entry. by rewrite has_type_new. }
  split; [|split; [|split]].
  - intros Hother.
    assert (Hout : in_month now entry = false).
    { apply not_true_is_false. intros Hin.
      by apply (in_month_same_year_and_month entry dt now) in Hin. }
    by rewrite (filter_without _ _ _ _ Hout).
  - intros Hty. simpl. by rewrite Hincome.
  - intros Hty. simpl. by rewrite Hexpense, Hspend.
  - intros Hi He. by rewrite Hincome, Hexpense, Hspend.
Qed.

(** ** Invariants of the reachable states *)

Section Reachable.

Lemma save_data_disk w :
  disk (save_data w) = disk w ∨ disk (save_data w) = Json (dump (self (save_data w))).
Proof. unfold save_data. destruct (writable w); [by right|by left]. Qed.

Lemma set_currency_disk s w :
  disk (set_currency s w) = disk w
  ∨ disk (set_currency s w) = Json (dump (self (set_currency s w))).
Proof. unfold set_currency. apply (save_data_disk (with_self w _)). Qed.

Lemma add_transaction_disk ty a c d ds w :
  let w' := fst (add_transaction ty a c d ds w) in
  disk w' = disk w ∨ disk w' = Json (dump (self w')).
Proof.
  cbv zeta. unfold add_transaction.
  destruct (PyFloat.of_string a); [|by left].
  destruct (PyDate.strptime ds); [|by left].
  apply (save_data_disk (with_self w _)).
Qed.

Lemma add_category_disk n ty w :
  let w' := fst (add_category n ty w) in
  disk w' = disk w ∨ disk w' = Json (dump (self w')).
Proof.
  cbv zeta. unfold add_category.
  destruct (negb (String.eqb (normalize n) "")); [|by left].
  destruct (categories (self w) !! ty) as [existing|]; [|by left].
  destruct (negb (string_in (normalize n) existing)); [|by left].
  apply (save_data_disk (with_self w _)).
Qed.

Lemma set_budget_disk c a w :
  let w' := fst (set_budget c a w) in
  disk w' = disk w ∨ disk w' = Json (dump (self w')).
Proof.
  cbv zeta. unfold set_budget.
  destruct (PyFloat.of_string a) as [x|]; [|by left].
  destruct (PyFloat.ltb x PyFloat.zero); [by left|].
  apply (save_data_disk (with_self w _)).
Qed.

Lemma file_holds_step (P : ExpenseLogic → Prop) w w' :
  P (self w') → file_holds P (disk w) →
  disk w' = disk w ∨ disk w' = Json (dump (self w')) →
  file_holds P (disk w').
Proof. intros HP Hf [-> | ->]; [done|]. simpl. eauto. Qed.

Lemma load_data_holds (P : ExpenseLogic → Prop) w :
  P (self w) → file_holds P (disk w) →
  P (self (load_data w)) ∧ file_holds P (disk (load_data w)).
Proof.
  intros HP Hf. unfold load_data.
  destruct (disk w) as [| |d] eqn:Hd.
  - rewrite self_save_data. split; [done|].
    apply (file_holds_step P w); [by rewrite self_save_data|by rewrite Hd|].
    apply save_data_disk.
  - rewrite self_save_data. split; [done|].
    apply (file_holds_step P w); [by rewrite self_save_data|by rewrite Hd|].
    apply save_data_disk.
  - destruct Hf as (l & -> & Hl). simpl. rewrite logic_eta.
    split; [done|]. rewrite Hd. simpl. eauto.
Qed.

(** A property of the attributes that holds at the start and that each
    of the four mutating methods keeps holds in every reachable state,
    of the object and of what the file holds. *)
Lemma reachable_invariant (P : ExpenseLogic → Prop) :
  P initial_attributes →
  (∀ s w, P (self w) → P (self (set_currency s w))) →
  (∀ ty a c d ds w, P (self w) → P (self (fst (add_transaction ty a c d ds w)))) →
  (∀ n ty w, P (self w) → P (self (fst (add_category n ty w)))) →
  (∀ c a w, P (self w) → P (self (fst (set_budget c a w)))) →
  ∀ w, reachable w → P (self w) ∧ file_holds P (disk w).
Proof.
  intros H0 Hcur Htr Hcat Hbud.
  induction 1 as [b|b|w b Hw IH|w f b Hw IH Hf|w Hw IH|w Hw IH|s w Hw IH
                  |ty a c d ds w Hw IH|n ty w Hw IH|c a w Hw IH].
  - by apply (load_data_holds P).
  - by apply (load_data_holds P).
  - destruct IH as [_ Hd]. by apply (load_data_holds P).
  - destruct IH as [Hl Hd]. split; [done|]. simpl.
    by destruct Hf as [->|[->| ->]].
  - destruct IH. by apply load_data_holds.
  - destruct IH as [Hl Hd]. rewrite self_save_data. split; [done|].
    apply (file_holds_step P w); [by rewrite self_save_data|done|apply save_data_disk].
  - destruct IH as [Hl Hd]. split; [by apply Hcur|].
    apply (file_holds_step P w); [by apply Hcur|done|apply set_currency_disk].
  - destruct IH as [Hl Hd]. split; [by apply Htr|].
    apply (file_holds_step P w); [by apply Htr|done|apply add_transaction_disk].
  - destruct IH as [Hl Hd]. split; [by apply Hcat|].
    apply (file_holds_step P w); [by apply Hcat|done|apply add_category_disk].
  - destruct IH as [Hl Hd]. split; [by apply Hbud|].
    apply (file_holds_step P w); [by apply Hbud|done|apply set_budget_disk].
Qed.

(** What [add_transaction] does to the ledger, and that the other three
    leave it alone. *)
Lemma add_transaction_ledger ty a c d ds w :
  let w' := fst (add_transaction ty a c d ds w) in
  transactions (self w') = transactions (self w)
  ∨ ∃ parsed dt,
      PyFloat.of_string a = Some parsed ∧ PyDate.strptime ds = Some dt
      ∧ transactions (self w') =
          sort_by_date_desc
            (transactions (self w) ++
             [new_transaction w ty (PyFloat.abs parsed) c d (PyDate.strftime_Ymd dt)]).
Proof.
  cbv zeta.
  destruct (PyFloat.of_string a) as [parsed|] eqn:Ha;
    [|left; unfold add_transaction; by rewrite Ha].
  destruct (PyDate.strptime ds) as [dt|] eqn:Hd;
    [|left; unfold add_transaction; by rewrite Ha, Hd].
  right. exists parsed, dt. split; [done|]. split; [done|].
  by apply transactions_added.
Qed.

Lemma set_currency_ledger s w : transactions (self (set_currency s w)) = transactions (self w).
Proof. unfold set_currency. by rewrite self_save_data. Qed.

Lemma add_category_ledger n ty w :
  transactions (self (fst (add_category n ty w))) = transactions (self w).
Proof.
  unfold add_category.
  destruct (negb (String.eqb (normalize n) "")); [|done].
  destruct (categories (self w) !! ty) as [existing|]; [|done].
  destruct (negb (string_in (normalize n) existing)); [|done].
  simpl. by rewrite self_save_data.
Qed.

Lemma set_budget_ledger c a w :
  transactions (self (fst (set_budget c a w))) = transactions (self w).
Proof.
  unfold set_budget.
  destruct (PyFloat.of_string a) as [x|]; [|done].
  destruct (PyFloat.ltb x PyFloat.zero); [done|].
  simpl. by rewrite self_save_data.
Qed.

(** The same for a property of the ledger alone: it holds of the empty
    ledger and is kept when an entry with a non-negative amount and a
    real date is appended and the list sorted. *)
Lemma reachable_ledger_invariant (Q : list Transaction → Prop) :
  Q [] →
  (∀ w ty x c d dt,
     Q (transactions (self w)) →
     PyDate.valid (PyDate.year dt) (PyDate.month dt) (PyDate.day dt) = true →
     Q (sort_by_date_desc
          (transactions (self w) ++
           [new_transaction w ty (PyFloat.abs x) c d (PyDate.strftime_Ymd dt)]))) →
  ∀ w, reachable w → Q (transactions (self w)).
Proof.
  intros H0 Hadd w Hw.
  apply (reachable_invariant (λ l, Q (transactions l))); try done.
  - intros s w0. by rewrite set_currency_ledger.
  - intros ty a c d ds w0 HQ.
    destruct (add_transaction_ledger ty a c d ds w0)
      as [->|(x & dt & _ & Hd & ->)]; [done|].
    apply Hadd; [done|]. by apply strptime_accepts in Hd as [Hv _].
  - intros n ty w0. by rewrite add_category_ledger.
  - intros c a w0. by rewrite set_budget_ledger.
Qed.

End Reachable.

(** X3.  In every state the program reaches the ids of the stored entries
    are the numbers from 1 to the number of entries, each once: the id
    that the next entry gets is in use by none. *)
Theorem reachable_ids_are_one_to_n w :
  reachable w →
  let ledger := transactions (self w) in
  t_id <$> ledger ≡ₚ seqZ 1 (Z.of_nat (length ledger))
  ∧ NoDup (t_id <$> ledger)
  ∧ Z.of_nat (length ledger) + 1 ∉ t_id <$> ledger.
Proof.
  intros Hw. cbv zeta.
  assert (Hids : t_id <$> transactions (self w)
                 ≡ₚ seqZ 1 (Z.of_nat (length (transactions (self w))))).
  { revert w Hw.
    apply (reachable_ledger_invariant (λ l, t_id <$> l ≡ₚ seqZ 1 (Z.of_nat (length l))));
      [done|].
    intros w ty x c d dt HQ _.
    rewrite sort_by_date_desc_perm at 1.
    rewrite (Permutation_length (sort_by_date_desc_perm _)).
    rewrite fmap_app, length_app, HQ. simpl.
    rewrite Nat2Z.inj_add, seqZ_app by lia. simpl.
    by replace (1 + Z.of_nat (length (transactions (self w))))
      with (Z.of_nat (length (transactions (self w))) + 1) by lia. }
  split; [done|]. rewrite Hids. split; [apply NoDup_seqZ|].
  rewrite elem_of_seqZ. lia.
Qed.

(** ** Amounts and totals carry no minus sign *)

Section Signs.

Lemma binary_round_aux_signbit mx ex lx :
  PyFloat.signbit (binary_round_aux PyFloat.prec PyFloat.emax false mx ex lx) = false.
Proof.
  unfold binary_round_aux.
  destruct (shr_fexp _ _ mx ex lx) as [mrs' e'].
  destruct (shr_fexp _ _ _ e' loc_Exact) as [mrs'' e''].
  destruct (shr_m mrs''); [done| |done].
  by destruct (_ <=? _).
Qed.

Lemma add_signbit a b :
  PyFloat.signbit a = false → PyFloat.signbit b = false →
  PyFloat.signbit (PyFloat.add a b) = false.
Proof.
  destruct a as [sa|sa| |sa ma ea], b as [sb|sb| |sb mb eb]; simpl;
    intros Ha Hb; subst; try done.
  unfold PyFloat.add, SFadd. cbn [cond_Zopp]. rewrite <- Pos2Z.inj_add.
  unfold binary_normalize, binary_round.
  destruct (shl_align _ _ _). apply binary_round_aux_signbit.
Qed.

Lemma running_total_signbit xs acc :
  PyFloat.signbit acc = false →
  Forall (λ x, PyFloat.signbit x = false) xs →
  PyFloat.signbit (fold_left PyFloat.add xs acc) = false.
Proof.
  intros Hacc Hxs. revert acc Hacc.
  induction Hxs as [|x r Hx _ IH]; intros acc Hacc; [done|].
  simpl. apply IH. by apply add_signbit.
Qed.

Lemma fold_spend_signbit l d :
  Forall (λ t, PyFloat.signbit (t_amount t) = false) l →
  (∀ c v, d !! c = Some v → PyFloat.signbit v = false) →
  ∀ c v, fold_left spend l d !! c = Some v → PyFloat.signbit v = false.
Proof.
  intros Hl. revert d. induction Hl as [|t r Ht _ IH]; intros d Hd; [done|].
  simpl. apply IH. unfold spend. destruct (has_type "expense" t); [|done].
  intros c v Hc. apply lookup_insert_Some in Hc as [[_ <-]|[_ Hc]]; [|by eapply Hd].
  apply add_signbit; [|done].
  destruct (d !! t_category t) as [v0|] eqn:H0; [by eapply Hd|done].
Qed.

Lemma signbit_not_negative x :
  PyFloat.signbit x = false → PyFloat.ltb x PyFloat.zero = false.
Proof. by destruct x as [[]|[]| |[] m e]. Qed.

Lemma signbit_shown_without_minus x :
  PyFloat.signbit x = false → shown_without_minus x.
Proof.
  unfold shown_without_minus.
  assert (Hfixed : ∀ h, PyStr.startswith (PyFloat.fixed2 false h) "-" = false).
  { intros h. unfold PyFloat.fixed2. rewrite append_nil_l.
    destruct (of_nonneg_digits (h / 100)) as (c & r & -> & Hc & _).
    rewrite append_cons. apply not_true_is_false. intros Hminus.
    apply startswith_cons in Hminus as [<- _]. discriminate Hc. }
  destruct x as [[]|[]| |[] m e]; simpl; try done; intros _; apply Hfixed.
Qed.

Lemma Forall_filter_list {A} (P : A → Prop) (f : A → bool) l :
  Forall P l → Forall P (List.filter f l).
Proof.
  induction 1 as [|x r Hx _ IH]; simpl; [done|].
  destruct (f x); [by constructor|done].
Qed.

Lemma reachable_amounts w :
  reachable w → Forall (λ t, PyFloat.signbit (t_amount t) = false) (transactions (self w)).
Proof.
  revert w. apply reachable_ledger_invariant; [done|].
  intros w ty x c d dt HQ _. rewrite sort_by_date_desc_perm.
  apply Forall_app. split; [done|]. repeat constructor. apply signbit_abs.
Qed.

End Signs.

(** X4.  In every state the program reaches no stored amount has a minus
    sign, and so in the monthly report the total income, the total
    expense and every amount of the spending by category are not below
    zero and are printed without a minus sign (an expense is told from an
    income by its type alone). *)
Theorem reachable_totals_have_no_minus_sign w now :
  reachable w →
  let report := get_monthly_report_data now w in
  let fine x := PyFloat.ltb x PyFloat.zero = false ∧ shown_without_minus x in
  Forall (λ t, fine (t_amount t)) (transactions (self w))
  ∧ fine (total_income report)
  ∧ fine (total_expense report)
  ∧ ∀ c v, spending_by_category report !! c = Some v → fine v.
Proof.
  intros Hw. cbv zeta. pose proof (reachable_amounts w Hw) as Hall.
  assert (Hfine : ∀ x, PyFloat.signbit x = false →
            PyFloat.ltb x PyFloat.zero = false ∧ shown_without_minus x).
  { intros x Hx. split; [by apply signbit_not_negative|by apply signbit_shown_without_minus]. }
  assert (Hsum : ∀ f, PyFloat.signbit (PyFloat.sum (List.map t_amount
            (List.filter f (List.filter (in_month now) (transactions (self w)))))) = false).
  { intros f. apply running_total_signbit; [done|].
    apply Forall_map. by do 2 apply Forall_filter_list. }
  split; [|split; [|split]].
  - eapply Forall_impl; [exact Hall|]. intros t Ht. by apply Hfine.
  - apply Hfine, Hsum.
  - apply Hfine, Hsum.
  - intros c v Hc. apply Hfine. revert c v Hc. apply fold_spend_signbit.
    + by apply Forall_filter_list.
    + intros c v Hc. by rewrite lookup_empty in Hc.
Qed.

(** ** Stored dates and the calendar *)

Section Calendar.
Import PyChar PyDate.

Lemma compare_digit_char j k :
  0 <= j <= 9 → 0 <= k <= 9 →
  Ascii.compare (digit_char j) (digit_char k) = (j ?= k).
Proof.
  intros Hj Hk.
  assert (Hall : Forall (λ a, Forall (λ b,
            Ascii.compare (digit_char a) (digit_char b) = (a ?= b)) (seqZ 0 10))
            (seqZ 0 10)).
  { eapply (bool_decide_unpack _). by vm_compute. }
  rewrite Forall_forall in Hall.
  assert (Hj' : j ∈ seqZ 0 10) by (apply elem_of_seqZ; lia).
  specialize (Hall j Hj'). rewrite Forall_forall in Hall.
  apply Hall, elem_of_seqZ. lia.
Qed.

Lemma compare_digit_cons j k s t :
  0 <= j <= 9 → 0 <= k <= 9 →
  String.compare (String (digit_char j) s) (String (digit_char k) t) =
    match j ?= k with Eq => String.compare s t | Lt => Lt | Gt => Gt end.
Proof.
  intros Hj Hk. change (String.compare (String (digit_char j) s) (String (digit_char k) t))
    with (match Ascii.compare (digit_char j) (digit_char k) with
          | Eq => String.compare s t | Lt => Lt | Gt => Gt end).
  by rewrite compare_digit_char.
Qed.

Lemma compare_same_cons c s t :
  String.compare (String c s) (String c t) = String.compare s t.
Proof.
  change (String.compare (String c s) (String c t))
    with (match Ascii.compare c c with
          | Eq => String.compare s t | Lt => Lt | Gt => Gt end).
  unfold Ascii.compare. by rewrite N.compare_refl.
Qed.

Ltac compare_digits :=
  rewrite compare_digit_cons by (Z.div_mod_to_equations; lia);
  match goal with
  | |- context [match ?a ?= ?b with _ => _ end] => destruct (Z.compare_spec a b)
  end.

(** Dates of the year 1000 or later, as [strftime] writes them, compare
    as strings the way their day numbers compare. *)
Lemma strftime_Ymd_compare d1 d2 :
  valid (year d1) (month d1) (day d1) = true →
  valid (year d2) (month d2) (day d2) = true →
  1000 <= year d1 → 1000 <= year d2 →
  String.compare (strftime_Ymd d1) (strftime_Ymd d2) = (day_number d1 ?= day_number d2).
Proof.
  intros H1 H2 Hk1 Hk2.
  destruct (valid_bounds _ _ _ H1) as (Hy1 & Hm1 & Hd1).
  destruct (valid_bounds _ _ _ H2) as (Hy2 & Hm2 & Hd2).
  rewrite !strftime_Ymd_padded by lia. unfold day_number.
  rewrite !zero_padded_two by lia.
  pose proof (four_digits_value (year d1) ltac:(lia)) as E1.
  pose proof (four_digits_value (year d2) ltac:(lia)) as E2.
  pose proof (Z.div_mod (month d1) 10 ltac:(lia)) as M1.
  pose proof (Z.div_mod (month d2) 10 ltac:(lia)) as M2.
  pose proof (Z.div_mod (day d1) 10 ltac:(lia)) as D1.
  pose proof (Z.div_mod (day d2) 10 ltac:(lia)) as D2.
  unfold four_digits, two_digits. rewrite !append_cons, !append_nil_l.
  symmetry.
  compare_digits; [|apply Z.compare_lt_iff; Z.div_mod_to_equations; lia
                   |apply Z.compare_gt_iff; Z.div_mod_to_equations; lia].
  compare_digits; [|apply Z.compare_lt_iff; Z.div_mod_to_equations; lia
                   |apply Z.compare_gt_iff; Z.div_mod_to_equations; lia].
  compare_digits; [|apply Z.compare_lt_iff; Z.div_mod_to_equations; lia
                   |apply Z.compare_gt_iff; Z.div_mod_to_equations; lia].
  compare_digits; [|apply Z.compare_lt_iff; Z.div_mod_to_equations; lia
                   |apply Z.compare_gt_iff; Z.div_mod_to_equations; lia].
  rewrite compare_same_cons.
  compare_digits; [|apply Z.compare_lt_iff; Z.div_mod_to_equations; lia
                   |apply Z.compare_gt_iff; Z.div_mod_to_equations; lia].
  compare_digits; [|apply Z.compare_lt_iff; Z.div_mod_to_equations; lia
                   |apply Z.compare_gt_iff; Z.div_mod_to_equations; lia].
  rewrite compare_same_cons.
  compare_digits; [|apply Z.compare_lt_iff; Z.div_mod_to_equations; lia
                   |apply Z.compare_gt_iff; Z.div_mod_to_equations; lia].
  compare_digits; [|apply Z.compare_lt_iff; Z.div_mod_to_equations; lia
                   |apply Z.compare_gt_iff; Z.div_mod_to_equations; lia].
  simpl. apply Z.compare_eq_iff. Z.div_mod_to_equations. lia.
Qed.

End Calendar.

Lemma reachable_dates w :
  reachable w → Forall (λ t, canonical_date (t_date t)) (transactions (self w)).
Proof.
  revert w. apply reachable_ledger_invariant; [done|].
  intros w ty x c d dt HQ Hv. rewrite sort_by_date_desc_perm.
  apply Forall_app. split; [done|]. repeat constructor. by exists dt.
Qed.

(** X5.  In every state the program reaches, each stored date is what
    [strftime] wrote for a real calendar date, and the ledger is ordered
    by these date strings, greatest first.  For two stored entries dated
    in the year 1000 or later this is the order of the calendar: the one
    that stands first is not dated earlier than the other.  A date of a
    year below 1000 is stored without leading zeros and stands where its
    string sorts, which is not its place in the calendar (see
    [ledger_order_below_year_1000]). *)
Theorem reachable_ledger_in_calendar_order w l1 a l2 b l3 :
  reachable w →
  transactions (self w) = l1 ++ a :: l2 ++ b :: l3 →
  (∃ da db,
     PyDate.valid (PyDate.year da) (PyDate.month da) (PyDate.day da) = true
     ∧ PyDate.valid (PyDate.year db) (PyDate.month db) (PyDate.day db) = true
     ∧ t_date a = PyDate.strftime_Ymd da
     ∧ t_date b = PyDate.strftime_Ymd db)
  ∧ String.le (t_date b) (t_date a)
  ∧ ∀ da db,
      PyDate.valid (PyDate.year da) (PyDate.month da) (PyDate.day da) = true →
      PyDate.valid (PyDate.year db) (PyDate.month db) (PyDate.day db) = true →
      t_date a = PyDate.strftime_Ymd da →
      t_date b = PyDate.strftime_Ymd db →
      1000 <= PyDate.year da → 1000 <= PyDate.year db →
      calendar_le db da.
Proof.
  intros Hw Hl.
  pose proof (reachable_dates w Hw) as Hdates.
  pose proof (reachable_sorted w Hw) as Hsorted.
  rewrite Hl in Hdates, Hsorted.
  apply Forall_app in Hdates as [_ Hdates].
  apply Forall_cons in Hdates as [(da & Hva & Ea) Hdates].
  apply Forall_app in Hdates as [_ Hdates].
  apply Forall_cons in Hdates as [(db & Hvb & Eb) _].
  apply StronglySorted_app_1_r in Hsorted.
  apply StronglySorted_inv in Hsorted as [_ Hafter].
  apply Forall_app in Hafter as [_ Hafter].
  apply Forall_cons in Hafter as [Hab _].
  split; [by exists da, db|]. split; [exact Hab|].
  clear da db Hva Hvb Ea Eb. intros da db Hva Hvb Ea Eb Hka Hkb.
  unfold date_desc, String.le, String.leb in Hab.
  rewrite Eb, Ea, (strftime_Ymd_compare db da Hvb Hva Hkb Hka) in Hab.
  destruct (valid_bounds _ _ _ Hva) as (? & ? & ?).
  destruct (valid_bounds _ _ _ Hvb) as (? & ? & ?).
  unfold calendar_le. unfold day_number in Hab.
  destruct (Z.compare_spec ((PyDate.year db * 100 + PyDate.month db) * 100 + PyDate.day db)
              ((PyDate.year da * 100 + PyDate.month da) * 100 + PyDate.day da));
    [lia|lia|done].
Qed.

(** X6.  In every state the program reaches, each stored entry carries
    the date string that [strftime] wrote for a real calendar date (with
    the year unpadded when it is below 1000), and the test by which the
    monthly report picks its entries (the stored date string starts with
    what [strftime] writes for the year and month of [now]) holds of the
    entry exactly when that date is in the year and month of [now]. *)
Theorem reachable_month_test_is_calendar_month w t :
  reachable w →
  t ∈ transactions (self w) →
  (∃ dt, PyDate.valid (PyDate.year dt) (PyDate.month dt) (PyDate.day dt) = true
         ∧ t_date t = PyDate.strftime_Ymd dt)
  ∧ ∀ dt now,
      PyDate.valid (PyDate.year dt) (PyDate.month dt) (PyDate.day dt) = true →
      t_date t = PyDate.strftime_Ymd dt →
      0 <= PyDate.year now <= 9999 → 1 <= PyDate.month now <= 12 →
      (PyStr.startswith (t_date t) (PyDate.strftime_Ym now) = true
       ↔ PyDate.year dt = PyDate.year now ∧ PyDate.month dt = PyDate.month now).
Proof.
  intros Hw Ht.
  pose proof (reachable_dates w Hw) as Hdates.
  rewrite Forall_forall in Hdates.
  split; [exact (Hdates t Ht)|].
  intros dt now Hv Heq Hy Hm.
  by apply (in_month_same_year_and_month t dt now).
Qed.

(** ** What each method leaves alone *)

Section Frame.

Lemma add_transaction_rest ty a c d ds w :
  let w' := fst (add_transaction ty a c d ds w) in
  categories (self w') = categories (self w)
  ∧ budgets (self w') = budgets (self w)
  ∧ currency_symbol (self w') = currency_symbol (self w).
Proof.
  cbv zeta. unfold add_transaction.
  destruct (PyFloat.of_string a); [|done].
  destruct (PyDate.strptime ds); [|done].
  simpl. by rewrite self_save_data.
Qed.

Lemma add_category_rest n ty w :
  let w' := fst (add_category n ty w) in
  transactions (self w') = transactions (self w)
  ∧ budgets (self w') = budgets (self w)
  ∧ currency_symbol (self w') = currency_symbol (self w)
  ∧ ∀ other, other ≠ ty → categories (self w') !! other = categories (self w) !! other.
Proof.
  cbv zeta. unfold add_category.
  destruct (negb (String.eqb (normalize n) "")); [|done].
  destruct (categories (self w) !! ty) as [existing|]; [|done].
  destruct (negb (string_in (normalize n) existing)); [|done].
  simpl. rewrite self_save_data. simpl. do 3 (split; [done|]).
  intros other Hne. by rewrite lookup_insert_ne.
Qed.

Lemma set_budget_rest c a w :
  let w' := fst (set_budget c a w) in
  transactions (self w') = transactions (self w)
  ∧ categories (self w') = categories (self w)
  ∧ currency_symbol (self w') = currency_symbol (self w).
Proof.
  cbv zeta. unfold set_budget.
  destruct (PyFloat.of_string a) as [x|]; [|done].
  destruct (PyFloat.ltb x PyFloat.zero); [done|].
  simpl. by rewrite self_save_data.
Qed.

Lemma set_currency_rest s w :
  let w' := set_currency s w in
  transactions (self w') = transactions (self w)
  ∧ categories (self w') = categories (self w)
  ∧ budgets (self w') = budgets (self w)
  ∧ currency_symbol (self w') = s.
Proof. cbv zeta. unfold set_currency. by rewrite self_save_data. Qed.

End Frame.

(** X7.  Each mutating method changes one attribute and no other:
    [set_currency] the symbol (amounts are not converted),
    [add_transaction] the ledger, [add_category] the list of the given
    type, [set_budget] the budgets. *)
Theorem methods_change_one_attribute w :
  (∀ s, let w' := set_currency s w in
     transactions (self w') = transactions (self w)
     ∧ categories (self w') = categories (self w)
     ∧ budgets (self w') = budgets (self w)
     ∧ get_currency_symbol w' = s)
  ∧ (∀ ty a c d ds, let w' := fst (add_transaction ty a c d ds w) in
     categories (self w') = categories (self w)
     ∧ budgets (self w') = budgets (self w)
     ∧ currency_symbol (self w') = currency_symbol (self w))
  ∧ (∀ n ty, let w' := fst (add_category n ty w) in
     transactions (self w') = transactions (self w)
     ∧ budgets (self w') = budgets (self w)
     ∧ currency_symbol (self w') = currency_symbol (self w)
     ∧ ∀ other, other ≠ ty → get_categories other w' = get_categories other w)
  ∧ (∀ c a, let w' := fst (set_budget c a w) in
     transactions (self w') = transactions (self w)
     ∧ categories (self w') = categories (self w)
     ∧ currency_symbol (self w') = currency_symbol (self w)).
Proof.
  split; [|split; [|split]].
  - intros s. apply set_currency_rest.
  - intros ty a c d ds. apply add_transaction_rest.
  - intros n ty. cbv zeta.
    destruct (add_category_rest n ty w) as (Ht & Hb & Hs & Hc).
    do 3 (split; [done|]). intros other Hne. unfold get_categories.
    by rewrite Hc.
  - intros c a. apply set_budget_rest.
Qed.

(** ** The categories *)

Section Categories.

Lemma default_categories_lists ty d :
  default_categories !! ty = Some d →
  (ty = "expense" ∧ d = ["Groceries"; "Rent"; "Transport"; "Dining"; "Utilities"; "Other"])
  ∨ (ty = "income" ∧ d = ["Salary"; "Bonus"; "Gifts"; "Other"]).
Proof.
  unfold default_categories. simpl. intros H.
  apply lookup_insert_Some in H as [[<- <-]|[_ H]]; [by left|].
  apply lookup_insert_Some in H as [[<- <-]|[_ H]]; [by right|done].
Qed.

Lemma default_categories_NoDup ty d : default_categories !! ty = Some d → NoDup d.
Proof.
  intros H. apply default_categories_lists in H as [[_ ->]|[_ ->]];
    by apply (bool_decide_unpack _).
Qed.

Lemma defaults_kept_initial : defaults_kept initial_attributes.
Proof.
  intros ty d Hd. exists []. rewrite app_nil_r. split; [done|].
  by eapply default_categories_NoDup.
Qed.

Lemma defaults_kept_categories l l' :
  categories l' = categories l → defaults_kept l → defaults_kept l'.
Proof. intros Heq H ty d Hd. rewrite Heq. by apply H. Qed.

Lemma defaults_kept_add_category n ty w :
  defaults_kept (self w) → defaults_kept (self (fst (add_category n ty w))).
Proof.
  intros Hk. unfold add_category.
  destruct (negb (String.eqb (normalize n) "")); [|done].
  destruct (categories (self w) !! ty) as [existing|] eqn:Hty; [|done].
  destruct (negb (string_in (normalize n) existing)) eqn:Hnew; [|done].
  simpl. rewrite self_save_data. unfold defaults_kept. simpl.
  intros ty' d Hd. destruct (Hk ty' d Hd) as (added & Hl & Hnd).
  destruct (decide (ty' = ty)) as [->|Hne].
  - rewrite lookup_insert_eq. rewrite Hty in Hl. injection Hl as ->.
    exists (added ++ [normalize n]). rewrite app_assoc. split; [done|].
    apply NoDup_app. split; [done|]. split; [|apply NoDup_singleton].
    intros x Hx Hin. apply list_elem_of_singleton in Hin as ->.
    apply negb_true_iff in Hnew.
    apply string_in_spec in Hx. by rewrite Hx in Hnew.
  - rewrite lookup_insert_ne by done. eauto.
Qed.

Lemma reachable_defaults_kept w : reachable w → defaults_kept (self w).
Proof.
  intros Hw. apply (reachable_invariant defaults_kept); try done.
  - apply defaults_kept_initial.
  - intros s w0. apply defaults_kept_categories. apply set_currency_rest.
  - intros ty a c d ds w0. apply defaults_kept_categories.
    apply add_transaction_rest.
  - intros n ty w0. apply defaults_kept_add_category.
  - intros c a w0. apply defaults_kept_categories. apply set_budget_rest.
Qed.

End Categories.

(** X8.  In every state the program reaches each of the two lists begins
    with its default categories, in their order, and has no name twice:
    no method removes, renames or reorders a category. *)
Theorem reachable_categories_keep_defaults w :
  reachable w →
  (∃ added, get_categories "expense" w =
      ["Groceries"; "Rent"; "Transport"; "Dining"; "Utilities"; "Other"] ++ added)
  ∧ (∃ added, get_categories "income" w = ["Salary"; "Bonus"; "Gifts"; "Other"] ++ added)
  ∧ ∀ ty, NoDup (get_categories ty w).
Proof.
  intros Hw. pose proof (reachable_defaults_kept w Hw) as Hk.
  unfold get_categories. split; [|split].
  - destruct (Hk "expense" _ eq_refl) as (added & -> & _). by exists added.
  - destruct (Hk "income" _ eq_refl) as (added & -> & _). by exists added.
  - intros ty. destruct (categories (self w) !! ty) as [l|] eqn:Hl; [|apply NoDup_nil_2].
    simpl. destruct (default_categories !! ty) as [d|] eqn:Hd.
    + destruct (Hk ty d Hd) as (added & Hl' & Hnd). rewrite Hl in Hl'.
      by injection Hl' as ->.
    + assert (ty ≠ "expense") by (intros ->; done).
      assert (ty ≠ "income") by (intros ->; done).
      by rewrite (reachable_unknown_type w ty Hw) in Hl.
Qed.

(** X9.  [add_category] refuses a name the second time: once a call for a
    type that has a list has returned, with success or not, a call with
    the same name or with any spelling that is the same after trimming
    and title-casing changes nothing and returns a failure. *)
Theorem add_category_second_time_refused n n' ty w existing :
  categories (self w) !! ty = Some existing →
  normalize n' = normalize n →
  let w1 := fst (add_category n ty w) in
  fst (add_category n' ty w1) = w1
  ∧ ∃ message, snd (add_category n' ty w1) = Return (false, message).
Proof.
  intros Hty Hn. cbv zeta.
  assert (Hin : normalize n ≠ "" →
            ∃ l, categories (self (fst (add_category n ty w))) !! ty = Some l
                 ∧ string_in (normalize n) l = true).
  { intros Hne. apply String.eqb_neq in Hne.
    unfold add_category. rewrite Hne, Hty. cbn [negb].
    destruct (string_in (normalize n) existing) eqn:Hold; cbn [negb fst]; [eauto|].
    rewrite self_save_data. simpl. rewrite lookup_insert_eq.
    eexists. split; [done|]. apply string_in_spec, elem_of_app. right.
    by apply list_elem_of_singleton. }
  set (w1 := fst (add_category n ty w)) in *.
  unfold add_category. rewrite Hn.
  destruct (String.eqb_spec (normalize n) "") as [Hempty|Hempty]; simpl;
    [split; [done|by eexists]|].
  destruct (Hin Hempty) as (l & -> & ->). simpl. split; [done|by eexists].
Qed.

(** ** The file behind the methods *)

Section File.

Lemma save_data_writable w :
  writable w = true → disk (save_data w) = Json (dump (self w)).
Proof. intros Hw. unfold save_data. by rewrite Hw. Qed.

Lemma save_data_read_only w : writable w = false → save_data w = w.
Proof. intros Hw. unfold save_data. by rewrite Hw. Qed.

Lemma init_dumped l can_write : self (init (Json (dump l)) can_write) = l.
Proof. unfold init. by rewrite (load_data_dumped _ l). Qed.

Lemma saved_survives w can_write :
  writable w = true → self (init (disk (save_data w)) can_write) = self (save_data w).
Proof.
  intros Hw. by rewrite save_data_writable, init_dumped, self_save_data.
Qed.

End File.

(** X10.  When the file can be written, every change that a mutating
    method reports as made is in the file when the method returns: a
    program started on that file has the attributes of the object that
    made the change. *)
Theorem successful_change_survives_restart w :
  writable w = true →
  (∀ s can_write,
     self (init (disk (set_currency s w)) can_write) = self (set_currency s w))
  ∧ (∀ ty a c d ds can_write,
       let result := add_transaction ty a c d ds w in
       fst (snd result) = true →
       self (init (disk (fst result)) can_write) = self (fst result))
  ∧ (∀ n ty message can_write,
       let result := add_category n ty w in
       snd result = Return (true, message) →
       self (init (disk (fst result)) can_write) = self (fst result))
  ∧ (∀ c a can_write,
       let result := set_budget c a w in
       fst (snd result) = true →
       self (init (disk (fst result)) can_write) = self (fst result)).
Proof.
  intros Hw. split; [|split; [|split]].
  - intros s b. unfold set_currency. by apply saved_survives.
  - intros ty a c d ds b. cbv zeta. unfold add_transaction.
    destruct (PyFloat.of_string a); [|done].
    destruct (PyDate.strptime ds); [|done].
    intros _. cbn [fst]. by apply saved_survives.
  - intros n ty message b. cbv zeta. unfold add_category.
    destruct (negb (String.eqb (normalize n) "")); [|done].
    destruct (categories (self w) !! ty) as [existing|]; [|done].
    destruct (negb (string_in (normalize n) existing)); [|done].
    intros _. cbn [fst]. by apply saved_survives.
  - intros c a b. cbv zeta. unfold set_budget.
    destruct (PyFloat.of_string a) as [x|]; [|done].
    destruct (PyFloat.ltb x PyFloat.zero); [done|].
    intros _. cbn [fst]. by apply saved_survives.
Qed.

(** X11.  A save that cannot open its file is not reported: when
    [open(DATA_FILE, 'w')] raises [IOError], each mutating method returns
    what it returns when the file can be written and changes the object
    in the same way, and the file stays as it was (so the change is lost
    when the program ends).  This is the failure of [open]; a write that
    fails after [open] has emptied the file leaves a truncated file and
    is outside the embedding. *)
Theorem write_failure_is_silent w :
  writable w = false →
  let ok := {| self := self w; disk := disk w; writable := true |} in
  (∀ s, self (set_currency s w) = self (set_currency s ok)
        ∧ disk (set_currency s w) = disk w)
  ∧ (∀ ty a c d ds,
       snd (add_transaction ty a c d ds w) = snd (add_transaction ty a c d ds ok)
       ∧ self (fst (add_transaction ty a c d ds w)) =
           self (fst (add_transaction ty a c d ds ok))
       ∧ disk (fst (add_transaction ty a c d ds w)) = disk w)
  ∧ (∀ n ty,
       snd (add_category n ty w) = snd (add_category n ty ok)
       ∧ self (fst (add_category n ty w)) = self (fst (add_category n ty ok))
       ∧ disk (fst (add_category n ty w)) = disk w)
  ∧ (∀ c a,
       snd (set_budget c a w) = snd (set_budget c a ok)
       ∧ self (fst (set_budget c a w)) = self (fst (set_budget c a ok))
       ∧ disk (fst (set_budget c a w)) = disk w).
Proof.
  intros Hw. cbv zeta. split; [|split; [|split]].
  - intros s. unfold set_currency.
    rewrite !self_save_data, save_data_read_only by done. done.
  - intros ty a c d ds. unfold add_transaction.
    destruct (PyFloat.of_string a); [|done].
    destruct (PyDate.strptime ds); [|done].
    cbn [fst snd]. rewrite !self_save_data, save_data_read_only by done. done.
  - intros n ty. unfold add_category.
    destruct (negb (String.eqb (normalize n) "")); [|done].
    cbn [self]. destruct (categories (self w) !! ty) as [existing|]; [|done].
    destruct (negb (string_in (normalize n) existing)); [|done].
    cbn [fst snd]. rewrite !self_save_data, save_data_read_only by done. done.
  - intros c a. unfold set_budget.
    destruct (PyFloat.of_string a) as [x|]; [|done].
    destruct (PyFloat.ltb x PyFloat.zero); [done|].
    cbn [fst snd]. unfold format_currency.
    rewrite !self_save_data, save_data_read_only by done. done.
Qed.

(** ** The window *)

Section Window.

Lemma submit_transaction_world ty a c d ds w :
  fst (submit_transaction ty a c d ds w) =
    fst (add_transaction (PyStr.lower ty) a c d ds w).
Proof.
  unfold submit_transaction.
  by destruct (add_transaction _ a c d ds w) as [w' [success message]].
Qed.

Lemma add_new_category_world n ty w :
  fst (add_new_category n ty w) = fst (add_category n ty w).
Proof.
  unfold add_new_category.
  by destruct (add_category n ty w) as [w' [[success message]|e]].
Qed.

Lemma update_currency_world name w :
  fst (update_currency name w) = w
  ∨ ∃ symbol, fst (update_currency name w) = set_currency symbol w.
Proof.
  unfold update_currency. destruct (getitem _ name) as [symbol|]; [|by left].
  right. by exists symbol.
Qed.

End Window.

(** X12.  The window never sets a budget: [set_new_budget], the only
    caller of [set_budget], stops at its first statement with a
    [NameError], so whatever is clicked and typed, the budgets stay what
    the program read from the file when it started (none, when it
    started without a readable file). *)
Theorem window_never_sets_a_budget file can_write w :
  window_run (init file can_write) w →
  get_budgets w = get_budgets (init file can_write)
  ∧ (file = Missing ∨ file = Corrupted → get_budgets w = ∅).
Proof.
  intros Hrun.
  assert (Hsame : get_budgets w = get_budgets (init file can_write)).
  { unfold get_budgets.
    induction Hrun as [|ty a c d ds w Hw IH|n ty w Hw IH|a w Hw IH|name w Hw IH
                       |w f b Hw IH]; [done| | |done| |done].
    - rewrite submit_transaction_world.
      by destruct (add_transaction_rest (PyStr.lower ty) a c d ds w) as (_ & -> & _).
    - rewrite add_new_category_world.
      by destruct (add_category_rest n ty w) as (_ & -> & _).
    - destruct (update_currency_world name w) as [->|[symbol ->]]; [done|].
      by destruct (set_currency_rest symbol w) as (_ & _ & -> & _). }
  split; [done|]. rewrite Hsame. unfold get_budgets, init, load_data.
  intros [->| ->]; simpl; by rewrite self_save_data.
Qed.

Section Currency.

Lemma getitem_in (d : list (string * string)) name symbol :
  NoDup (List.map fst d) → (name, symbol) ∈ d → getitem d name = Some symbol.
Proof.
  induction d as [|[k v] r IH]; simpl; intros Hnd Hin; [by apply elem_of_nil in Hin|].
  apply NoDup_cons in Hnd as [Hk Hnd].
  apply elem_of_cons in Hin as [[= <- <-]|Hin]; [by rewrite String.eqb_refl|].
  destruct (String.eqb_spec k name) as [->|_]; [|by apply IH].
  destruct Hk. apply (list_elem_of_fmap_2 fst r (name, symbol)), Hin.
Qed.

Lemma getitem_not_in (d : list (string * string)) name : name ∉ List.map fst d → getitem d name = None.
Proof.
  induction d as [|[k v] r IH]; [done|]. simpl. intros Hk.
  apply not_elem_of_cons in Hk as [Hk Hr].
  destruct (String.eqb_spec k name) as [->|_]; [done|by apply IH].
Qed.

Lemma filter_symbol_not_in (d : list (string * string)) symbol :
  symbol ∉ List.map snd d →
  List.filter (λ entry : string * string, String.eqb (snd entry) symbol) d = [].
Proof.
  induction d as [|[k v] r IH]; [done|]. simpl. intros Hv.
  apply not_elem_of_cons in Hv as [Hv Hr].
  destruct (String.eqb_spec v symbol) as [->|_]; [done|by apply IH].
Qed.

Lemma filter_symbol_in (d : list (string * string)) name symbol :
  NoDup (List.map snd d) → (name, symbol) ∈ d →
  List.filter (λ entry, String.eqb (snd entry) symbol) d = [(name, symbol)].
Proof.
  induction d as [|[k v] r IH]; simpl; intros Hnd Hin; [by apply elem_of_nil in Hin|].
  apply NoDup_cons in Hnd as [Hv Hnd].
  apply elem_of_cons in Hin as [[= <- <-]|Hin].
  - rewrite String.eqb_refl. by rewrite filter_symbol_not_in.
  - destruct (String.eqb_spec v symbol) as [->|_]; [|by apply IH].
    destruct Hv. apply (list_elem_of_fmap_2 snd r (name, symbol)), Hin.
Qed.

Lemma currencies_names_NoDup : NoDup (List.map fst currencies).
Proof. by apply (bool_decide_unpack _). Qed.

Lemma currencies_symbols_NoDup : NoDup (List.map snd currencies).
Proof. by apply (bool_decide_unpack _). Qed.

End Currency.

(** X13.  Choosing a currency: for each name of the table,
    [update_currency] sets the symbol that the table gives the name, and
    the settings frame then shows that name as the current one (no two
    names share a symbol); a name that is not in the table makes
    [update_currency] raise [KeyError] with the object unchanged; and
    with a symbol that the table does not have (from the file, or set
    through [set_currency]) the settings frame shows the first name,
    "USD ($)". *)
Theorem update_currency_shown_in_settings w :
  (∀ name symbol, (name, symbol) ∈ get_currencies w →
     let w' := fst (update_currency name w) in
     snd (update_currency name w) = Returned
     ∧ get_currency_symbol w' = symbol
     ∧ current_currency_name w' = Some name
     ∧ ∀ amount, format_currency amount w' =
                 String.append symbol (PyFloat.format_2f amount))
  ∧ (∀ name, name ∉ List.map fst (get_currencies w) →
     update_currency name w = (w, Uncaught (KeyError name)))
  ∧ (get_currency_symbol w ∉ List.map snd (get_currencies w) →
     current_currency_name w = Some "USD ($)").
Proof.
  split; [|split].
  - intros name symbol Hin. cbv zeta. unfold update_currency, get_currencies in *.
    rewrite (getitem_in _ name symbol currencies_names_NoDup Hin). cbn [fst snd].
    assert (Hset : get_currency_symbol (set_currency symbol w) = symbol).
    { unfold get_currency_symbol.
      by destruct (set_currency_rest symbol w) as (_ & _ & _ & ->). }
    split; [done|]. split; [done|]. split.
    + unfold current_currency_name, get_currencies. rewrite Hset.
      by rewrite (filter_symbol_in _ name symbol currencies_symbols_NoDup Hin).
    + intros amount. unfold format_currency.
      unfold get_currency_symbol in Hset. by rewrite Hset.
  - intros name Hname. unfold update_currency, get_currencies in *.
    by rewrite getitem_not_in.
  - intros Hsym. unfold current_currency_name, get_currencies in *.
    by rewrite filter_symbol_not_in.
Qed.

Section Chart.

Lemma fold_spend_empty l :
  List.filter (has_type "expense") l = [] → fold_left spend l ∅ = ∅.
Proof.
  intros Hnone. apply map_empty. intros c. rewrite fold_spend_lookup.
  unfold expenses_in.
  assert (Hc : List.filter (λ t, has_type "expense" t && String.eqb (t_category t) c) l = []).
  { rewrite <- filter_filter. by rewrite Hnone. }
  by rewrite Hc, lookup_empty.
Qed.

Lemma fold_spend_not_empty l :
  List.filter (has_type "expense") l ≠ [] → fold_left spend l ∅ ≠ ∅.
Proof.
  intros Hsome Hempty.
  destruct (List.filter (has_type "expense") l) as [|t r] eqn:Hf; [done|].
  assert (Ht : In t (List.filter (has_type "expense") l)) by (rewrite Hf; by left).
  apply List.filter_In in Ht as [Hin Hty].
  pose proof (fold_spend_lookup l ∅ (t_category t)) as Hlook.
  rewrite Hempty, lookup_empty in Hlook. unfold expenses_in in Hlook.
  set (same := List.filter
         (λ x, has_type "expense" x && String.eqb (t_category x) (t_category t)) l) in *.
  assert (Hc : In t same).
  { apply List.filter_In. split; [done|]. by rewrite Hty, String.eqb_refl. }
  by destruct same.
Qed.

End Chart.

(** X14.  The dashboard never plots a spending: [create_pie_chart] enters
    the branch that calls [ax.pie] when the mapping it is given is empty,
    so the chart is drawn, with no wedge at all, in the months without an
    expense, and in a month with an expense nothing is plotted. *)
Theorem dashboard_plots_no_spending now w :
  let this_month := List.filter (month_expense now) (transactions (self w)) in
  (this_month = [] → pie (show_dashboard_frame now w) = Some ([], []))
  ∧ (this_month ≠ [] → pie (show_dashboard_frame now w) = None).
Proof.
  cbv zeta. unfold show_dashboard_frame, create_pie_chart, get_monthly_report_data.
  cbn [pie spending_by_category]. fold (in_month now).
  unfold month_expense. rewrite <- filter_filter.
  split; intros Hm.
  - rewrite (fold_spend_empty _ Hm). by rewrite map_size_empty, map_to_list_empty.
  - apply fold_spend_not_empty in Hm.
    destruct (decide _) as [Hsize|_]; [|done].
    by apply map_size_empty_iff in Hsize.
Qed.

(** X15.  In every state the program reaches the category menu of the
    form has a first entry to show: for "Expense" it preselects
    "Groceries" and for "Income" "Salary", the first default of the
    type, and "No categories found" is shown for neither. *)
Theorem dropdown_preselects_first_default w :
  reachable w →
  snd (update_categories_dropdown "Expense" w) = "Groceries"
  ∧ snd (update_categories_dropdown "Income" w) = "Salary"
  ∧ ∀ choice, choice = "Expense" ∨ choice = "Income" →
      snd (update_categories_dropdown choice w) ∈ fst (update_categories_dropdown choice w).
Proof.
  intros Hw. pose proof (reachable_defaults_kept w Hw) as Hk.
  destruct (Hk "expense" _ eq_refl) as (e & He & _).
  destruct (Hk "income" _ eq_refl) as (i & Hi & _).
  unfold update_categories_dropdown, get_categories.
  change (PyStr.lower "Expense") with "expense".
  change (PyStr.lower "Income") with "income".
  split; [by rewrite He|]. split; [by rewrite Hi|].
  intros choice [->| ->].
  - change (PyStr.lower "Expense") with "expense". rewrite He. simpl.
    apply list_elem_of_here.
  - change (PyStr.lower "Income") with "income". rewrite Hi. simpl.
    apply list_elem_of_here.
Qed.

(** ** The colour helpers *)

Section Colours.
Import PyChar.

Lemma ascii_of_code a : ∃ n, n ∈ seqZ 0 256 ∧ a = of_code n.
Proof.
  exists (code a). split; [|by rewrite of_code_code].
  apply elem_of_seqZ. pose proof (code_bounds a). lia.
Qed.

(** What [int(s, 16)] gives for two characters. *)
Lemma of_string_16_two a b v :
  PyInt.of_string_16 (String a (String b "")) = Some v → -15 <= v <= 255.
Proof.
  destruct (ascii_of_code a) as (i & Hi & ->).
  destruct (ascii_of_code b) as (j & Hj & ->).
  assert (Hall : Forall (λ i, Forall (λ j,
            match PyInt.of_string_16 (String (of_code i) (String (of_code j) "")) with
            | Some v => (-15 <=? v) && (v <=? 255)
            | None => true
            end = true) (seqZ 0 256)) (seqZ 0 256)).
  { eapply (bool_decide_unpack _). by vm_compute. }
  rewrite Forall_forall in Hall. specialize (Hall i Hi).
  rewrite Forall_forall in Hall. specialize (Hall j Hj).
  intros Hv. rewrite Hv in Hall. lia.
Qed.

(** Two upper-case digits are what [format(n, '02X')] gives for a
    channel, and [int(_, 16)] reads them back. *)
Lemma format_02X_channel n :
  0 <= n <= 255 →
  ∃ a b, PyInt.format_02X n = String a (String b "")
         ∧ is_upper_hex a = true ∧ is_upper_hex b = true
         ∧ PyInt.of_string_16 (String a (String b "")) = Some n.
Proof.
  intros Hn.
  assert (Hall : Forall (λ n,
            match PyInt.format_02X n with
            | String a (String b "") =>
                is_upper_hex a && is_upper_hex b
                && bool_decide (PyInt.of_string_16 (String a (String b "")) = Some n)
            | _ => false
            end = true) (seqZ 0 256)).
  { eapply (bool_decide_unpack _). by vm_compute. }
  rewrite Forall_forall in Hall.
  assert (Hin : n ∈ seqZ 0 256) by (apply elem_of_seqZ; lia).
  specialize (Hall n Hin).
  destruct (PyInt.format_02X n) as [|a [|b [|]]]; try done.
  apply andb_true_iff in Hall as [Hall Hint].
  apply andb_true_iff in Hall as [Ha Hb].
  apply bool_decide_eq_true in Hint. by exists a, b.
Qed.

Lemma channel_range v : 0 <= channel v <= 255.
Proof. unfold channel. lia. Qed.

Lemma upper_hex_not_sharp a : is_upper_hex a = true → Ascii.eqb "#" a = false.
Proof. destruct a as [[] [] [] [] [] [] [] []]; by vm_compute. Qed.

Lemma rgb_to_hex_digits r g b :
  ∃ r1 r2 g1 g2 b1 b2,
    _rgb_to_hex [r; g; b] =
      String "#" (String r1 (String r2 (String g1 (String g2 (String b1 (String b2 ""))))))
    ∧ Forall (λ x, is_upper_hex x = true) [r1; r2; g1; g2; b1; b2]
    ∧ PyInt.of_string_16 (String r1 (String r2 "")) = Some (channel r)
    ∧ PyInt.of_string_16 (String g1 (String g2 "")) = Some (channel g)
    ∧ PyInt.of_string_16 (String b1 (String b2 "")) = Some (channel b).
Proof.
  destruct (format_02X_channel (channel r) (channel_range r)) as (r1 & r2 & Er & ? & ? & ?).
  destruct (format_02X_channel (channel g) (channel_range g)) as (g1 & g2 & Eg & ? & ? & ?).
  destruct (format_02X_channel (channel b) (channel_range b)) as (b1 & b2 & Eb & ? & ? & ?).
  exists r1, r2, g1, g2, b1, b2. unfold _rgb_to_hex. simpl. rewrite Er, Eg, Eb.
  split; [done|]. split; [by repeat constructor|done].
Qed.

Lemma clamp_hex_color_read r1 r2 g1 g2 b1 b2 r g b :
  is_upper_hex r1 = true →
  PyInt.of_string_16 (String r1 (String r2 "")) = Some r →
  PyInt.of_string_16 (String g1 (String g2 "")) = Some g →
  PyInt.of_string_16 (String b1 (String b2 "")) = Some b →
  _clamp_hex_color
    (String "#" (String r1 (String r2 (String g1 (String g2 (String b1 (String b2 "")))))))
  = (r, g, b).
Proof.
  intros H1 Hr Hg Hb. unfold _clamp_hex_color.
  cbn [PyStr.lstrip]. change (Ascii.eqb "#" "#") with true. cbn iota.
  rewrite (upper_hex_not_sharp r1 H1). simpl. by rewrite Hr, Hg, Hb.
Qed.

End Colours.

(** X16.  [_rgb_to_hex] and [_clamp_hex_color] fit together: for any three
    integers [_rgb_to_hex] writes a sharp and six upper-case hexadecimal
    digits, and [_clamp_hex_color] reads from them the three integers
    brought into 0..255. *)
Theorem rgb_to_hex_read_back r g b :
  well_formed_colour (_rgb_to_hex [r; g; b])
  ∧ _clamp_hex_color (_rgb_to_hex [r; g; b]) = (channel r, channel g, channel b).
Proof.
  destruct (rgb_to_hex_digits r g b)
    as (r1 & r2 & g1 & g2 & b1 & b2 & -> & Hall & Hr & Hg & Hb).
  split; [by exists r1, r2, g1, g2, b1, b2|].
  apply clamp_hex_color_read; [|done..]. by apply Forall_cons in Hall as [? _].
Qed.

Section Clamp.

Lemma length_three (c : string) :
  String.length c = 3%nat → ∃ x y z, c = String x (String y (String z "")).
Proof. destruct c as [|x [|y [|z [|]]]]; try done. by exists x, y, z. Qed.

Lemma length_six (c : string) :
  String.length c = 6%nat →
  ∃ r1 r2 g1 g2 b1 b2,
    c = String r1 (String r2 (String g1 (String g2 (String b1 (String b2 ""))))).
Proof.
  destruct c as [|r1 [|r2 [|g1 [|g2 [|b1 [|b2 [|]]]]]]]; try done.
  by exists r1, r2, g1, g2, b1, b2.
Qed.

Lemma clamp_hex_color_range hex_color r g b :
  _clamp_hex_color hex_color = (r, g, b) →
  -15 <= r <= 255 ∧ -15 <= g <= 255 ∧ -15 <= b <= 255.
Proof.
  unfold _clamp_hex_color.
  set (c := PyStr.lstrip (Ascii.eqb "#") hex_color). clearbody c.
  destruct (Nat.eqb_spec (String.length c) 6) as [H6|_].
  { destruct (length_six c H6) as (r1 & r2 & g1 & g2 & b1 & b2 & ->). simpl.
    destruct (PyInt.of_string_16 (String r1 _)) as [vr|] eqn:Hr; [|intros [= <- <- <-]; lia].
    destruct (PyInt.of_string_16 (String g1 _)) as [vg|] eqn:Hg; [|intros [= <- <- <-]; lia].
    destruct (PyInt.of_string_16 (String b1 _)) as [vb|] eqn:Hb; [|intros [= <- <- <-]; lia].
    intros [= <- <- <-].
    apply of_string_16_two in Hr, Hg, Hb. lia. }
  destruct (Nat.eqb_spec (String.length c) 3) as [H3|_]; [|intros [= <- <- <-]; lia].
  destruct (length_three c H3) as (x & y & z & ->).
  cbn [String.substring]. rewrite !append_cons, !append_nil_l.
  destruct (PyInt.of_string_16 (String x _)) as [vr|] eqn:Hr; [|intros [= <- <- <-]; lia].
  destruct (PyInt.of_string_16 (String y _)) as [vg|] eqn:Hg; [|intros [= <- <- <-]; lia].
  destruct (PyInt.of_string_16 (String z _)) as [vb|] eqn:Hb; [|intros [= <- <- <-]; lia].
  intros [= <- <- <-].
  apply of_string_16_two in Hr, Hg, Hb. lia.
Qed.

Lemma lstrip_not_sharp s u : PyStr.lstrip (Ascii.eqb "#") s ≠ String "#" u.
Proof.
  revert u. induction s as [|c s IH]; intros u; [done|]. cbn [PyStr.lstrip].
  destruct (Ascii.eqb "#" c) eqn:Hc; [apply IH|].
  intros [= -> _]. by rewrite Ascii.eqb_refl in Hc.
Qed.

End Clamp.

(** X17.  [_clamp_hex_color] returns a triple for every string (the
    embedding is for ASCII text): black when what follows the leading
    sharps has neither six nor three characters; for three characters
    what it returns for the six in which each is doubled; and in every
    case components from -15 to 255, for it takes whatever
    [int(_, 16)] accepts in two characters, a sign or a blank too, so a
    component can be negative, as in "#-f-f-f". *)
Theorem clamp_hex_color_components hex_color :
  let '(r, g, b) := _clamp_hex_color hex_color in
  (-15 <= r <= 255 ∧ -15 <= g <= 255 ∧ -15 <= b <= 255)
  ∧ (let n := String.length (PyStr.lstrip (Ascii.eqb "#") hex_color) in
     n ≠ 6%nat → n ≠ 3%nat → (r, g, b) = (0, 0, 0))
  ∧ (∀ x y z,
       PyStr.lstrip (Ascii.eqb "#") hex_color = String x (String y (String z "")) →
       (r, g, b) =
         _clamp_hex_color
           (String x (String x (String y (String y (String z (String z "")))))))
  ∧ _clamp_hex_color "#-f-f-f" = (-15, -15, -15).
Proof.
  destruct (_clamp_hex_color hex_color) as [[r g] b] eqn:Hc.
  split; [by eapply clamp_hex_color_range|]. split; [|split; [|done]].
  - cbv zeta. intros H6 H3. rewrite <- Hc. unfold _clamp_hex_color.
    destruct (Nat.eqb_spec (String.length (PyStr.lstrip (Ascii.eqb "#") hex_color)) 6);
      [done|].
    by destruct (Nat.eqb_spec (String.length (PyStr.lstrip (Ascii.eqb "#") hex_color)) 3).
  - intros x y z Hxyz. rewrite <- Hc. unfold _clamp_hex_color at 1. rewrite Hxyz.
    assert (Hx : Ascii.eqb "#" x = false).
    { destruct (Ascii.eqb "#" x) eqn:Hx; [|done].
      apply Ascii.eqb_eq in Hx as <-. by apply lstrip_not_sharp in Hxyz. }
    unfold _clamp_hex_color. cbn [PyStr.lstrip]. rewrite Hx.
    cbn [String.length Nat.eqb String.substring]. by rewrite !append_cons, !append_nil_l.
Qed.

Section Shade.

(** Every channel value that [_clamp_hex_color] can give, shaded by
    every percent of the documented range, by computation. *)
Lemma shaded_in_range v p :
  -15 <= v <= 255 → -100 <= p <= 100 →
  ∃ factor n,
    PyInt.truediv (100 + p) hundred = Some factor
    ∧ shaded v factor = Some n
    ∧ 0 <= n <= 255
    ∧ (p <= 0 → n <= channel v)
    ∧ (0 <= p → channel v <= n)
    ∧ (p = -100 → n = 0).
Proof.
  intros Hv Hp.
  assert (Hall : forallb (λ p,
            match PyInt.truediv (100 + p) hundred with
            | Some factor =>
                forallb (λ v,
                  match shaded v factor with
                  | Some n =>
                      (0 <=? n) && (n <=? 255)
                      && ((0 <? p) || (n <=? channel v))
                      && ((p <? 0) || (channel v <=? n))
                      && (negb (p =? -100) || (n =? 0))
                  | None => false
                  end) (seqZ (-15) 271)
            | None => false
            end) (seqZ (-100) 201) = true).
  { by vm_compute. }
  rewrite forallb_forall in Hall.
  assert (Hp' : In p (seqZ (-100) 201)) by (apply list_elem_of_In, elem_of_seqZ; lia).
  specialize (Hall p Hp').
  destruct (PyInt.truediv (100 + p) hundred) as [factor|] eqn:Hf; [|done].
  rewrite forallb_forall in Hall.
  assert (Hv' : In v (seqZ (-15) 271)) by (apply list_elem_of_In, elem_of_seqZ; lia).
  specialize (Hall v Hv').
  destruct (shaded v factor) as [n|] eqn:Hn; [|done].
  exists factor, n. split; [done|]. split; [done|].
  repeat (apply andb_true_iff in Hall as [Hall ?]).
  repeat match goal with
         | H : (_ || _) = true |- _ => apply orb_true_iff in H
         | H : negb _ = true |- _ => apply negb_true_iff in H
         end.
  lia.
Qed.

End Shade.

(** X18.  [_shade] within its documented range: for every string and every
    percent from -100 to 100 it returns a sharp and six upper-case
    hexadecimal digits, whose three components, as [_clamp_hex_color]
    reads them back, lie in 0..255 and are, against the components of the
    given colour brought into 0..255, none higher when the percent is
    negative or zero, none lower when it is positive or zero (so equal at
    zero), and all zero at -100. *)
Theorem shade_within_documented_range hex_color percent :
  -100 <= percent <= 100 →
  let '(r, g, b) := _clamp_hex_color hex_color in
  ∃ nr ng nb,
    _shade hex_color percent = _rgb_to_hex [nr; ng; nb]
    ∧ well_formed_colour (_shade hex_color percent)
    ∧ _clamp_hex_color (_shade hex_color percent) = (nr, ng, nb)
    ∧ (0 <= nr <= 255 ∧ 0 <= ng <= 255 ∧ 0 <= nb <= 255)
    ∧ (percent <= 0 → nr <= channel r ∧ ng <= channel g ∧ nb <= channel b)
    ∧ (0 <= percent → channel r <= nr ∧ channel g <= ng ∧ channel b <= nb)
    ∧ (percent = -100 → (nr, ng, nb) = (0, 0, 0)).
Proof.
  intros Hp. unfold _shade.
  destruct (_clamp_hex_color hex_color) as [[r g] b] eqn:Hc.
  destruct (clamp_hex_color_range _ _ _ _ Hc) as (Hr & Hg & Hb).
  destruct (shaded_in_range r percent Hr Hp) as (factor & nr & Hf & Er & Rr & Dr & Lr & Zr).
  destruct (shaded_in_range g percent Hg Hp) as (f2 & ng & Hf2 & Eg & Rg & Dg & Lg & Zg).
  destruct (shaded_in_range b percent Hb Hp) as (f3 & nb & Hf3 & Eb & Rb & Db & Lb & Zb).
  rewrite Hf in Hf2, Hf3. injection Hf2 as <-. injection Hf3 as <-.
  rewrite Hf, Er, Eg, Eb. clear Er Eg Eb.
  exists nr, ng, nb. split; [done|].
  destruct (rgb_to_hex_digits nr ng nb)
    as (r1 & r2 & g1 & g2 & b1 & b2 & -> & Hall & Er & Eg & Eb).
  split; [by exists r1, r2, g1, g2, b1, b2|]. split.
  { rewrite (clamp_hex_color_read r1 r2 g1 g2 b1 b2 _ _ _
               ltac:(by apply Forall_cons in Hall as [? _]) Er Eg Eb).
    unfold channel. f_equal; [f_equal|]; lia. }
  split; [done|]. split; [auto|]. split; [auto|].
  intros H100. by rewrite Zr, Zg, Zb.
Qed.

Section Palettes.

Lemma palette_not_empty name : palette name ≠ [].
Proof.
  unfold palette, CHART_PALETTES. cbn [List.find fst snd].
  repeat (destruct (String.eqb _ name); [done|]). done.
Qed.

(** The loop, from a state in which [i] is the length of [out], with
    turns enough for what is missing. *)
Lemma palletize_loop_runs base (length : Z) (fuel : nat) (out : list string) :
  base ≠ [] →
  (Z.to_nat length - List.length out <= fuel)%nat →
  ∃ result,
    palletize_loop fuel base out (Z.of_nat (List.length out)) length = Some result
    ∧ List.length result = Nat.max (List.length out) (Z.to_nat length)
    ∧ (∀ k, (k < List.length out)%nat → result !! k = out !! k)
    ∧ (∀ k, (List.length out <= k < Z.to_nat length)%nat →
         result !! k = base !! (k mod List.length base)%nat).
Proof.
  intros Hbase. revert out. induction fuel as [|fuel IH]; intros out Hfuel.
  - cbn [palletize_loop]. destruct (Z.ltb_spec (Z.of_nat (List.length out)) length); [lia|].
    exists out. split; [done|]. split; [lia|]. split; [done|]. intros k Hk. lia.
  - cbn [palletize_loop].
    destruct (Z.ltb_spec (Z.of_nat (List.length out)) length) as [Hlt|Hge].
    + destruct base as [|c0 base'] eqn:Eb; [done|]. rewrite <- Eb in *.
      assert (Hlen : (0 < List.length base)%nat) by (rewrite Eb; simpl; lia).
      assert (Hidx : Z.to_nat (Z.of_nat (List.length out) mod Z.of_nat (List.length base))
                     = (List.length out mod List.length base)%nat).
      { rewrite <- Nat2Z.inj_mod. apply Nat2Z.id. }
      rewrite Hidx.
      destruct (lookup_lt_is_Some_2 base (List.length out mod List.length base)%nat)
        as [colour Hcolour]; [apply Nat.mod_upper_bound; lia|].
      rewrite Hcolour.
      destruct (IH (out ++ [colour])) as (result & Hres & Hl & Hold & Hnew).
      { rewrite length_app. simpl. lia. }
      rewrite length_app in Hres, Hl, Hold, Hnew. simpl in Hres, Hl, Hold, Hnew.
      replace (Z.of_nat (List.length out + 1)) with (Z.of_nat (List.length out) + 1)
        in Hres by lia.
      exists result. split; [done|]. split; [lia|]. split.
      * intros k Hk. rewrite Hold by lia. by rewrite lookup_app_l.
      * intros k Hk. destruct (decide (k = List.length out)) as [->|Hne].
        -- rewrite Hold by lia. rewrite lookup_app_r by lia.
           by rewrite Nat.sub_diag.
        -- apply Hnew. lia.
    + exists out. split; [done|]. split; [lia|]. split; [done|]. intros k Hk. lia.
Qed.

End Palettes.

(** X19.  [palletize] ends for every name and every length, with a list
    of exactly [length] colours (none when [length] is zero or below)
    that runs through the palette of the name again and again from its
    first colour; a name that [CHART_PALETTES] does not have gets the
    "vibrant" palette. *)
Theorem palletize_cycles name (length : Z) :
  ∃ out,
    palletize name length = Some out
    ∧ List.length out = Z.to_nat length
    ∧ (∀ k, (k < Z.to_nat length)%nat →
         out !! k = palette name !! (k mod List.length (palette name))%nat)
    ∧ (name ∉ List.map fst CHART_PALETTES → palette name = palette "vibrant").
Proof.
  destruct (palletize_loop_runs (palette name) length (Z.to_nat length) [])
    as (out & Hout & Hlen & _ & Hnew); [apply palette_not_empty|simpl; lia|].
  exists out. split; [done|]. split; [by rewrite Hlen|]. split.
  - intros k Hk. apply Hnew. simpl. lia.
  - intros Hname. unfold palette.
    assert (Hnone : ∀ d : list (string * list string), name ∉ List.map fst d →
              List.find (λ entry, String.eqb (fst entry) name) d = None).
    { induction d as [|[k v] d IH]; [done|]. simpl. intros Hk.
      apply not_elem_of_cons in Hk as [Hk Hd].
      destruct (String.eqb_spec k name) as [->|_]; [done|by apply IH]. }
    by rewrite Hnone.
Qed.

(** ** Loading at the edges *)

(** X20.  [load_data] at the edges.  With no file, or with one whose
    reading raises [IOError] or [json.JSONDecodeError] (it cannot be
    opened, or its text is not JSON), it keeps the attributes as they are
    and writes them to the file when the file can be written: at start-up
    the defaults then replace whatever such a file held.  With a file
    that holds a JSON object it leaves the file as it is and takes each
    attribute from it, and for a key that the file lacks it takes no
    transactions, the categories the object has at that moment, no
    budgets and the symbol "$".  (A file that is no text in the encoding
    of the locale, or holds JSON other than an object, makes
    [ExpenseLogic()] raise; such files are outside the embedding.) *)
Theorem load_data_at_the_edges w :
  (disk w = Missing ∨ disk w = Corrupted →
     self (load_data w) = self w
     ∧ (writable w = true → disk (load_data w) = Json (dump (self w)))
     ∧ (writable w = false → disk (load_data w) = disk w))
  ∧ (∀ file can_write, file = Missing ∨ file = Corrupted →
       self (init file can_write) = initial_attributes
       ∧ (can_write = true →
          disk (init file can_write) = Json (dump initial_attributes)))
  ∧ (∀ data, disk w = Json data →
       disk (load_data w) = Json data
       ∧ transactions (self (load_data w)) = default [] (doc_transactions data)
       ∧ categories (self (load_data w)) =
           default (categories (self w)) (doc_categories data)
       ∧ budgets (self (load_data w)) = default ∅ (doc_budgets data)
       ∧ currency_symbol (self (load_data w)) = default "$" (doc_currency_symbol data)).
Proof.
  split; [|split].
  - intros Hfile.
    assert (Hsave : load_data w = save_data w).
    { unfold load_data. by destruct Hfile as [-> | ->]. }
    rewrite Hsave, self_save_data. split; [done|].
    split; intros Hw.
    + by apply save_data_writable.
    + by rewrite save_data_read_only.
  - intros file can_write Hfile.
    assert (Hsave : init file can_write =
              save_data {| self := initial_attributes; disk := file;
                           writable := can_write |}).
    { unfold init, load_data. by destruct Hfile as [-> | ->]. }
    rewrite Hsave, self_save_data. split; [done|].
    intros ->. by rewrite save_data_writable.
  - intros data Hdata. unfold load_data. rewrite Hdata. simpl. by rewrite Hdata.
Qed.

(** ** The further properties at concrete inputs *)

Lemma example_ledger_reachable : reachable example_ledger.
Proof. unfold example_ledger. do 3 apply reach_add_transaction. apply reach_first_run. Qed.

Lemma add_transaction_goes_behind_same_date_witness :
  reachable example_ledger
  ∧ PyFloat.of_string "12.5" = Some (S754_finite false 7036874417766400 (-49))
  ∧ PyDate.strptime "2024-5-1" =
      Some {| PyDate.year := 2024; PyDate.month := 5; PyDate.day := 1 |}
  ∧ ∃ before after,
      transactions (self example_ledger) = before ++ after
      ∧ List.map t_id
          (transactions
             (self (fst (add_transaction "expense" "12.5" "Dining" "lunch" "2024-5-1"
                           example_ledger)))) =
          List.map t_id before ++ 4 :: List.map t_id after
      ∧ Forall (λ t, String.le "2024-05-01" (t_date t)) before
      ∧ Forall (λ t, String.le (t_date t) "2024-05-01" ∧ t_date t ≠ "2024-05-01") after.
Proof.
  assert (Ha : PyFloat.of_string "12.5" = Some (S754_finite false 7036874417766400 (-49)))
    by reflexivity.
  assert (Hd : PyDate.strptime "2024-5-1" =
               Some {| PyDate.year := 2024; PyDate.month := 5; PyDate.day := 1 |})
    by reflexivity.
  split; [exact example_ledger_reachable|]. split; [exact Ha|]. split; [exact Hd|].
  destruct (add_transaction_goes_behind_same_date
              "expense" "12.5" "Dining" "lunch" "2024-5-1" example_ledger _ _
              example_ledger_reachable Ha Hd)
    as (before & after & Hold & Hnew & Hbefore & Hafter).
  exists before, after. split; [exact Hold|]. split; [|split; [exact Hbefore|exact Hafter]].
  rewrite Hnew, map_app. reflexivity.
Defined.

Lemma add_transaction_report_unchanged_witness :
  reachable example_ledger
  ∧ PyFloat.of_string "80" = Some (S754_finite false 5629499534213120 (-46))
  ∧ PyDate.strptime "2024-4-2" =
      Some {| PyDate.year := 2024; PyDate.month := 4; PyDate.day := 2 |}
  ∧ get_monthly_report_data may_2024
      (fst (add_transaction "expense" "80" "Dining" "" "2024-4-2" example_ledger)) =
    get_monthly_report_data may_2024 example_ledger
  ∧ total_expense
      (get_monthly_report_data may_2024
         (fst (add_transaction "transfer" "80" "Dining" "" "2024-5-2" example_ledger))) =
    total_expense (get_monthly_report_data may_2024 example_ledger).
Proof.
  assert (Ha : PyFloat.of_string "80" = Some (S754_finite false 5629499534213120 (-46)))
    by reflexivity.
  assert (Hd : PyDate.strptime "2024-4-2" =
               Some {| PyDate.year := 2024; PyDate.month := 4; PyDate.day := 2 |})
    by reflexivity.
  assert (Hd' : PyDate.strptime "2024-5-2" =
               Some {| PyDate.year := 2024; PyDate.month := 5; PyDate.day := 2 |})
    by reflexivity.
  split; [exact example_ledger_reachable|]. split; [exact Ha|]. split; [exact Hd|].
  split.
  - destruct (add_transaction_report_unchanged
                "expense" "80" "Dining" "" "2024-4-2" example_ledger _ _ may_2024
                example_ledger_reachable Ha Hd) as (Hout & _); [simpl; lia..|].
    apply Hout. simpl. lia.
  - destruct (add_transaction_report_unchanged
                "transfer" "80" "Dining" "" "2024-5-2" example_ledger _ _ may_2024
                example_ledger_reachable Ha Hd') as (_ & _ & Hexp & _); [simpl; lia..|].
    apply Hexp. discriminate.
Defined.

Lemma reachable_ids_are_one_to_n_witness :
  reachable example_ledger
  ∧ t_id <$> transactions (self example_ledger)
      ≡ₚ seqZ 1 (Z.of_nat (length (transactions (self example_ledger))))
  ∧ Z.of_nat (length (transactions (self example_ledger))) + 1
      ∉ t_id <$> transactions (self example_ledger).
Proof.
  split; [exact example_ledger_reachable|].
  destruct (reachable_ids_are_one_to_n example_ledger example_ledger_reachable)
    as (Hperm & _ & Hnext).
  split; [exact Hperm|exact Hnext].
Defined.

Lemma reachable_totals_have_no_minus_sign_witness :
  reachable example_ledger
  ∧ PyFloat.ltb (total_expense (get_monthly_report_data may_2024 example_ledger))
      PyFloat.zero = false
  ∧ shown_without_minus (total_expense (get_monthly_report_data may_2024 example_ledger)).
Proof.
  split; [exact example_ledger_reachable|].
  destruct (reachable_totals_have_no_minus_sign example_ledger may_2024
              example_ledger_reachable) as (_ & _ & Hexpense & _).
  exact Hexpense.
Defined.

Lemma early_ledger_reachable : reachable early_ledger.
Proof. unfold early_ledger. apply reach_add_transaction, example_ledger_reachable. Qed.

(** The entry of the year 999 is stored as ['999-12-31'] and stands in
    front of the entries of 2024: below the year 1000 the order of the
    ledger is not the order of the calendar. *)
Example ledger_order_below_year_1000 :
  PyDate.strptime "0999-12-31" =
    Some {| PyDate.year := 999; PyDate.month := 12; PyDate.day := 31 |}
  ∧ t_date <$> transactions (self early_ledger) =
      ["999-12-31"; "2024-05-03"; "2024-05-01"; "2024-04-30"]
  ∧ PyDate.strptime "999-12-31" = None.
Proof. split; [reflexivity|]. split; reflexivity. Qed.

Lemma reachable_ledger_in_calendar_order_witness :
  reachable early_ledger
  ∧ t_date <$> transactions (self early_ledger) =
      ["999-12-31"; "2024-05-03"; "2024-05-01"; "2024-04-30"]
  ∧ String.le "2024-05-03" "999-12-31"
  ∧ calendar_le {| PyDate.year := 2024; PyDate.month := 4; PyDate.day := 30 |}
                {| PyDate.year := 2024; PyDate.month := 5; PyDate.day := 3 |}.
Proof.
  split; [exact early_ledger_reachable|]. split; [reflexivity|].
  assert (Hl : ∃ e a m b,
    transactions (self early_ledger) = [] ++ e :: [] ++ a :: [m; b]
    ∧ transactions (self early_ledger) = [e] ++ a :: [m] ++ b :: []
    ∧ t_date e = "999-12-31" ∧ t_date a = "2024-05-03" ∧ t_date b = "2024-04-30").
  { eexists _, _, _, _. split; [reflexivity|]. split; [reflexivity|].
    split; [reflexivity|]. split; reflexivity. }
  destruct Hl as (e & a & m & b & Hl1 & Hl2 & He & Ha & Hb).
  split.
  - destruct (reachable_ledger_in_calendar_order early_ledger [] e [] a [m; b]
                early_ledger_reachable Hl1) as (_ & Hle & _).
    rewrite He, Ha in Hle. exact Hle.
  - destruct (reachable_ledger_in_calendar_order early_ledger [e] a [m] b []
                early_ledger_reachable Hl2) as (_ & _ & Hcal).
    apply Hcal.
    + reflexivity.
    + reflexivity.
    + rewrite Ha. reflexivity.
    + rewrite Hb. reflexivity.
    + simpl. lia.
    + simpl. lia.
Defined.

Lemma reachable_month_test_is_calendar_month_witness :
  reachable early_ledger
  ∧ "999-12-31" ∈ t_date <$> transactions (self early_ledger)
  ∧ (PyStr.startswith "999-12-31"
       (PyDate.strftime_Ym {| PyDate.year := 999; PyDate.month := 12; PyDate.day := 1 |}) = true
     ↔ 999 = 999 ∧ 12 = 12)
  ∧ (PyStr.startswith "999-12-31" (PyDate.strftime_Ym may_2024) = true
     ↔ 999 = 2024 ∧ 12 = 5).
Proof.
  split; [exact early_ledger_reachable|].
  assert (Hl : ∃ t r, transactions (self early_ledger) = t :: r ∧ t_date t = "999-12-31").
  { eexists _, _. split; reflexivity. }
  destruct Hl as (t & r & Hl & Ht).
  assert (Hin : t ∈ transactions (self early_ledger)).
  { rewrite Hl. apply list_elem_of_here. }
  split; [rewrite <- Ht; by apply list_elem_of_fmap_2|].
  destruct (reachable_month_test_is_calendar_month early_ledger t
              early_ledger_reachable Hin) as [_ Hmonth].
  rewrite Ht in Hmonth.
  split.
  - apply (Hmonth {| PyDate.year := 999; PyDate.month := 12; PyDate.day := 31 |}
             {| PyDate.year := 999; PyDate.month := 12; PyDate.day := 1 |});
      [reflexivity|reflexivity|simpl; lia|simpl; lia].
  - apply (Hmonth {| PyDate.year := 999; PyDate.month := 12; PyDate.day := 31 |} may_2024);
      [reflexivity|reflexivity|simpl; lia|simpl; lia].
Defined.

Lemma methods_change_one_attribute_witness :
  "income" ≠ "expense"
  ∧ get_categories "income" (fst (add_category "Pets" "expense" fresh)) =
      get_categories "income" fresh.
Proof.
  assert (Hne : "income" ≠ "expense") by discriminate.
  split; [exact Hne|].
  destruct (methods_change_one_attribute fresh) as (_ & _ & Hcat & _).
  destruct (Hcat "Pets" "expense") as (_ & _ & _ & Hother).
  exact (Hother "income" Hne).
Defined.

Lemma reachable_categories_keep_defaults_witness :
  reachable (fst (add_category "pet food" "expense" fresh))
  ∧ (∃ added, get_categories "expense" (fst (add_category "pet food" "expense" fresh)) =
       ["Groceries"; "Rent"; "Transport"; "Dining"; "Utilities"; "Other"] ++ added)
  ∧ NoDup (get_categories "expense" (fst (add_category "pet food" "expense" fresh))).
Proof.
  assert (Hr : reachable (fst (add_category "pet food" "expense" fresh))).
  { apply reach_add_category, reach_first_run. }
  split; [exact Hr|].
  destruct (reachable_categories_keep_defaults _ Hr) as (Hexpense & _ & Hnodup).
  split; [exact Hexpense|exact (Hnodup "expense")].
Defined.

Lemma add_category_second_time_refused_witness :
  categories (self fresh) !! "expense" =
    Some ["Groceries"; "Rent"; "Transport"; "Dining"; "Utilities"; "Other"]
  ∧ normalize "PET FOOD " = normalize "pet food"
  ∧ fst (add_category "PET FOOD " "expense" (fst (add_category "pet food" "expense" fresh))) =
      fst (add_category "pet food" "expense" fresh)
  ∧ ∃ message,
      snd (add_category "PET FOOD " "expense" (fst (add_category "pet food" "expense" fresh))) =
        Return (false, message).
Proof.
  assert (Hc : categories (self fresh) !! "expense" =
               Some ["Groceries"; "Rent"; "Transport"; "Dining"; "Utilities"; "Other"])
    by reflexivity.
  assert (Hn : normalize "PET FOOD " = normalize "pet food") by reflexivity.
  split; [exact Hc|]. split; [exact Hn|].
  exact (add_category_second_time_refused "pet food" "PET FOOD " "expense" fresh _ Hc Hn).
Defined.

Lemma successful_change_survives_restart_witness :
  writable fresh = true
  ∧ fst (snd (add_transaction "expense" "12.5" "Dining" "lunch" "2024-05-02" fresh)) = true
  ∧ self (init (disk (fst (add_transaction "expense" "12.5" "Dining" "lunch" "2024-05-02"
                             fresh))) false) =
      self (fst (add_transaction "expense" "12.5" "Dining" "lunch" "2024-05-02" fresh)).
Proof.
  assert (Hw : writable fresh = true) by reflexivity.
  assert (Hs : fst (snd (add_transaction "expense" "12.5" "Dining" "lunch" "2024-05-02"
                           fresh)) = true) by reflexivity.
  split; [exact Hw|]. split; [exact Hs|].
  destruct (successful_change_survives_restart fresh Hw) as (_ & Hadd & _).
  exact (Hadd "expense" "12.5" "Dining" "lunch" "2024-05-02" false Hs).
Defined.

Lemma write_failure_is_silent_witness :
  writable (init Missing false) = false
  ∧ snd (add_transaction "expense" "12.5" "Dining" "lunch" "2024-05-02" (init Missing false)) =
      snd (add_transaction "expense" "12.5" "Dining" "lunch" "2024-05-02"
             {| self := self (init Missing false); disk := disk (init Missing false);
                writable := true |})
  ∧ disk (fst (add_transaction "expense" "12.5" "Dining" "lunch" "2024-05-02"
                 (init Missing false))) = disk (init Missing false).
Proof.
  assert (Hw : writable (init Missing false) = false) by reflexivity.
  split; [exact Hw|].
  destruct (write_failure_is_silent (init Missing false) Hw) as (_ & Hadd & _).
  destruct (Hadd "expense" "12.5" "Dining" "lunch" "2024-05-02") as (Hresult & _ & Hdisk).
  split; [exact Hresult|exact Hdisk].
Defined.

Lemma window_never_sets_a_budget_witness :
  window_run (init Missing true)
    (fst (set_new_budget "500"
       (fst (submit_transaction "Expense" "12.5" "Dining" "" "2024-05-02"
               (init Missing true)))))
  ∧ get_budgets
      (fst (set_new_budget "500"
         (fst (submit_transaction "Expense" "12.5" "Dining" "" "2024-05-02"
                 (init Missing true))))) = ∅.
Proof.
  assert (Hrun : window_run (init Missing true)
            (fst (set_new_budget "500"
               (fst (submit_transaction "Expense" "12.5" "Dining" "" "2024-05-02"
                       (init Missing true)))))).
  { apply run_set_new_budget, run_submit_transaction, run_start. }
  split; [exact Hrun|].
  destruct (window_never_sets_a_budget Missing true _ Hrun) as (_ & Hempty).
  apply Hempty. left. reflexivity.
Defined.

Lemma update_currency_shown_in_settings_witness :
  ("EUR (â‚¬)", "â‚¬") ∈ get_currencies fresh
  ∧ current_currency_name (fst (update_currency "EUR (â‚¬)" fresh)) = Some "EUR (â‚¬)"
  ∧ ("Euro" ∉ List.map fst (get_currencies fresh))
  ∧ update_currency "Euro" fresh = (fresh, Uncaught (KeyError "Euro")).
Proof.
  assert (Hin : ("EUR (â‚¬)", "â‚¬") ∈ get_currencies fresh).
  { apply list_elem_of_further, list_elem_of_here. }
  assert (Hout : "Euro" ∉ List.map fst (get_currencies fresh)).
  { apply (bool_decide_unpack _). reflexivity. }
  destruct (update_currency_shown_in_settings fresh) as (Hset & Hunknown & _).
  split; [exact Hin|]. split; [|split; [exact Hout|exact (Hunknown "Euro" Hout)]].
  destruct (Hset _ _ Hin) as (_ & _ & Hname & _). exact Hname.
Defined.

Lemma dashboard_plots_no_spending_witness :
  List.filter (month_expense may_2024) (transactions (self example_ledger)) ≠ []
  ∧ pie (show_dashboard_frame may_2024 example_ledger) = None
  ∧ List.filter (month_expense may_2024) (transactions (self fresh)) = []
  ∧ pie (show_dashboard_frame may_2024 fresh) = Some ([], []).
Proof.
  assert (Hsome : List.filter (month_expense may_2024) (transactions (self example_ledger))
                  ≠ []) by discriminate.
  assert (Hnone : List.filter (month_expense may_2024) (transactions (self fresh)) = [])
    by reflexivity.
  split; [exact Hsome|]. split; [|split; [exact Hnone|]].
  - destruct (dashboard_plots_no_spending may_2024 example_ledger) as (_ & Hplot).
    exact (Hplot Hsome).
  - destruct (dashboard_plots_no_spending may_2024 fresh) as (Hplot & _).
    exact (Hplot Hnone).
Defined.

Lemma dropdown_preselects_first_default_witness :
  reachable (fst (add_category "pet food" "expense" fresh))
  ∧ snd (update_categories_dropdown "Expense" (fst (add_category "pet food" "expense" fresh))) =
      "Groceries"
  ∧ snd (update_categories_dropdown "Income" (fst (add_category "pet food" "expense" fresh))) =
      "Salary".
Proof.
  assert (Hr : reachable (fst (add_category "pet food" "expense" fresh))).
  { apply reach_add_category, reach_first_run. }
  split; [exact Hr|].
  destruct (dropdown_preselects_first_default _ Hr) as (Hexpense & Hincome & _).
  split; [exact Hexpense|exact Hincome].
Defined.

Lemma clamp_hex_color_components_witness :
  PyStr.lstrip (Ascii.eqb "#") "#fa0" = "fa0"
  ∧ _clamp_hex_color "#fa0" = (255, 170, 0)
  ∧ (255, 170, 0) = _clamp_hex_color "ffaa00"
  ∧ String.length (PyStr.lstrip (Ascii.eqb "#") "#12345") ≠ 6%nat
  ∧ String.length (PyStr.lstrip (Ascii.eqb "#") "#12345") ≠ 3%nat
  ∧ _clamp_hex_color "#12345" = (0, 0, 0).
Proof.
  assert (Hl : PyStr.lstrip (Ascii.eqb "#") "#fa0" = "fa0") by reflexivity.
  assert (Hc : _clamp_hex_color "#fa0" = (255, 170, 0)) by reflexivity.
  assert (H6 : String.length (PyStr.lstrip (Ascii.eqb "#") "#12345") ≠ 6%nat) by discriminate.
  assert (H3 : String.length (PyStr.lstrip (Ascii.eqb "#") "#12345") ≠ 3%nat) by discriminate.
  split; [exact Hl|]. split; [exact Hc|]. split; [|split; [exact H6|split; [exact H3|]]].
  - pose proof (clamp_hex_color_components "#fa0") as H.
    rewrite Hc in H. destruct H as (_ & _ & Hshort & _).
    exact (Hshort "f"%char "a"%char "0"%char Hl).
  - pose proof (clamp_hex_color_components "#12345") as H.
    destruct (_clamp_hex_color "#12345") as [[r g] b].
    destruct H as (_ & Hlen & _). exact (Hlen H6 H3).
Defined.

Lemma shade_within_documented_range_witness :
  -100 <= -8 <= 100
  ∧ _clamp_hex_color "#1976FF" = (25, 118, 255)
  ∧ ∃ nr ng nb,
      _shade "#1976FF" (-8) = _rgb_to_hex [nr; ng; nb]
      ∧ _clamp_hex_color (_shade "#1976FF" (-8)) = (nr, ng, nb)
      ∧ nr <= 25 ∧ ng <= 118 ∧ nb <= 255.
Proof.
  assert (Hp : -100 <= -8 <= 100) by lia.
  assert (Hc : _clamp_hex_color "#1976FF" = (25, 118, 255)) by reflexivity.
  split; [exact Hp|]. split; [exact Hc|].
  pose proof (shade_within_documented_range "#1976FF" (-8) Hp) as H.
  rewrite Hc in H. destruct H as (nr & ng & nb & Hs & _ & Hread & _ & Hdark & _).
  exists nr, ng, nb. split; [exact Hs|]. split; [exact Hread|].
  apply Hdark. lia.
Defined.

Lemma palletize_cycles_witness :
  ("crazy" ∉ List.map fst CHART_PALETTES)
  ∧ palette "crazy" = palette "vibrant"
  ∧ ∃ out, palletize "sunset" 5 = Some out ∧ List.length out = 5%nat
           ∧ out !! 4%nat = palette "sunset" !! 1%nat.
Proof.
  assert (Hout : "crazy" ∉ List.map fst CHART_PALETTES).
  { apply (bool_decide_unpack _). reflexivity. }
  split; [exact Hout|]. split.
  - destruct (palletize_cycles "crazy" 0) as (out & _ & _ & _ & Hname).
    exact (Hname Hout).
  - destruct (palletize_cycles "sunset" 5) as (out & Hsome & Hlen & Hk & _).
    exists out. split; [exact Hsome|]. split; [exact Hlen|].
    apply (Hk 4%nat). simpl. lia.
Defined.

Lemma load_data_at_the_edges_witness :
  disk {| self := self example_ledger;
          disk := Json {| doc_transactions := None; doc_categories := None;
                          doc_budgets := None; doc_currency_symbol := Some "kr" |};
          writable := true |} =
    Json {| doc_transactions := None; doc_categories := None;
            doc_budgets := None; doc_currency_symbol := Some "kr" |}
  ∧ transactions
      (self (load_data
               {| self := self example_ledger;
                  disk := Json {| doc_transactions := None; doc_categories := None;
                                  doc_budgets := None; doc_currency_symbol := Some "kr" |};
                  writable := true |})) = []
  ∧ (Corrupted = Missing ∨ Corrupted = Corrupted)
  ∧ disk (init Corrupted true) = Json (dump initial_attributes).
Proof.
  split; [reflexivity|]. split.
  - destruct (load_data_at_the_edges
                {| self := self example_ledger;
                   disk := Json {| doc_transactions := None; doc_categories := None;
                                   doc_budgets := None; doc_currency_symbol := Some "kr" |};
                   writable := true |}) as (_ & _ & Hfile).
    destruct (Hfile _ eq_refl) as (_ & Hledger & _). exact Hledger.
  - assert (Hc : Corrupted = Missing ∨ Corrupted = Corrupted) by (right; reflexivity).
    split; [exact Hc|].
    destruct (load_data_at_the_edges fresh) as (_ & Hstart & _).
    destruct (Hstart Corrupted true Hc) as (_ & Hdisk). exact (Hdisk eq_refl).
Defined.
